(** * Agent examples: the network routing loop, its tools and sub-agents,
      the day planner and the weather tool

    A shallow embedding of the TypeScript sources
    - [network-agent/src/agent/network/index.ts] (routing loop, [executeTool]),
    - [network-agent/src/agent/network/tools.ts] ([getWeather], [toolDefinitions]),
    - [network-agent/src/agent/network/workflows.ts] ([cityWorkflow]),
    - [network-agent/src/agent/research/index.ts], [.../writing/index.ts],
    - [structured-output/src/agent/day-planner/index.ts],
    - [using-tools/src/agent/weather/index.ts] ([getCoordinates], [getWeather]),
    - the memory agent of the agent-memory example (its two [push] calls),
    followed by the properties proved about them.

    Conventions.
    - A JavaScript string is its sequence of UTF-16 code units ([jstring]).
    - [undefined] is [None] in [jsval]; a value read from JSON is a [json].
    - A number read from JSON is kept as the text that [Number.prototype.toString]
      gives for it: the sources only print such numbers or use them as property
      keys, and both go through that text.
    - Code that talks to the outside (the chat-completion client, [fetch], the
      clock) runs in a state-and-exception monad over an abstract [World].
    - The [while] loop of the routing agent runs as long as the model asks
      for tools; it is given [fuel], a bound on its passes, and a run that
      needs more has no result ([None]).
    - The thread state is a finite map that the handlers take and return.
    - [ctx.logger] calls return nothing and change nothing that the code reads
      back; they are left out. *)

From Stdlib Require Import String Ascii NArith List Lia DecimalString.
From stdpp Require Import base option list gmap.

Set Default Proof Using "Type".
Set Warnings "-register-all".
Open Scope N_scope.
Open Scope list_scope.

(* ===================================================================== *)
(** ** JavaScript strings and values *)
(* ===================================================================== *)

Module Js.

(** UTF-16 code units. *)
Definition jstring : Type := list N.

(** An ASCII literal of the source, as code units. *)
Definition lit (s : string) : jstring :=
  map N_of_ascii (list_ascii_of_string s).

(** U+0022, written apart because a literal cannot hold it. *)
Definition dquote : jstring := [34].
(** U+2022 BULLET and U+00B0 DEGREE SIGN. *)
Definition bullet : jstring := [8226].
Definition degree : jstring := [176].
Definition newline : jstring := [10].

(** A literal in which the source's double quotes are written as backquotes
    (the source text itself holds no backquote). *)
Definition litq (s : string) : jstring :=
  map (fun c => if c =? 96 then 34 else c) (lit s).

(** The class [\s] of a regular expression, which is also what
    [String.prototype.trim] removes: WhiteSpace and LineTerminator. *)
Definition is_space (c : N) : bool :=
  ((9 <=? c) && (c <=? 13))
  || (c =? 32) || (c =? 160) || (c =? 5760)
  || ((8192 <=? c) && (c <=? 8202))
  || (c =? 8232) || (c =? 8233) || (c =? 8239) || (c =? 8287)
  || (c =? 12288) || (c =? 65279).

Fixpoint trimStart (s : jstring) : jstring :=
  match s with
  | c :: s' => if is_space c then trimStart s' else s
  | [] => []
  end.

Definition trimEnd (s : jstring) : jstring := rev (trimStart (rev s)).

(** [s.trim()] *)
Definition trim (s : jstring) : jstring := trimEnd (trimStart s).

(** [s.slice(0, n)] for a string. *)
Definition slice0 (n : nat) (s : jstring) : jstring := take n s.

(** [parts.join(sep)] on an array of strings. *)
Fixpoint join (sep : jstring) (parts : list jstring) : jstring :=
  match parts with
  | [] => []
  | [p] => p
  | p :: rest => p ++ sep ++ join sep rest
  end.

(** [s.split(c)] for a one-unit separator [c]: the pieces between the
    occurrences of [c]; [cur] holds the piece being read, reversed. *)
Fixpoint split_unit_from (c : N) (cur : jstring) (s : jstring) : list jstring :=
  match s with
  | [] => [rev cur]
  | x :: s' =>
      if (x =? c) then rev cur :: split_unit_from c [] s'
      else split_unit_from c (x :: cur) s'
  end.

Definition split_unit (c : N) (s : jstring) : list jstring :=
  split_unit_from c [] s.

(** [s.split(/\s+/)]: the separator matches a maximal run of [\s], so the
    string is cut at every such run; a run at the very start or end leaves
    an empty piece before or after it, and the empty string gives one empty
    piece. [in_run] tells that the previous unit was part of a run. *)
Fixpoint split_spaces_from (in_run : bool) (cur : jstring) (s : jstring)
  : list jstring :=
  match s with
  | [] => [rev cur]
  | x :: s' =>
      if is_space x then
        if in_run then split_spaces_from true [] s'
        else rev cur :: split_spaces_from true [] s'
      else split_spaces_from false (x :: cur) s'
  end.

Definition split_spaces (s : jstring) : list jstring :=
  split_spaces_from false [] s.

(** Values that [JSON.parse] can give. *)
Inductive json : Type :=
| JNull
| JBool (b : bool)
| JNum (text : jstring)
| JStr (s : jstring)
| JArr (items : list json)
| JObj (members : list (jstring * json)).

(** A JavaScript value of the kind the sources handle: [None] is [undefined]. *)
Definition jsval : Type := option json.

(** Induction on a value, through the items of an array and the members of
    an object. *)
Section JsonInduction.
Variable Q : json -> Prop.
Hypothesis Q_null : Q JNull.
Hypothesis Q_bool : forall b, Q (JBool b).
Hypothesis Q_num : forall text, Q (JNum text).
Hypothesis Q_str : forall s, Q (JStr s).
Hypothesis Q_arr : forall items, Forall Q items -> Q (JArr items).
Hypothesis Q_obj :
  forall members, Forall (fun m => Q (snd m)) members -> Q (JObj members).

Fixpoint json_induction (v : json) : Q v :=
  match v with
  | JNull => Q_null
  | JBool b => Q_bool b
  | JNum text => Q_num text
  | JStr s => Q_str s
  | JArr items =>
      Q_arr items
        ((fix all (l : list json) : Forall Q l :=
            match l with
            | [] => @List.Forall_nil _ _
            | x :: rest =>
                @List.Forall_cons _ _ x rest (json_induction x) (all rest)
            end) items)
  | JObj members =>
      Q_obj members
        ((fix all (l : list (jstring * json))
            : Forall (fun m => Q (snd m)) l :=
            match l with
            | [] => @List.Forall_nil _ _
            | m :: rest =>
                @List.Forall_cons _ _ m rest (json_induction (snd m))
                  (all rest)
            end) members)
  end.

End JsonInduction.

(** Truthiness, as tested by [||]. *)
Definition truthy (v : jsval) : bool :=
  match v with
  | None | Some JNull => false
  | Some (JBool b) => b
  | Some (JNum text) => negb (bool_decide (text = lit "0"))
  | Some (JStr s) => negb (bool_decide (s = []))
  | Some (JArr _) | Some (JObj _) => true
  end.

(** Own member [k] of an object; the first binding of [k] is the one the
    object holds. *)
Fixpoint member (k : jstring) (ms : list (jstring * json)) : jsval :=
  match ms with
  | [] => None
  | (k', v) :: ms' => if decide (k' = k) then Some v else member k ms'
  end.

End Js.

Export Js.

(* ===================================================================== *)
(** ** Exceptions and effects *)
(* ===================================================================== *)

Inductive Exn : Type :=
| TypeError
| SyntaxError
| URIError
| ValidationError
| Rejected (reason : jstring).

Inductive Result (A : Type) : Type :=
| Ok (a : A)
| Throw (e : Exn).
Arguments Ok {A} a.
Arguments Throw {A} e.

(** [String(v)], the conversion that a template literal, a property key and
    [encodeURIComponent] apply to [v]. An array prints its elements, from
    the first on, and joins these [pieces] by commas, [null] among them
    printing as the empty string. An object prints as
    [[object Object]] through the method [toString] that it inherits; an
    object that holds a member of its own named [toString] has lost that
    method (a value that [JSON.parse] gives is never callable), and the
    conversion throws a TypeError, also when the object sits in an array. *)
Fixpoint pieces (print : json -> Result jstring) (items : list json)
  : Result (list jstring) :=
  match items with
  | [] => Ok []
  | x :: rest =>
      match match x with JNull => Ok [] | _ => print x end with
      | Throw e => Throw e
      | Ok piece =>
          match pieces print rest with
          | Throw e => Throw e
          | Ok others => Ok (piece :: others)
          end
      end
  end.

Fixpoint to_string (v : json) : Result jstring :=
  match v with
  | JNull => Ok (lit "null")
  | JBool true => Ok (lit "true")
  | JBool false => Ok (lit "false")
  | JNum text => Ok text
  | JStr s => Ok s
  | JArr items =>
      match pieces to_string items with
      | Throw e => Throw e
      | Ok printed => Ok (join (lit ",") printed)
      end
  | JObj members =>
      match member (lit "toString") members with
      | Some _ => Throw TypeError
      | None => Ok (lit "[object Object]")
      end
  end.

Definition template (v : jsval) : Result jstring :=
  match v with
  | None => Ok (lit "undefined")
  | Some j => to_string j
  end.

(** [v.k] for a key [k] that no prototype defines (every key the sources read
    this way is one: [location], [topic], [plan], [results], ...): [undefined]
    unless [v] is an object holding [k]; reading a member of [undefined] or
    [null] throws. *)
Definition prop (v : jsval) (k : jstring) : Result jsval :=
  match v with
  | None | Some JNull => Throw TypeError
  | Some (JObj ms) => Ok (member k ms)
  | Some _ => Ok None
  end.

(** [v?.[0]]: [undefined] when [v] is [undefined] or [null]; otherwise element
    0 of an array, the first unit of a string, the member ["0"] of an object. *)
Definition first_opt (v : jsval) : jsval :=
  match v with
  | Some (JArr (x :: _)) => Some x
  | Some (JStr (c :: _)) => Some (JStr [c])
  | Some (JObj ms) => member (lit "0") ms
  | _ => None
  end.

(** [l.slice(-n)]: the last [n] elements, all of [l] when it has fewer. *)
Definition slice_last {A : Type} (n : nat) (l : list A) : list A :=
  drop (length l - n) l.

(* ===================================================================== *)
(** ** The chat-completion client's data *)
(* ===================================================================== *)

Module OpenAI.

Inductive Role : Type := system | user | assistant | tool.

(** A tool call of an assistant message; [type] is ['function'] for the first
    constructor and ['custom'] for the second. *)
Inductive ToolCall : Type :=
| FunctionToolCall (id : jstring) (name : jstring) (arguments : jstring)
| CustomToolCall (id : jstring) (name : jstring) (input : jstring).

Definition is_function (tc : ToolCall) : bool :=
  match tc with
  | FunctionToolCall _ _ _ => true
  | CustomToolCall _ _ _ => false
  end.

Definition call_id (tc : ToolCall) : jstring :=
  match tc with
  | FunctionToolCall id _ _ => id
  | CustomToolCall id _ _ => id
  end.

(** [ChatCompletionMessageParam] *)
Record Message : Type := mkMessage {
  role : Role;
  content : option jstring;
  tool_calls : option (list ToolCall);
  tool_call_id : option jstring;
}.

(** [completion.choices[i].message] *)
Record ResponseMessage : Type := mkResponseMessage {
  msg_content : option jstring;
  msg_tool_calls : option (list ToolCall);
}.

(** A completion: the messages of its choices, and [usage?.total_tokens]. *)
Record Completion : Type := mkCompletion {
  choices : list ResponseMessage;
  usage_total_tokens : option N;
}.

Record ToolDefinition : Type := mkToolDefinition {
  td_name : jstring;
  td_description : jstring;
  td_parameters : json;
}.

(** The argument of [client.chat.completions.create]. [tools] is given
    together with [tool_choice: 'auto'] or not at all; [json_mode] stands for
    [response_format: { type: 'json_object' }]. *)
Record ChatRequest : Type := mkChatRequest {
  req_model : jstring;
  req_messages : list Message;
  req_tools : option (list ToolDefinition);
  req_json_mode : bool;
}.

End OpenAI.

Export OpenAI.

(** What [fetch] resolves to: the [ok] flag and the outcome of reading the
    body as text. *)
Record Response : Type := mkResponse {
  ok : bool;
  text : Result jstring;
}.

(** The outside of the program. [JSON_parse] and [encodeURIComponent] are the
    built-ins of those names; the first throws [SyntaxError] on text that is
    not JSON, the second [URIError] on a lone surrogate.
    [prototype_member_text k] is the text a template literal gives for the
    member [k] of [Object.prototype] (the source text of [toString], say),
    [None] when [Object.prototype] has no member [k]. *)
Class Platform : Type := mkPlatform {
  World : Type;
  chat_completions_create : ChatRequest -> World -> Result Completion * World;
  fetch : jstring -> World -> Result Response * World;
  toISOString_now : World -> jstring * World;
  JSON_parse : jstring -> Result json;
  encodeURIComponent : jstring -> Result jstring;
  prototype_member_text : jstring -> option jstring;
}.

Section Monad.
Context {P : Platform}.

(** A computation that reads and changes the outside and ends normally or by
    throwing. *)
Definition M (A : Type) : Type := World -> Result A * World.

Definition ret {A} (a : A) : M A := fun w => (Ok a, w).

Definition throw {A} (e : Exn) : M A := fun w => (Throw e, w).

Definition bind {A B} (m : M A) (k : A -> M B) : M B :=
  fun w =>
    match m w with
    | (Ok a, w') => k a w'
    | (Throw e, w') => (Throw e, w')
    end.

(** [try { m } catch { h }] *)
Definition try_catch {A} (m : M A) (h : Exn -> M A) : M A :=
  fun w =>
    match m w with
    | (Ok a, w') => (Ok a, w')
    | (Throw e, w') => h e w'
    end.

(** A step that cannot change the outside. *)
Definition pure {A} (r : Result A) : M A := fun w => (r, w).

Definition create (req : ChatRequest) : M Completion :=
  chat_completions_create req.

Definition do_fetch (url : jstring) : M Response := fetch url.

Definition now : M jstring := fun w => let (t, w') := toISOString_now w in (Ok t, w').

(** [response.json()]: the body read as text and parsed. *)
Definition json_of (r : Response) : M json :=
  pure (match text r with
        | Ok t => JSON_parse t
        | Throw e => Throw e
        end).

(** A computation that may also fail to end: [None] when [fuel] passes of
    a loop were not enough. *)
Definition L (A : Type) : Type := World -> option (Result A * World).

Definition lift {A} (m : M A) : L A := fun w => Some (m w).

Definition bindL {A B} (m : L A) (k : A -> L B) : L B :=
  fun w =>
    match m w with
    | Some (Ok a, w') => k a w'
    | Some (Throw e, w') => Some (Throw e, w')
    | None => None
    end.

End Monad.

Notation "'let*' x ':=' m 'in' k" := (bind m (fun x => k))
  (at level 10, x pattern, m at level 100, k at level 200).
Notation "'let+' x ':=' m 'in' k" := (bindL m (fun x => k))
  (at level 10, x pattern, m at level 100, k at level 200).

(* ===================================================================== *)
(** ** Thread state *)
(* ===================================================================== *)

Module ThreadState.

Section Ops.
Context {V : Type}.

(** Modelled from the spec: [ctx.thread.state.get] of the runtime, which is
    not part of the sources; a namespaced key-value store, [undefined] for a
    key never set. *)
Definition get (key : jstring) (st : gmap jstring V) : option V := st !! key.

(** Modelled from the spec: [ctx.thread.state.set] of the runtime. *)
Definition set (key : jstring) (v : V) (st : gmap jstring V) : gmap jstring V :=
  <[key := v]> st.

(** Modelled from the spec: [ctx.thread.state.delete] of the runtime. *)
Definition delete (key : jstring) (st : gmap jstring V) : gmap jstring V :=
  base.delete key st.

End Ops.

(** Modelled from the spec: [ctx.thread.state.push(key, item, capacity)] of
    the runtime: appends, then truncates to the most recent [capacity] items,
    oldest first out. *)
Definition push {A : Type} (key : jstring) (item : A) (capacity : nat)
    (st : gmap jstring (list A)) : gmap jstring (list A) :=
  <[key := slice_last capacity (default [] (st !! key) ++ [item])]> st.

End ThreadState.

(** [ctx.sessionId] and [ctx.thread.id]. *)
Module Runtime.
Record Ctx : Type := mkCtx {
  sessionId : jstring;
  threadId : jstring;
}.
End Runtime.
Abbreviation Ctx := Runtime.Ctx.

(** The models an agent accepts ([MODELS]). *)
Inductive Model : Type := gpt_5_nano | gpt_5_mini | gpt_5.

Definition model_name (m : Model) : jstring :=
  match m with
  | gpt_5_nano => lit "gpt-5-nano"
  | gpt_5_mini => lit "gpt-5-mini"
  | gpt_5 => lit "gpt-5"
  end.

(** [completion.choices[0]?.message] *)
Definition first_message (c : Completion) : option ResponseMessage :=
  head (choices c).

(** [completion.choices[0]?.message?.content], [None] for [undefined] and
    for [null] alike. *)
Definition first_content (c : Completion) : option jstring :=
  match first_message c with
  | Some m => msg_content m
  | None => None
  end.

Definition user_message (text : jstring) : Message :=
  mkMessage user (Some text) None None.

(* ===================================================================== *)
(** ** Research agent *)
(* ===================================================================== *)

Module Research.

Record ResearchOutput : Type := mkResearchOutput {
  topic : jstring;
  insights : list jstring;
  sessionId : jstring;
  threadId : jstring;
}.

Definition prompt (topic : jstring) : jstring :=
  lit "You are a research assistant. Research the following topic and provide key insights as bullet points.
Be concise and factual. Focus on extracting the most important and interesting facts.
Do not write full paragraphs - only bullet points.

Topic: " ++ topic ++ lit "

Provide 5-7 key bullet points:".

(** [line.replace(/^[-•*]\s*/, '')] *)
Definition strip_bullet (line : jstring) : jstring :=
  match line with
  | c :: rest =>
      if (c =? 45) || (c =? 8226) || (c =? 42) then trimStart rest else line
  | [] => []
  end.

(** Parse bullet points from the response. *)
Definition parse_insights (content : jstring) : list jstring :=
  filter (fun line => (0 < length line)%nat)
    (map (fun line => trim (strip_bullet line)) (split_unit 10 content)).

Section Agent.
Context {P : Platform}.

Definition handler (ctx : Ctx) (topic : jstring) (model : option Model)
  : M ResearchOutput :=
  let model := default gpt_5_mini model in
  let* completion :=
    create (mkChatRequest (model_name model) [user_message (prompt topic)]
              None false) in
  let content := default [] (first_content completion) in
  let insights := parse_insights content in
  ret (mkResearchOutput topic insights (Runtime.sessionId ctx) (Runtime.threadId ctx)).

(** Modelled from the spec: [research.run] of the runtime's [createAgent],
    which is not part of the sources: the input is checked against
    [ResearchInput] before the handler runs, and refused when [topic] is not
    a string. Callers in the sources pass no [model]. *)
Definition run (ctx : Ctx) (topic : jsval) : M ResearchOutput :=
  match topic with
  | Some (JStr t) => handler ctx t None
  | _ => throw ValidationError
  end.

End Agent.

End Research.

(* ===================================================================== *)
(** ** Writing agent *)
(* ===================================================================== *)

Module Writing.

Inductive Style : Type := blog | article | summary | report.

Definition style_name (s : Style) : jstring :=
  match s with
  | blog => lit "blog"
  | article => lit "article"
  | summary => lit "summary"
  | report => lit "report"
  end.

Record WritingOutput : Type := mkWritingOutput {
  topic : jstring;
  content : jstring;
  wordCount : nat;
  sessionId : jstring;
  threadId : jstring;
}.

Definition insightsList (insights : list jstring) : jstring :=
  join newline (map (fun i => lit "- " ++ i) insights).

Definition prompt (topic : jstring) (insights : list jstring) (style : Style)
  : jstring :=
  lit "You are a professional writer. Transform the following research insights into a well-structured "
  ++ style_name style ++ lit ".

Topic: " ++ topic ++ lit "

Research Insights:
" ++ insightsList insights ++ lit "

Instructions:
- Write in full paragraphs, no bullet points
- Create a cohesive narrative that flows naturally
- Include all the key insights in your writing
- Write in an engaging, informative style
- Target 200-400 words

Write the " ++ style_name style ++ lit ":".

(** [content.split(/\s+/).length] *)
Definition count_words (content : jstring) : nat :=
  length (split_spaces content).

Section Agent.
Context {P : Platform}.

Definition handler (ctx : Ctx) (topic : jstring) (insights : list jstring)
    (style : option Style) (model : option Model) : M WritingOutput :=
  let style := default blog style in
  let model := default gpt_5_mini model in
  let* completion :=
    create (mkChatRequest (model_name model)
              [user_message (prompt topic insights style)] None false) in
  let content := default [] (first_content completion) in
  let wordCount := count_words content in
  ret (mkWritingOutput topic content wordCount
         (Runtime.sessionId ctx) (Runtime.threadId ctx)).

(** The strings of an array of strings; [None] for any other value. *)
Definition as_strings (v : jsval) : option (list jstring) :=
  match v with
  | Some (JArr items) =>
      mapM (fun x => match x with JStr s => Some s | _ => None end) items
  | _ => None
  end.

(** A member of the [style] enumeration; [None] for any other value. *)
Definition as_style (s : jstring) : option Style :=
  if decide (s = lit "blog") then Some blog
  else if decide (s = lit "article") then Some article
  else if decide (s = lit "summary") then Some summary
  else if decide (s = lit "report") then Some report
  else None.

(** Modelled from the spec: [writing.run] of the runtime's [createAgent],
    which is not part of the sources: the input is checked against
    [WritingInput] before the handler runs: [topic] a string, [insights] an
    array of strings, [style] absent or one of the four styles. Callers in
    the sources pass no [model]. *)
Definition run (ctx : Ctx) (topic insights style : jsval) : M WritingOutput :=
  match topic, as_strings insights with
  | Some (JStr t), Some ins =>
      match style with
      | None => handler ctx t ins None None
      | Some (JStr s) =>
          match as_style s with
          | Some st => handler ctx t ins (Some st) None
          | None => throw ValidationError
          end
      | Some _ => throw ValidationError
      end
  | _, _ => throw ValidationError
  end.

End Agent.

End Writing.

(* ===================================================================== *)
(** ** Network agent: tools *)
(* ===================================================================== *)

Module Tools.

Record Weather : Type := mkWeather {
  location : jsval;
  weather : jstring;
}.

Section GetWeather.
Context {P : Platform}.

(** Weather Tool: retrieves current weather information using the wttr.in
    API. The argument is declared a string; the caller passes whatever the
    model put under [location], so it is a [jsval] here and goes through
    [String(location)] where the source needs a string;
    [encodeURIComponent] converts its argument first, which can throw. *)
Definition getWeather (location : jsval) : M Weather :=
  let* shown := pure (template location) in
  let* encoded := pure (encodeURIComponent shown) in
  let url := lit "https://wttr.in/" ++ encoded ++ lit "?format=%C+%t+%h+%w" in
  let* response := do_fetch url in
  let* weather := pure (text response) in
  ret (mkWeather location (trim weather)).

End GetWeather.

Definition string_property (description : string) : json :=
  JObj [(lit "type", JStr (lit "string"));
        (lit "description", JStr (lit description))].

Definition object_schema (properties : list (jstring * json))
    (required : list string) : json :=
  JObj [(lit "type", JStr (lit "object"));
        (lit "properties", JObj properties);
        (lit "required", JArr (map (fun r => JStr (lit r)) required))].

(** Tool definitions for OpenAI function calling. *)
Definition toolDefinitions : list ToolDefinition :=
  [ mkToolDefinition (lit "get_weather")
      (lit "Retrieves current weather information. Use this tool whenever up-to-date weather data is requested for a specific location.")
      (object_schema
         [(lit "location",
           string_property "The city or location to get weather for")]
         ["location"%string]);
    mkToolDefinition (lit "research_topic")
      (lit "Gathers concise research insights about a topic in bullet-point form. Use this when you need to extract key facts about any subject.")
      (object_schema
         [(lit "topic", string_property "The topic to research")]
         ["topic"%string]);
    mkToolDefinition (lit "write_content")
      (lit "Turns research insights into well-structured written content. Use this after gathering research to produce full paragraphs suitable for articles or blog posts.")
      (object_schema
         [(lit "topic", string_property "The topic being written about");
          (lit "insights",
           JObj [(lit "type", JStr (lit "array"));
                 (lit "items", JObj [(lit "type", JStr (lit "string"))]);
                 (lit "description",
                  JStr (lit "Research insights to incorporate into the writing"))]);
          (lit "style",
           JObj [(lit "type", JStr (lit "string"));
                 (lit "enum",
                  JArr [JStr (lit "blog"); JStr (lit "article");
                        JStr (lit "summary"); JStr (lit "report")]);
                 (lit "description", JStr (lit "The writing style to use"))])]
         ["topic"%string; "insights"%string]);
    mkToolDefinition (lit "city_research")
      (lit "Handles city-specific research tasks. First gathers factual information about the city, then synthesizes that research into a full written report. Use this when the user wants comprehensive information about a specific city.")
      (object_schema
         [(lit "city", string_property "The name of the city to research")]
         ["city"%string]) ].

End Tools.

(* ===================================================================== *)
(** ** Network agent: workflows *)
(* ===================================================================== *)

Module Workflows.

Record ResearchPart : Type := mkResearchPart {
  insights : list jstring;
}.

Record ReportPart : Type := mkReportPart {
  content : jstring;
  wordCount : nat;
}.

Record CityWorkflowOutput : Type := mkCityWorkflowOutput {
  city : jsval;
  research : ResearchPart;
  report : ReportPart;
}.

(** The fixed descriptor that follows the city in the research topic. *)
Definition topic_suffix : jstring :=
  lit " - history, culture, landmarks, and interesting facts".

Section CityWorkflow.
Context {P : Platform}.

(** City Workflow: handles city-specific research tasks. [city] is declared
    a string; [executeTool] passes whatever the model put under [city], and
    the template literal of the topic converts it to a string. *)
Definition cityWorkflow (ctx : Ctx) (city : jsval) : M CityWorkflowOutput :=
  (* Step 1: Research the city *)
  let* shown := pure (template city) in
  let* researchResult :=
    Research.run ctx (Some (JStr (shown ++ topic_suffix))) in
  (* Step 2: Write a report based on the research *)
  let* writingResult :=
    Writing.run ctx city
      (Some (JArr (map JStr (Research.insights researchResult))))
      (Some (JStr (lit "report"))) in
  ret (mkCityWorkflowOutput city
         (mkResearchPart (Research.insights researchResult))
         (mkReportPart (Writing.content writingResult)
            (Writing.wordCount writingResult))).

End CityWorkflow.

End Workflows.

(* ===================================================================== *)
(** ** Network agent: routing loop *)
(* ===================================================================== *)

Module Network.

Inductive NetworkEventType : Type :=
| network_start
| routing_agent_start
| routing_agent_end
| agent_execution_start
| agent_execution_end
| tool_execution_start
| tool_execution_end
| workflow_execution_start
| workflow_execution_end
| network_step_finish
| network_complete.

(** The payload of an event: nothing, a plain object built for the event, or
    [{ tools: executedPrimitives }], which holds the handler's own array and
    not a copy of it. *)
Inductive Payload : Type :=
| NoPayload
| Plain (members : list (jstring * json))
| ToolsSoFar.

Record NetworkEvent : Type := mkNetworkEvent {
  type : NetworkEventType;
  timestamp : jstring;
  payload : Payload;
}.

Record HistoryEntry : Type := mkHistoryEntry {
  h_role : Role;
  h_content : jstring;
}.

Record NetworkInput : Type := mkNetworkInput {
  in_message : jstring;
  in_model : option Model;
}.

Record NetworkOutput : Type := mkNetworkOutput {
  message : jstring;
  response : jstring;
  events : list NetworkEvent;
  executedPrimitives : list jstring;
  sessionId : jstring;
  threadId : jstring;
}.

Definition systemPrompt : jstring :=
  lit "You are a network of writers and researchers.
The user will ask you to research topics, get weather, or learn about cities.
Always respond with complete, helpful information.
Write in full paragraphs, like a blog post when appropriate.
Do not answer with incomplete or uncertain information.

You have access to the following tools:
1. get_weather - Get current weather for any location
2. research_topic - Gather research insights about any topic
3. write_content - Turn research insights into well-written content
4. city_research - Get comprehensive information about a city (research + written report)

For complex tasks:
- If the user wants a written report, first use research_topic, then use write_content
- If the user asks about a specific city, consider using city_research for a complete report
- For simple weather questions, just use get_weather

Always use tools when appropriate rather than making up information.".

(** The state that one pass of the [while] loop reads and writes. *)
Record LoopState : Type := mkLoopState {
  st_messages : list Message;
  st_events : list NetworkEvent;
  st_executedPrimitives : list jstring;
  st_assistantMessage : option ResponseMessage;
  st_response : jstring;
}.

(** [content || previous]: the content unless it is missing or empty. *)
Definition content_or (am : option ResponseMessage) (previous : jstring)
  : jstring :=
  match am with
  | Some (mkResponseMessage (Some (c :: s)) _) => c :: s
  | _ => previous
  end.

(** The loop condition [assistantMessage?.tool_calls &&
    assistantMessage.tool_calls.length > 0], giving the calls when it holds. *)
Definition pending_calls (am : option ResponseMessage)
  : option (ResponseMessage * list ToolCall) :=
  match am with
  | Some m =>
      match msg_tool_calls m with
      | Some (tc :: tcs) => Some (m, tc :: tcs)
      | _ => None
      end
  | None => None
  end.

Section Agent.
Context {P : Platform}.

(** Helper to create network events. *)
Definition createEvent (type : NetworkEventType) (payload : Payload)
  : M NetworkEvent :=
  let* timestamp := now in
  ret (mkNetworkEvent type timestamp payload).

(** [events.push(createEvent(type, payload))] *)
Definition push_event (events : list NetworkEvent) (type : NetworkEventType)
    (payload : Payload) : M (list NetworkEvent) :=
  let* e := createEvent type payload in
  ret (events ++ [e]).

(** Execute a tool call and return the result, with the events as they are
    after the call ([events] is the array the source pushes to). [ctx] is the
    agent context in which the sub-agents run; the source reaches it through
    the runtime, not through an argument. *)
Definition executeTool (ctx : Ctx) (toolName : jstring) (args : json)
    (events : list NetworkEvent) : M (jstring * list NetworkEvent) :=
  let* events :=
    push_event events tool_execution_start
      (Plain [(lit "tool", JStr toolName); (lit "args", args)]) in
  let* (result, events) :=
    if decide (toolName = lit "get_weather") then
      let* location := pure (prop (Some args) (lit "location")) in
      let* weather := Tools.getWeather location in
      let* shown := pure (template (Tools.location weather)) in
      ret (lit "Weather in " ++ shown ++ lit ": " ++ Tools.weather weather,
           events)
    else if decide (toolName = lit "research_topic") then
      let* events :=
        push_event events agent_execution_start
          (Plain [(lit "agent", JStr (lit "research"))]) in
      let* topic := pure (prop (Some args) (lit "topic")) in
      let* researchResult := Research.run ctx topic in
      let* events :=
        push_event events agent_execution_end
          (Plain [(lit "agent", JStr (lit "research"))]) in
      ret (lit "Research on " ++ dquote ++ Research.topic researchResult
             ++ dquote ++ lit ":" ++ newline
             ++ join newline
                  (map (fun i => bullet ++ lit " " ++ i)
                     (Research.insights researchResult)),
           events)
    else if decide (toolName = lit "write_content") then
      let* events :=
        push_event events agent_execution_start
          (Plain [(lit "agent", JStr (lit "writing"))]) in
      let* topic := pure (prop (Some args) (lit "topic")) in
      let* insights := pure (prop (Some args) (lit "insights")) in
      let* style := pure (prop (Some args) (lit "style")) in
      let* writeResult :=
        Writing.run ctx topic insights
          (if truthy style then style else Some (JStr (lit "blog"))) in
      let* events :=
        push_event events agent_execution_end
          (Plain [(lit "agent", JStr (lit "writing"))]) in
      ret (Writing.content writeResult, events)
    else if decide (toolName = lit "city_research") then
      let* events :=
        push_event events workflow_execution_start
          (Plain [(lit "workflow", JStr (lit "city"))]) in
      let* city := pure (prop (Some args) (lit "city")) in
      let* cityResult := Workflows.cityWorkflow ctx city in
      let* events :=
        push_event events workflow_execution_end
          (Plain [(lit "workflow", JStr (lit "city"))]) in
      ret (Workflows.content (Workflows.report cityResult), events)
    else
      ret (lit "Unknown tool: " ++ toolName, events) in
  let* events :=
    push_event events tool_execution_end
      (Plain [(lit "tool", JStr toolName);
              (lit "result", JStr (slice0 200 result))]) in
  ret (result, events).

(** What the [for] loop over the tool calls has built so far. *)
Record Round : Type := mkRound {
  toolResults : list Message;
  rd_executedPrimitives : list jstring;
  rd_events : list NetworkEvent;
}.

(** The body of the [for] loop, for one tool call. *)
Definition run_tool_call (ctx : Ctx) (toolCall : ToolCall) (r : Round)
  : M Round :=
  match toolCall with
  | CustomToolCall _ _ _ =>
      (* Type guard for function tool calls *)
      ret r
  | FunctionToolCall id toolName arguments =>
      let* args := pure (JSON_parse arguments) in
      let executed := rd_executedPrimitives r ++ [toolName] in
      let* (result, events) := executeTool ctx toolName args (rd_events r) in
      ret (mkRound
             (toolResults r ++ [mkMessage tool (Some result) None (Some id)])
             executed events)
  end.

(** Execute all tool calls. *)
Fixpoint run_tool_calls (ctx : Ctx) (calls : list ToolCall) (r : Round)
  : M Round :=
  match calls with
  | [] => ret r
  | toolCall :: rest =>
      let* r' := run_tool_call ctx toolCall r in
      run_tool_calls ctx rest r'
  end.

Definition routing_request (model : Model) (messages : list Message)
  : ChatRequest :=
  mkChatRequest (model_name model) messages (Some Tools.toolDefinitions) false.

(** One pass of the [while] loop, entered with the assistant message [am] and
    its non-empty [calls]. *)
Definition loop_body (ctx : Ctx) (model : Model) (st : LoopState)
    (am : ResponseMessage) (calls : list ToolCall) : M LoopState :=
  let* r :=
    run_tool_calls ctx calls
      (mkRound [] (st_executedPrimitives st) (st_events st)) in
  let* events := push_event (rd_events r) network_step_finish ToolsSoFar in
  (* Continue the conversation with tool results *)
  let messages :=
    st_messages st
      ++ [mkMessage assistant (msg_content am) (msg_tool_calls am) None]
      ++ toolResults r in
  let* events := push_event events routing_agent_start NoPayload in
  (* Get next response *)
  let* completion := create (routing_request model messages) in
  let* events := push_event events routing_agent_end NoPayload in
  let assistantMessage := first_message completion in
  let response := content_or assistantMessage (st_response st) in
  ret (mkLoopState messages events (rd_executedPrimitives r)
         assistantMessage response).

(** Process tool calls in a loop until no more are needed. *)
Fixpoint while_loop (fuel : nat) (ctx : Ctx) (model : Model) (st : LoopState)
  : L LoopState :=
  match pending_calls (st_assistantMessage st) with
  | None => lift (ret st)
  | Some (am, calls) =>
      match fuel with
      | O => fun _ => None
      | S fuel' =>
          let+ st' := lift (loop_body ctx model st am calls) in
          while_loop fuel' ctx model st'
      end
  end.

Definition history_message (h : HistoryEntry) : Message :=
  mkMessage (h_role h) (Some (h_content h)) None None.

(** The handler. It is given the thread state and returns it as it is at
    the end, next to the output. *)
Definition handler (fuel : nat) (ctx : Ctx) (input : NetworkInput)
    (state : gmap jstring (list HistoryEntry))
  : L (NetworkOutput * gmap jstring (list HistoryEntry)) :=
  let message := in_message input in
  let model := default gpt_5_mini (in_model input) in
  let+ events :=
    lift (push_event [] network_start (Plain [(lit "message", JStr message)])) in
  (* Store conversation history in thread state *)
  let history := default [] (ThreadState.get (lit "conversation") state) in
  (* Build messages array with history *)
  let messages :=
    [mkMessage system (Some systemPrompt) None None]
      ++ map history_message history
      ++ [mkMessage user (Some message) None None] in
  let+ events := lift (push_event events routing_agent_start NoPayload) in
  (* Initial routing call with tools *)
  let+ completion := lift (create (routing_request model messages)) in
  let+ events := lift (push_event events routing_agent_end NoPayload) in
  let assistantMessage := first_message completion in
  let response := content_or assistantMessage [] in
  (* Process tool calls in a loop until no more are needed *)
  let+ st :=
    while_loop fuel ctx model
      (mkLoopState messages events [] assistantMessage response) in
  let response := st_response st in
  (* Update conversation history *)
  let history := history ++ [mkHistoryEntry user message] in
  let history := history ++ [mkHistoryEntry assistant response] in
  (* Keep last 10 exchanges *)
  let state :=
    ThreadState.set (lit "conversation") (slice_last 20 history) state in
  let+ events :=
    lift (push_event (st_events st) network_complete
            (Plain [(lit "response", JStr (slice0 200 response))])) in
  lift (ret (mkNetworkOutput message response events
               (st_executedPrimitives st)
               (Runtime.sessionId ctx) (Runtime.threadId ctx),
             state)).

End Agent.

End Network.

(* ===================================================================== *)
(** ** Day planner agent *)
(* ===================================================================== *)

Module DayPlanner.

Inductive PlanType : Type := work | personal | mixed.

Definition planType_name (t : PlanType) : jstring :=
  match t with
  | work => lit "work"
  | personal => lit "personal"
  | mixed => lit "mixed"
  end.

Record HistoryEntry : Type := mkHistoryEntry {
  h_model : jstring;
  h_sessionId : jstring;
  h_prompt : jstring;
  h_timestamp : jstring;
  h_tokens : N;
  h_planType : jstring;
  h_activityCount : option nat;
}.

Record AgentInput : Type := mkAgentInput {
  in_model : option Model;
  in_prompt : jstring;
  in_planType : option PlanType;
}.

(** [plan] and [summary] are whatever the parsed value holds under those
    names. [totalActivities] is [Some n] when the sum is the number [n], and
    [None] when the sum is a JavaScript value that is not followed: [NaN], a
    string, or a number that is no natural number up to 2^53. *)
Record AgentOutput : Type := mkAgentOutput {
  plan : jsval;
  summary : jsval;
  totalActivities : option nat;
  history : list HistoryEntry;
  sessionId : jstring;
  threadId : jstring;
  tokens : N;
}.

Definition systemPrompt (planType : PlanType) : jstring :=
  litq "You are a day planning assistant. Create a structured daily plan based on the user's description.

Return a JSON object with this exact structure:
{
  `plan`: [
    {
      `name`: `Morning`,
      `activities`: [
        {
          `name`: `Activity name`,
          `startTime`: `HH:MM`,
          `endTime`: `HH:MM`,
          `description`: `Brief description`,
          `priority`: `high` | `medium` | `low`
        }
      ]
    }
  ],
  `summary`: `Brief summary of the day`
}

Guidelines:
- Create 2-4 time blocks (Morning, Afternoon, Evening, Night)
- Each block should have 2-5 activities
- Plan type is: " ++ planType_name planType ++ lit " (focus on "
  ++ match planType with
     | work => lit "professional tasks"
     | personal => lit "personal activities"
     | mixed => lit "a mix of both"
     end
  ++ lit ")
- Be realistic with time estimates
- Return ONLY valid JSON, no additional text".

(** The value the [catch] branch assigns to [parsedPlan]. *)
Definition fallbackPlan : json :=
  JObj [(lit "plan",
         JArr [JObj [(lit "name", JStr (lit "Morning"));
                     (lit "activities",
                      JArr [JObj [(lit "name", JStr (lit "Plan your day"));
                                  (lit "startTime", JStr (lit "09:00"));
                                  (lit "endTime", JStr (lit "09:30"));
                                  (lit "description",
                                   JStr (lit "Take time to organize your schedule"));
                                  (lit "priority", JStr (lit "high"))]])]]);
        (lit "summary", JStr (lit "A simple day plan to get started."))].

(** The right operand of [sum + ...], as far as the sum follows it: a
    natural number, or a value that makes the sum something else. *)
Inductive Operand : Type :=
| Natural (n : N)
| Unfollowed.

(** Naturals up to this one are numbers that [+] adds without rounding. *)
Definition exact_limit : N := 9007199254740992.

(** The natural number that a number's text writes: decimal digits, with no
    leading zero. *)
Definition natural_of_text (text : jstring) : option N :=
  match text with
  | [] => None
  | [48] => Some 0
  | 48 :: _ => None
  | _ =>
      fold_left
        (fun acc c =>
           match acc with
           | Some n =>
               if (48 <=? c) && (c <=? 57) then Some (10 * n + (c - 48))
               else None
           | None => None
           end)
        text (Some 0)
  end.

(** What [+] makes of its right operand [x]. [null] counts 0 and a boolean
    0 or 1; [undefined] gives [NaN] and a string is appended; an array or an
    object is converted to a string first, which throws where [String(x)]
    throws. *)
Definition operand (x : jsval) : Result Operand :=
  match x with
  | None => Ok Unfollowed
  | Some JNull => Ok (Natural 0)
  | Some (JBool b) => Ok (Natural (if b then 1 else 0))
  | Some (JNum text) =>
      Ok (match natural_of_text text with
          | Some n => Natural n
          | None => Unfollowed
          end)
  | Some (JStr _) => Ok Unfollowed
  | Some (JArr _ as v) | Some (JObj _ as v) =>
      match to_string v with
      | Throw e => Throw e
      | Ok _ => Ok Unfollowed
      end
  end.

(** [v.length] as the operand of the sum: reading it throws on [undefined]
    and [null]; an array has its number of items and a string its number of
    units; an object has what it holds under [length]; a number or a boolean
    has [undefined]. *)
Definition length_of (v : jsval) : Result Operand :=
  match v with
  | None | Some JNull => Throw TypeError
  | Some (JArr items) => Ok (Natural (N.of_nat (length items)))
  | Some (JStr s) => Ok (Natural (N.of_nat (length s)))
  | Some (JObj members) => operand (member (lit "length") members)
  | Some (JNum _) | Some (JBool _) => Ok Unfollowed
  end.

(** [sum + len], followed while both are naturals and the result is exact. *)
Definition plus (sum : option nat) (len : Operand) : option nat :=
  match sum, len with
  | Some a, Natural b =>
      if N.of_nat a + b <=? exact_limit then Some (a + N.to_nat b)%nat
      else None
  | _, _ => None
  end.

(** The callback of [reduce]: [sum + block.activities.length]. *)
Definition add_block (sum : option nat) (block : json) : Result (option nat) :=
  match prop (Some block) (lit "activities") with
  | Throw e => Throw e
  | Ok activities =>
      match length_of activities with
      | Throw e => Throw e
      | Ok len => Ok (plus sum len)
      end
  end.

Fixpoint reduce_blocks (blocks : list json) (sum : option nat)
  : Result (option nat) :=
  match blocks with
  | [] => Ok sum
  | block :: rest =>
      match add_block sum block with
      | Throw e => Throw e
      | Ok sum' => reduce_blocks rest sum'
      end
  end.

(** [parsedPlan.plan.reduce((sum, block) => sum + block.activities.length, 0)]:
    reading [plan] throws when [parsedPlan] is [null]; calling [reduce] throws
    unless [plan] is an array. *)
Definition count_activities (parsedPlan : json) : Result (option nat) :=
  match prop (Some parsedPlan) (lit "plan") with
  | Throw e => Throw e
  | Ok (Some (JArr blocks)) => reduce_blocks blocks (Some 0%nat)
  | Ok _ => Throw TypeError
  end.

Definition truncate (str : jstring) (len : nat) : jstring :=
  if (len <? length str)%nat then slice0 len str ++ lit "..." else str.

Section Agent.
Context {P : Platform}.

Definition handler (ctx : Ctx) (input : AgentInput)
    (state : gmap jstring (list HistoryEntry))
  : M (AgentOutput * gmap jstring (list HistoryEntry)) :=
  let prompt := in_prompt input in
  let planType := default mixed (in_planType input) in
  let model := default gpt_5_nano (in_model input) in
  let* completion :=
    create (mkChatRequest (model_name model)
              [mkMessage system (Some (systemPrompt planType)) None None;
               mkMessage user (Some prompt) None None]
              None true) in
  let content := default (lit "{}") (first_content completion) in
  let tokens := default 0 (usage_total_tokens completion) in
  let* parsedPlan :=
    try_catch (pure (JSON_parse content)) (fun _ => ret fallbackPlan) in
  let* totalActivities := pure (count_activities parsedPlan) in
  (* Add to history *)
  let* timestamp := now in
  let newEntry :=
    mkHistoryEntry (model_name model) (Runtime.sessionId ctx)
      (truncate prompt 50) timestamp tokens (planType_name planType)
      totalActivities in
  let state := ThreadState.push (lit "history") newEntry 5 state in
  let history := default [] (ThreadState.get (lit "history") state) in
  let* plan := pure (prop (Some parsedPlan) (lit "plan")) in
  let* summary := pure (prop (Some parsedPlan) (lit "summary")) in
  ret (mkAgentOutput plan summary totalActivities history
         (Runtime.sessionId ctx) (Runtime.threadId ctx) tokens,
       state).

End Agent.

End DayPlanner.

(* ===================================================================== *)
(** ** Weather agent of the using-tools example: the tool *)
(* ===================================================================== *)

Module UsingTools.

Record Coordinates : Type := mkCoordinates {
  lat : jsval;
  lon : jsval;
  name : jsval;
}.

(** Convert weather code to description: the table's own entries. *)
Definition weatherDescriptions : list (jstring * jstring) :=
  [ (lit "0", lit "Clear sky");
    (lit "1", lit "Mainly clear");
    (lit "2", lit "Partly cloudy");
    (lit "3", lit "Overcast");
    (lit "45", lit "Foggy");
    (lit "48", lit "Depositing rime fog");
    (lit "51", lit "Light drizzle");
    (lit "53", lit "Moderate drizzle");
    (lit "55", lit "Dense drizzle");
    (lit "61", lit "Slight rain");
    (lit "63", lit "Moderate rain");
    (lit "65", lit "Heavy rain");
    (lit "71", lit "Slight snow");
    (lit "73", lit "Moderate snow");
    (lit "75", lit "Heavy snow");
    (lit "80", lit "Slight rain showers");
    (lit "81", lit "Moderate rain showers");
    (lit "82", lit "Violent rain showers");
    (lit "95", lit "Thunderstorm") ].

Fixpoint own_entry (key : jstring) (table : list (jstring * jstring))
  : option jstring :=
  match table with
  | [] => None
  | (k, d) :: rest => if decide (k = key) then Some d else own_entry key rest
  end.

Section Tool.
Context {P : Platform}.

(** Geocoding to get coordinates from location name. *)
Definition getCoordinates (location : jstring) : M (option Coordinates) :=
  let* encoded := pure (encodeURIComponent location) in
  let* response :=
    do_fetch (lit "https://geocoding-api.open-meteo.com/v1/search?name="
                ++ encoded ++ lit "&count=1") in
  if negb (ok response) then ret None else
  let* data := json_of response in
  let* results := pure (prop (Some data) (lit "results")) in
  let first := first_opt results in
  if negb (truthy first) then ret None else
  let* latitude := pure (prop first (lit "latitude")) in
  let* longitude := pure (prop first (lit "longitude")) in
  let* name := pure (prop first (lit "name")) in
  ret (Some (mkCoordinates latitude longitude name)).

(** [weatherDescriptions[code] ?? 'Unknown conditions'], as the text the
    template literal then prints: the key is [String(code)], a conversion
    that can throw; an own entry wins, then a member of [Object.prototype],
    then the default. *)
Definition describe (code : jsval) : Result jstring :=
  match template code with
  | Throw e => Throw e
  | Ok key =>
      Ok (match own_entry key weatherDescriptions with
          | Some d => d
          | None =>
              match prototype_member_text key with
              | Some t => t
              | None => lit "Unknown conditions"
              end
          end)
  end.

(** The [try] block of [getWeather]. *)
Definition getWeather_try (location : jstring) : M jstring :=
  (* First, geocode the location *)
  let* coords := getCoordinates location in
  match coords with
  | None => ret (lit "Could not find location: " ++ location)
  | Some coords =>
      (* Fetch weather data *)
      let* latitude := pure (template (lat coords)) in
      let* longitude := pure (template (lon coords)) in
      let weatherUrl :=
        lit "https://api.open-meteo.com/v1/forecast?latitude="
          ++ latitude ++ lit "&longitude=" ++ longitude
          ++ lit "&current=temperature_2m,weather_code,wind_speed_10m&temperature_unit=celsius" in
      let* response := do_fetch weatherUrl in
      if negb (ok response) then
        ret (lit "Weather service error for " ++ location)
      else
        let* data := json_of response in
        let* current := pure (prop (Some data) (lit "current")) in
        let* code := pure (prop current (lit "weather_code")) in
        let* description := pure (describe code) in
        let* place := pure (template (name coords)) in
        let* temperature := pure (prop current (lit "temperature_2m")) in
        let* degrees := pure (template temperature) in
        let* wind := pure (prop current (lit "wind_speed_10m")) in
        let* speed := pure (template wind) in
        ret (place ++ lit ": " ++ description ++ lit ", "
               ++ degrees ++ degree ++ lit "C, Wind: " ++ speed ++ lit " km/h")
  end.

(** Tool implementation - fetches weather from Open-Meteo API. *)
Definition getWeather (location : jstring) : M jstring :=
  try_catch (getWeather_try location)
    (fun _ => ret (lit "Unable to fetch weather for " ++ location)).

End Tool.

End UsingTools.

(* ===================================================================== *)
(** ** Memory agent: the sliding window *)
(* ===================================================================== *)

Module Memory.

Definition MAX_MESSAGES : nat := 20.

Record ChatMessage : Type := mkChatMessage {
  role : Role;
  content : jstring;
  timestamp : jstring;
}.

Section Agent.
Context {P : Platform}.

(** The part of the memory agent's handler that stores the exchange: the
    user message, then the assistant response, each pushed with the sliding
    window. Nothing else in the handler writes under ['messages']. *)
Definition store_exchange (message response : jstring)
    (state : gmap jstring (list ChatMessage))
  : M (gmap jstring (list ChatMessage)) :=
  (* Store user message with sliding window *)
  let* t := now in
  let userMessage := mkChatMessage user message t in
  let state := ThreadState.push (lit "messages") userMessage MAX_MESSAGES state in
  (* Store assistant response with sliding window *)
  let* t := now in
  let assistantMessage := mkChatMessage assistant response t in
  let state :=
    ThreadState.push (lit "messages") assistantMessage MAX_MESSAGES state in
  ret state.

End Agent.

End Memory.

(* ===================================================================== *)
(** ** Vocabulary of the properties *)
(* ===================================================================== *)

Module Spec.

Import Network.

(** The text of one assistant turn: its content, empty when the message or
    its content is missing. *)
Definition turn_text (am : option ResponseMessage) : jstring :=
  match am with
  | Some m => default [] (msg_content m)
  | None => []
  end.

(** The weather URL that [Tools.getWeather] fetches. *)
Definition wttr_url (encoded : jstring) : jstring :=
  lit "https://wttr.in/" ++ encoded ++ lit "?format=%C+%t+%h+%w".

(** The URLs that the weather tool of the using-tools example fetches. *)
Definition geocoding_url (encoded : jstring) : jstring :=
  lit "https://geocoding-api.open-meteo.com/v1/search?name="
    ++ encoded ++ lit "&count=1".

(** The forecast URL exists when the latitude and the longitude can be
    converted to strings. *)
Definition forecast_url (coords : UsingTools.Coordinates) : Result jstring :=
  match template (UsingTools.lat coords) with
  | Throw e => Throw e
  | Ok latitude =>
      match template (UsingTools.lon coords) with
      | Throw e => Throw e
      | Ok longitude =>
          Ok (lit "https://api.open-meteo.com/v1/forecast?latitude="
                ++ latitude ++ lit "&longitude=" ++ longitude
                ++ lit "&current=temperature_2m,weather_code,wind_speed_10m&temperature_unit=celsius")
      end
  end.

(** The request that the day planner sends to the model. *)
Definition planner_request (input : DayPlanner.AgentInput) : ChatRequest :=
  mkChatRequest
    (model_name (default gpt_5_nano (DayPlanner.in_model input)))
    [mkMessage system
       (Some (DayPlanner.systemPrompt
                (default DayPlanner.mixed (DayPlanner.in_planType input))))
       None None;
     mkMessage user (Some (DayPlanner.in_prompt input)) None None]
    None true.

(** The request that the Writing agent sends to the model. *)
Definition writing_request (topic : jstring) (insights : list jstring)
    (style : Writing.Style) : ChatRequest :=
  mkChatRequest (model_name gpt_5_mini)
    [user_message (Writing.prompt topic insights style)] None false.

(** The placeholder block of the day planner's fallback plan. *)
Definition placeholder_block : json :=
  JObj [(lit "name", JStr (lit "Morning"));
        (lit "activities",
         JArr [JObj [(lit "name", JStr (lit "Plan your day"));
                     (lit "startTime", JStr (lit "09:00"));
                     (lit "endTime", JStr (lit "09:30"));
                     (lit "description",
                      JStr (lit "Take time to organize your schedule"));
                     (lit "priority", JStr (lit "high"))]])].

(** A word: units, at least one, none of them whitespace. A gap: whitespace
    units, at least one. *)
Definition is_word (s : jstring) : Prop :=
  s <> [] /\ Forall (fun c => is_space c = false) s.

Definition is_gap (s : jstring) : Prop :=
  s <> [] /\ Forall (fun c => is_space c = true) s.

(** The text made of the gaps and words of [rest], in order. *)
Fixpoint gaps_and_words (rest : list (jstring * jstring)) : jstring :=
  match rest with
  | [] => []
  | (gap, word) :: rest' => gap ++ word ++ gaps_and_words rest'
  end.

(** The names the tool executor knows. *)
Definition known_tools : list jstring :=
  [lit "get_weather"; lit "research_topic"; lit "write_content";
   lit "city_research"].

(** The assistant message as the loop appends it to the conversation. *)
Definition assistant_message (am : ResponseMessage) : Message :=
  mkMessage assistant (msg_content am) (msg_tool_calls am) None.

(** [m] is a tool-role message that answers the call [tc]. *)
Definition answers (tc : ToolCall) (m : Message) : Prop :=
  role m = tool /\ tool_call_id m = Some (call_id tc).

Section WithPlatform.
Context {P : Platform}.

(** The world after one reading of the clock, and the time read. *)
Definition tick (w : World) : World := snd (toISOString_now w).
Definition stamp (w : World) : jstring := fst (toISOString_now w).

(** The events around a tool call that has no inner events of its own. *)
Definition bracket (toolName : jstring) (args : json) (result : jstring)
    (events : list NetworkEvent) (w w' : World) : list NetworkEvent :=
  (events
     ++ [mkNetworkEvent tool_execution_start (stamp w)
           (Plain [(lit "tool", JStr toolName); (lit "args", args)])])
    ++ [mkNetworkEvent tool_execution_end (stamp w')
          (Plain [(lit "tool", JStr toolName);
                  (lit "result", JStr (slice0 200 result))])].

(** The part of the handler that runs before the [while] loop: the state in
    which the loop is entered. *)
Definition start (ctx : Ctx) (input : NetworkInput)
    (state : gmap jstring (list HistoryEntry)) : M LoopState :=
  let message := in_message input in
  let model := default gpt_5_mini (in_model input) in
  let* events :=
    push_event [] network_start (Plain [(lit "message", JStr message)]) in
  let history := default [] (ThreadState.get (lit "conversation") state) in
  let messages :=
    [mkMessage system (Some systemPrompt) None None]
      ++ map history_message history
      ++ [mkMessage user (Some message) None None] in
  let* events := push_event events routing_agent_start NoPayload in
  let* completion := create (routing_request model messages) in
  let* events := push_event events routing_agent_end NoPayload in
  let assistantMessage := first_message completion in
  ret (mkLoopState messages events [] assistantMessage
         (content_or assistantMessage [])).

(** The assistant messages that the passes of the loop receive, in order. *)
Fixpoint loop_turns (fuel : nat) (ctx : Ctx) (model : Model) (st : LoopState)
    (w : World) : list (option ResponseMessage) :=
  match pending_calls (st_assistantMessage st) with
  | None => []
  | Some (am, calls) =>
      match fuel with
      | O => []
      | S fuel' =>
          match loop_body ctx model st am calls w with
          | (Ok st', w') =>
              st_assistantMessage st' :: loop_turns fuel' ctx model st' w'
          | (Throw _, _) => []
          end
      end
  end.

(** The assistant messages of all model turns of one invocation: the one of
    the initial routing call, then those of the loop. *)
Definition turns (fuel : nat) (ctx : Ctx) (input : NetworkInput)
    (state : gmap jstring (list HistoryEntry)) (w : World)
  : list (option ResponseMessage) :=
  match start ctx input state w with
  | (Ok st0, w0) =>
      st_assistantMessage st0
        :: loop_turns fuel ctx (default gpt_5_mini (in_model input)) st0 w0
  | (Throw _, _) => []
  end.

(** The statement that dispatching [get_weather] never throws. *)
Definition get_weather_never_raises (ctx : Ctx) (args : json)
    (events : list NetworkEvent) (w : World) : Prop :=
  exists result events' w',
    executeTool ctx (lit "get_weather") args events w
    = (Ok (result, events'), w').

End WithPlatform.

End Spec.

(* ===================================================================== *)
(** ** A scripted platform, for running the code on examples *)
(* ===================================================================== *)

Module Scripted.

(** The chat client answers its calls from [replies], in order, and throws
    when they are used up; [fetch] answers by [net]; [JSON.parse] knows the
    texts of [parses] and refuses every other. The world is the log of the
    chat requests made so far. *)
Record Script : Type := mkScript {
  replies : list (Result Completion);
  net : jstring -> Result Response;
  parses : list (jstring * json);
}.

Definition parse (table : list (jstring * json)) (text : jstring)
  : Result json :=
  match member text table with
  | Some v => Ok v
  | None => Throw SyntaxError
  end.

Definition platform (s : Script) : Platform :=
  {| World := list ChatRequest;
     chat_completions_create := fun req log =>
       (default (Throw (Rejected (lit "script used up")))
          (replies s !! length log),
        log ++ [req]);
     fetch := fun url log => (net s url, log);
     toISOString_now := fun log => (lit "2025-01-01T00:00:00.000Z", log);
     JSON_parse := parse (parses s);
     encodeURIComponent := Ok;
     prototype_member_text := fun _ => None |}.

Definition ctx0 : Ctx := Runtime.mkCtx (lit "sess_1") (lit "thrd_1").

Definition says (text : string) : Result Completion :=
  Ok (mkCompletion [mkResponseMessage (Some (lit text)) None] (Some 7)).

Definition calls_tools (calls : list ToolCall) : Result Completion :=
  Ok (mkCompletion [mkResponseMessage None (Some calls)] (Some 7)).

Definition offline : jstring -> Result Response :=
  fun _ => Throw (Rejected (lit "fetch failed")).

Definition serves (status_ok : bool) (body : string)
  : jstring -> Result Response :=
  fun _ => Ok (mkResponse status_ok (Ok (lit body))).

(** A weather question: the model asks for [get_weather], for a tool that
    does not exist and, in a call that is not a function call, for something
    else; then it answers. *)
Definition paris_args : json := JObj [(lit "location", JStr (lit "Paris"))].

Definition weather_calls : list ToolCall :=
  [FunctionToolCall (lit "call_1") (lit "get_weather") (lit "{location}");
   CustomToolCall (lit "call_2") (lit "shell") (lit "date");
   FunctionToolCall (lit "call_3") (lit "translate") (lit "{location}")].

Definition weather_script : Script :=
  mkScript [calls_tools weather_calls; says "It is sunny in Paris."]
    (serves false " Sunny +20C ")
    [(lit "{location}", paris_args)].

(** The same question when the network is down. *)
Definition offline_script : Script :=
  mkScript [calls_tools weather_calls; says "It is sunny in Paris."]
    offline
    [(lit "{location}", paris_args)].





Definition weather_message : ResponseMessage :=
  mkResponseMessage None (Some weather_calls).

(** A thread that already holds 19 entries. *)
Definition long_history : list Network.HistoryEntry :=
  replicate 19 (Network.mkHistoryEntry user (lit "earlier")).

Definition long_state : gmap jstring (list Network.HistoryEntry) :=
  {[ lit "conversation" := long_history ]}.

Definition weather_input : Network.NetworkInput :=
  Network.mkNetworkInput (lit "Weather in Paris?") None.

(** A city report: research, then writing. *)
Definition city_script : Script :=
  mkScript [says "- founded long ago
* has a tower"; says "Paris is old. It has a tower."] offline [].

(** The day planner with a model that answers in prose, with one whose
    content is [null], and the Writing agent with the latter. *)
Definition prose_script : Script :=
  mkScript [says "Here is your plan!"] offline [(lit "{}", JObj [])].

Definition null_script : Script :=
  mkScript [Ok (mkCompletion [mkResponseMessage None None] None)] offline
    [(lit "{}", JObj [])].

Definition planner_input : DayPlanner.AgentInput :=
  DayPlanner.mkAgentInput None (lit "Plan a quiet Sunday") None.








End Scripted.

(* ===================================================================== *)
(** ** Weather agent of the using-tools example: the handler *)
(* ===================================================================== *)

Module WeatherAgent.

(** One entry of the [toolCalls] array of the output. *)
Record ToolCallRecord : Type := mkToolCallRecord {
  tc_tool : jstring;
  tc_input : jstring;
  tc_output : jstring;
}.

Record AgentOutput : Type := mkAgentOutput {
  response : jstring;
  toolCalls : list ToolCallRecord;
  tokens : N;
}.

(** Tool definitions for OpenAI function calling. *)
Definition tools : list ToolDefinition :=
  [ mkToolDefinition (lit "get_weather")
      (lit "Fetches current weather for a location")
      (JObj [(lit "type", JStr (lit "object"));
             (lit "properties",
              JObj [(lit "location",
                     JObj [(lit "type", JStr (lit "string"));
                           (lit "description",
                            JStr (litq "The city or location to get weather for (e.g., `London`, `New York`)"))])]);
             (lit "required", JArr [JStr (lit "location")])]) ].

Definition systemPrompt : jstring :=
  lit "You are a helpful weather assistant. Use the get_weather tool to fetch current weather data when users ask about weather conditions. Always provide friendly, informative responses.".

(** What the [while] loop reads and writes. *)
Record LoopState : Type := mkLoopState {
  st_messages : list Message;
  st_toolCalls : list ToolCallRecord;
  st_totalTokens : N;
  st_assistantMessage : option ResponseMessage;
}.

Section Agent.
Context {P : Platform}.
(** [JSON.stringify], on values that [JSON.parse] gave. *)
Variable JSON_stringify : json -> jstring.

(** The [if]/[else] that runs a tool. [getWeather] is declared on strings
    and is given whatever the model put under [location]; every use it makes
    of its argument goes through [String(location)], which is applied here.
    Where that conversion throws, [getWeather] throws: the first use is in
    [encodeURIComponent(location)], before anything is fetched, and the
    [catch] block converts [location] again, outside any [try]. *)
Definition dispatch (functionName : jstring) (functionArgs : json)
  : M jstring :=
  if decide (functionName = lit "get_weather") then
    let* location := pure (prop (Some functionArgs) (lit "location")) in
    let* shown := pure (template location) in
    UsingTools.getWeather shown
  else
    ret (lit "Unknown tool: " ++ functionName).

(** The body of the [for] loop, for one tool call: [messages] and
    [toolCalls] as they are after it. *)
Definition run_tool_call (toolCall : ToolCall)
    (acc : list Message * list ToolCallRecord)
  : M (list Message * list ToolCallRecord) :=
  match toolCall with
  | CustomToolCall _ _ _ =>
      (* Only handle function tool calls *)
      ret acc
  | FunctionToolCall id functionName arguments =>
      let* functionArgs := pure (JSON_parse arguments) in
      let* result := dispatch functionName functionArgs in
      ret (fst acc ++ [mkMessage tool (Some result) None (Some id)],
           snd acc
             ++ [mkToolCallRecord functionName (JSON_stringify functionArgs)
                   result])
  end.

(** Execute each tool call. *)
Fixpoint run_tool_calls (calls : list ToolCall)
    (acc : list Message * list ToolCallRecord)
  : M (list Message * list ToolCallRecord) :=
  match calls with
  | [] => ret acc
  | toolCall :: rest =>
      let* acc' := run_tool_call toolCall acc in
      run_tool_calls rest acc'
  end.

Definition request (messages : list Message) : ChatRequest :=
  mkChatRequest (lit "gpt-4o-mini") messages (Some tools) false.

(** One pass of the [while] loop, entered with the assistant message [am]
    and its non-empty [calls]. *)
Definition loop_body (st : LoopState) (am : ResponseMessage)
    (calls : list ToolCall) : M LoopState :=
  (* Add assistant message with tool calls to conversation *)
  let messages :=
    st_messages st
      ++ [mkMessage assistant (msg_content am) (msg_tool_calls am) None] in
  let* (messages, toolCalls) :=
    run_tool_calls calls (messages, st_toolCalls st) in
  (* Get next completion after tool results *)
  let* completion := create (request messages) in
  let totalTokens :=
    st_totalTokens st + default 0 (usage_total_tokens completion) in
  ret (mkLoopState messages toolCalls totalTokens (first_message completion)).

(** Process tool calls if any. *)
Fixpoint while_loop (fuel : nat) (st : LoopState) : L LoopState :=
  match Network.pending_calls (st_assistantMessage st) with
  | None => lift (ret st)
  | Some (am, calls) =>
      match fuel with
      | O => fun _ => None
      | S fuel' =>
          let+ st' := lift (loop_body st am calls) in
          while_loop fuel' st'
      end
  end.

Definition handler (fuel : nat) (message : jstring) : L AgentOutput :=
  let messages :=
    [mkMessage system (Some systemPrompt) None None;
     mkMessage user (Some message) None None] in
  (* Initial completion with tools *)
  let+ completion := lift (create (request messages)) in
  let totalTokens := 0 + default 0 (usage_total_tokens completion) in
  let assistantMessage := first_message completion in
  let+ st :=
    while_loop fuel (mkLoopState messages [] totalTokens assistantMessage) in
  let response :=
    default (lit "Unable to process your request.")
      (match st_assistantMessage st with
       | Some m => msg_content m
       | None => None
       end) in
  lift (ret (mkAgentOutput response (st_toolCalls st) (st_totalTokens st))).

End Agent.

End WeatherAgent.

(* ===================================================================== *)
(** ** Network agent: the history routes *)
(* ===================================================================== *)

Module Routes.

Record HistoryReply : Type := mkHistoryReply {
  conversation : list Network.HistoryEntry;
  threadId : jstring;
}.

(** Get network conversation history ([GET /network/history]). *)
Definition get_history (ctx : Ctx)
    (state : gmap jstring (list Network.HistoryEntry)) : HistoryReply :=
  let conversation :=
    default [] (ThreadState.get (lit "conversation") state) in
  mkHistoryReply conversation (Runtime.threadId ctx).

(** Clear network conversation history ([DELETE /network/history]): the
    reply and the thread state after it. *)
Definition delete_history (ctx : Ctx)
    (state : gmap jstring (list Network.HistoryEntry))
  : HistoryReply * gmap jstring (list Network.HistoryEntry) :=
  let state := ThreadState.delete (lit "conversation") state in
  (mkHistoryReply [] (Runtime.threadId ctx), state).

End Routes.

(* ===================================================================== *)
(** ** Memory agent: the system prompt and the messages sent *)
(* ===================================================================== *)

Module MemoryPrompt.

Record UserPreferences : Type := mkUserPreferences {
  name : option jstring;
  interests : option (list jstring);
  facts : option (list jstring);
}.

(** [String(n)] for a length. *)
Definition decimal (n : nat) : jstring :=
  lit (NilZero.string_of_uint (Nat.to_uint n)).

(** Truthiness of [preferences.name] and of [preferences.interests?.length]. *)
Definition has_text (v : option jstring) : bool :=
  match v with
  | Some (_ :: _) => true
  | _ => false
  end.

Definition has_items (v : option (list jstring)) : bool :=
  match v with
  | Some (_ :: _) => true
  | _ => false
  end.

(** The line that the [for] loop adds for one message. *)
Definition recent_line (msg : Memory.ChatMessage) : jstring :=
  let role :=
    match Memory.role msg with
    | user => lit "User"
    | _ => lit "Assistant"
    end in
  let content :=
    if (100 <? length (Memory.content msg))%nat
    then slice0 100 (Memory.content msg) ++ lit "..."
    else Memory.content msg in
  newline ++ role ++ lit ": " ++ content.

Definition contextSection (messages : list Memory.ChatMessage)
    (preferences : UserPreferences) : jstring :=
  let contextSection := [] in
  (* Add user preferences if known *)
  let contextSection :=
    if has_text (name preferences) || has_items (interests preferences)
       || has_items (facts preferences)
    then
      let contextSection :=
        contextSection ++ newline ++ newline
          ++ lit "Known information about the user:" in
      let contextSection :=
        if has_text (name preferences)
        then contextSection ++ newline ++ lit "- Name: "
               ++ default [] (name preferences)
        else contextSection in
      let contextSection :=
        if has_items (interests preferences)
        then contextSection ++ newline ++ lit "- Interests: "
               ++ join (lit ", ") (default [] (interests preferences))
        else contextSection in
      if has_items (facts preferences)
      then contextSection ++ newline ++ lit "- Facts: "
             ++ join (lit "; ") (default [] (facts preferences))
      else contextSection
    else contextSection in
  (* Add recent conversation summary if exists *)
  if (0 <? length messages)%nat then
    let recentCount := Nat.min (length messages) 5 in
    let contextSection :=
      contextSection ++ newline ++ newline ++ lit "Recent conversation ("
        ++ decimal (length messages) ++ lit " total messages, showing last "
        ++ decimal recentCount ++ lit "):" in
    let recent := slice_last recentCount messages in
    fold_left (fun acc msg => acc ++ recent_line msg) recent contextSection
  else contextSection.

Definition instructions : jstring :=
  lit "You are a helpful assistant with memory. You remember previous conversations and user preferences within this thread.

When users share personal information (name, interests, facts about themselves), acknowledge it naturally and remember it for future reference.

When users ask about previous conversations or their stored information, recall it accurately.

Be conversational, friendly, and demonstrate that you remember context from earlier in the conversation.".

(** Build system prompt with conversation context. *)
Definition buildSystemPrompt (messages : list Memory.ChatMessage)
    (preferences : UserPreferences) : jstring :=
  instructions ++ contextSection messages preferences.

(** The part of the memory agent's handler that prepares the messages for
    the model: the system prompt, the last 10 stored messages, the current
    user message. *)
Definition openaiMessages (existingMessages : list Memory.ChatMessage)
    (preferences : UserPreferences) (message : jstring) : list Message :=
  (* Build system prompt with context *)
  let systemPrompt := buildSystemPrompt existingMessages preferences in
  let openaiMessages := [mkMessage system (Some systemPrompt) None None] in
  (* Add recent messages to OpenAI context (last 10 for API call) *)
  let recentMessages := slice_last 10 existingMessages in
  let openaiMessages :=
    fold_left
      (fun acc msg =>
         acc ++ [mkMessage (Memory.role msg) (Some (Memory.content msg))
                   None None])
      recentMessages openaiMessages in
  (* Add current user message *)
  openaiMessages ++ [mkMessage user (Some message) None None].

End MemoryPrompt.

(* ===================================================================== *)
(** ** Vocabulary of the further properties *)
(* ===================================================================== *)

Module Props.

(** The names of the function calls of a batch, in order. *)
Definition function_names (calls : list ToolCall) : list jstring :=
  flat_map (fun tc => match tc with
                      | FunctionToolCall _ name _ => [name]
                      | CustomToolCall _ _ _ => []
                      end) calls.

(** The tool calls that an assistant turn asks for. *)
Definition requested (am : option ResponseMessage) : list ToolCall :=
  match am with
  | Some m => default [] (msg_tool_calls m)
  | None => []
  end.

#[global] Instance event_type_eq_dec : EqDecision Network.NetworkEventType.
Proof. solve_decision. Defined.

(** The number of events of type [ty]. *)
Definition count_type (ty : Network.NetworkEventType)
    (events : list Network.NetworkEvent) : nat :=
  length (List.filter
            (fun e => bool_decide (Network.type e = ty)) events).

(** The types of the events that a tool records between the start and the
    end of its execution. *)
Definition inner_events (toolName : jstring)
  : list Network.NetworkEventType :=
  if decide (toolName = lit "research_topic")
  then [Network.agent_execution_start; Network.agent_execution_end]
  else if decide (toolName = lit "write_content")
  then [Network.agent_execution_start; Network.agent_execution_end]
  else if decide (toolName = lit "city_research")
  then [Network.workflow_execution_start; Network.workflow_execution_end]
  else [].

Definition tool_events (toolName : jstring)
  : list Network.NetworkEventType :=
  [Network.tool_execution_start] ++ inner_events toolName
    ++ [Network.tool_execution_end].

(** The types of the events of the pass that an assistant turn sets off:
    none when the turn asks for no tool. *)
Definition pass_events (am : option ResponseMessage)
  : list Network.NetworkEventType :=
  match Network.pending_calls am with
  | None => []
  | Some (_, calls) =>
      flat_map tool_events (function_names calls)
        ++ [Network.network_step_finish; Network.routing_agent_start;
            Network.routing_agent_end]
  end.

(** The tokens of a list of completions, a completion without usage
    counting 0. *)
Definition total_tokens (completions : list Completion) : N :=
  foldr (fun c acc => default 0 (usage_total_tokens c) + acc) 0 completions.

(** The content of the first message of a completion. *)
Definition answer_of (completion : option Completion) : option jstring :=
  match completion with
  | Some c => first_content c
  | None => None
  end.

(** An insight as the Research agent gives them: not empty, with no line
    feed (U+000A) in it and no whitespace at either end. *)
Definition clean_insight (i : jstring) : Prop :=
  i <> [] /\ trim i = i /\ Forall (fun c => c <> 10) i.

(** A content with nothing to read: missing, empty, or whitespace only. *)
Definition blank (content : option jstring) : Prop :=
  Forall (fun c => is_space c = true) (default [] content).

(** A block of a plan as the day planner expects it: an object, an array
    or a string, whose [activities] is an array; its number of activities. *)
Definition block_size (block : json) : option nat :=
  match prop (Some block) (lit "activities") with
  | Ok (Some (JArr items)) => Some (length items)
  | _ => None
  end.

Section WithPlatform.
Context {P : Platform}.

(** A tool call that the weather agent can run: its arguments parse and,
    when the tool is [get_weather], their member [location] can be read
    (they are not [null]) and converted to a string (it is no object with a
    member [toString] of its own, and no array that holds one). A call that
    is not a function call is passed over. *)
Definition readable (tc : ToolCall) : Prop :=
  match tc with
  | FunctionToolCall _ functionName arguments =>
      exists args,
        JSON_parse arguments = Ok args
        /\ (functionName = lit "get_weather" ->
            exists location shown,
              prop (Some args) (lit "location") = Ok location
              /\ template location = Ok shown)
  | CustomToolCall _ _ _ => True
  end.

(** The descriptions of the WMO weather codes that the weather tool knows,
    by the text of the code. *)
Definition wmo_description (key : jstring) : option jstring :=
  if decide (lit "0" = key) then Some (lit "Clear sky")
  else if decide (lit "1" = key) then Some (lit "Mainly clear")
  else if decide (lit "2" = key) then Some (lit "Partly cloudy")
  else if decide (lit "3" = key) then Some (lit "Overcast")
  else if decide (lit "45" = key) then Some (lit "Foggy")
  else if decide (lit "48" = key) then Some (lit "Depositing rime fog")
  else if decide (lit "51" = key) then Some (lit "Light drizzle")
  else if decide (lit "53" = key) then Some (lit "Moderate drizzle")
  else if decide (lit "55" = key) then Some (lit "Dense drizzle")
  else if decide (lit "61" = key) then Some (lit "Slight rain")
  else if decide (lit "63" = key) then Some (lit "Moderate rain")
  else if decide (lit "65" = key) then Some (lit "Heavy rain")
  else if decide (lit "71" = key) then Some (lit "Slight snow")
  else if decide (lit "73" = key) then Some (lit "Moderate snow")
  else if decide (lit "75" = key) then Some (lit "Heavy snow")
  else if decide (lit "80" = key) then Some (lit "Slight rain showers")
  else if decide (lit "81" = key) then Some (lit "Moderate rain showers")
  else if decide (lit "82" = key) then Some (lit "Violent rain showers")
  else if decide (lit "95" = key) then Some (lit "Thunderstorm")
  else None.

(** What the weather tool prints for the conditions: the description of the
    code; for a key that is no known code, the text of the member that
    [Object.prototype] holds under it, or ['Unknown conditions']. *)
Definition conditions (key : jstring) : jstring :=
  match wmo_description key with
  | Some d => d
  | None =>
      match prototype_member_text key with
      | Some t => t
      | None => lit "Unknown conditions"
      end
  end.

(** The completions that the weather agent's handler receives, in order. *)
Fixpoint weather_loop_completions (JSON_stringify : json -> jstring)
    (fuel : nat) (st : WeatherAgent.LoopState) (w : World)
  : list Completion :=
  match Network.pending_calls (WeatherAgent.st_assistantMessage st) with
  | None => []
  | Some (am, calls) =>
      match fuel with
      | O => []
      | S fuel' =>
          match WeatherAgent.run_tool_calls JSON_stringify calls
                  (WeatherAgent.st_messages st
                     ++ [Spec.assistant_message am],
                   WeatherAgent.st_toolCalls st) w with
          | (Ok (messages, toolCalls), w1) =>
              match create (WeatherAgent.request messages) w1 with
              | (Ok completion, w2) =>
                  completion
                    :: weather_loop_completions JSON_stringify fuel'
                         (WeatherAgent.mkLoopState messages toolCalls
                            (WeatherAgent.st_totalTokens st
                               + default 0 (usage_total_tokens completion))
                            (first_message completion)) w2
              | (Throw _, _) => []
              end
          | (Throw _, _) => []
          end
      end
  end.

Definition weather_completions (JSON_stringify : json -> jstring)
    (fuel : nat) (message : jstring) (w : World) : list Completion :=
  let messages :=
    [mkMessage system (Some WeatherAgent.systemPrompt) None None;
     mkMessage user (Some message) None None] in
  match create (WeatherAgent.request messages) w with
  | (Ok completion, w1) =>
      completion
        :: weather_loop_completions JSON_stringify fuel
             (WeatherAgent.mkLoopState messages []
                (0 + default 0 (usage_total_tokens completion))
                (first_message completion)) w1
  | (Throw _, _) => []
  end.

End WithPlatform.

End Props.

(* ===================================================================== *)
(** ** More scripts *)
(* ===================================================================== *)

Module Scripts.

Import Scripted.

(** The model answers at once, without tools. *)
Definition plain_script : Script :=
  mkScript [says "Hello there."] offline [].

(** A batch whose second call has arguments that are not JSON. *)
Definition broken_calls : list ToolCall :=
  [FunctionToolCall (lit "call_1") (lit "translate") (lit "{location}");
   FunctionToolCall (lit "call_2") (lit "translate") (lit "{location");
   FunctionToolCall (lit "call_3") (lit "get_weather") (lit "{location}")].

Definition broken_message : ResponseMessage :=
  mkResponseMessage None (Some broken_calls).

Definition broken_state : Network.LoopState :=
  Network.mkLoopState [user_message (lit "Translate this")] [] []
    (Some broken_message) [].

(** The model's arguments are the JSON text [null]. *)
Definition null_args_script : Script :=
  mkScript [says "unused"] offline [(lit "null", JNull)].

(** The research tool: the model of the sub-agent answers with bullets. *)
Definition research_script : Script :=
  mkScript [says "- founded long ago
* has a tower
"] offline [].

Definition paris_topic : json := JObj [(lit "topic", JStr (lit "Paris"))].

(** A plan with two blocks, of two activities and one. *)
Definition activity (name startTime endTime description priority : string)
  : json :=
  JObj [(lit "name", JStr (lit name));
        (lit "startTime", JStr (lit startTime));
        (lit "endTime", JStr (lit endTime));
        (lit "description", JStr (lit description));
        (lit "priority", JStr (lit priority))].

Definition two_blocks : json :=
  JObj [(lit "plan",
         JArr [JObj [(lit "name", JStr (lit "Morning"));
                     (lit "activities",
                      JArr [activity "Run" "07:00" "07:45"
                              "An easy run in the park" "medium";
                            activity "Read" "08:00" "09:00"
                              "Two chapters of the novel" "low"])];
               JObj [(lit "name", JStr (lit "Evening"));
                     (lit "activities",
                      JArr [activity "Cook" "18:00" "19:00"
                              "Dinner for two" "high"])]]);
        (lit "summary", JStr (lit "A calm day."))].

(** The blocks of [two_blocks], as the handler returns them. *)
Definition prop_value (v : json) : jsval :=
  match prop (Some v) (lit "plan") with
  | Ok x => x
  | Throw _ => None
  end.

Definition plan_script : Script :=
  mkScript [says "{plan}"] offline [(lit "{plan}", two_blocks)].

(** A plan whose second block is [null]. *)
Definition null_block : json :=
  JObj [(lit "plan",
         JArr [JObj [(lit "activities", JArr [])]; JNull])].

Definition null_block_script : Script :=
  mkScript [says "{plan}"] offline [(lit "{plan}", null_block)].

(** The geocoder and the forecast both answer. *)
Definition geocoding_body : json :=
  JObj [(lit "results",
         JArr [JObj [(lit "latitude", JNum (lit "48.85"));
                     (lit "longitude", JNum (lit "2.35"));
                     (lit "name", JStr (lit "Paris"))]])].

Definition forecast_body : json :=
  JObj [(lit "current",
         JObj [(lit "temperature_2m", JNum (lit "21.5"));
               (lit "weather_code", JNum (lit "2"));
               (lit "wind_speed_10m", JNum (lit "9"))])].

Definition open_meteo : jstring -> Result Response :=
  fun url =>
    if decide (take 17 url = lit "https://geocoding")
    then Ok (mkResponse true (Ok (lit "{geo}")))
    else Ok (mkResponse true (Ok (lit "{forecast}"))).

Definition sunny_calls : list ToolCall :=
  [FunctionToolCall (lit "call_1") (lit "get_weather") (lit "{location}");
   FunctionToolCall (lit "call_2") (lit "get_time") (lit "{location}")].

Definition sunny_script : Script :=
  mkScript [calls_tools sunny_calls; says "Partly cloudy in Paris."]
    open_meteo
    [(lit "{geo}", geocoding_body); (lit "{forecast}", forecast_body);
     (lit "{location}", paris_args)].

(** The arguments of [write_content] with an empty style. *)
Definition tower_args : json :=
  JObj [(lit "topic", JStr (lit "Paris"));
        (lit "insights", JArr [JStr (lit "has a tower")]);
        (lit "style", JStr [])].

(** The model asks for the weather at a location that cannot be printed. *)
Definition odd_location : json :=
  JObj [(lit "toString", JNum (lit "0"))].

Definition odd_location_args : json :=
  JObj [(lit "location", odd_location)].

Definition odd_location_calls : list ToolCall :=
  [FunctionToolCall (lit "call_1") (lit "get_weather") (lit "{location}");
   FunctionToolCall (lit "call_2") (lit "get_time") (lit "{location}")].

Definition odd_location_script : Script :=
  mkScript [] open_meteo [(lit "{location}", odd_location_args)].

(** The geocoder answers with no result. *)
Definition empty_results_script : Script :=
  mkScript [] (serves true "{geo}")
    [(lit "{geo}", JObj [(lit "results", JArr [])])].

(** [JSON.stringify] for the scripts: the texts of the script's table, read
    the other way. *)
Definition stringify (v : json) : jstring :=
  match v with
  | JObj [(_, JStr s)] => lit "{" ++ s ++ lit "}"
  | _ => lit "null"
  end.

Definition earlier_messages : list Memory.ChatMessage :=
  map (fun n => Memory.mkChatMessage user
                  (MemoryPrompt.decimal n) (lit "2025-01-01T00:00:00.000Z"))
    (seq 0 12).

Definition alice : MemoryPrompt.UserPreferences :=
  MemoryPrompt.mkUserPreferences (Some (lit "Alice")) None
    (Some [lit "I live in Oslo"]).

End Scripts.

(* ===================================================================== *)
(** ** Facts about the effects *)
(* ===================================================================== *)

Section MonadFacts.
Context {P : Platform}.

Lemma Ok_inj {A} (a b : A) : Ok a = Ok b -> a = b.
Proof. now intros [= ->]. Qed.

Lemma bind_of_Ok {A B} (m : M A) (k : A -> M B) w a w1 :
  m w = (Ok a, w1) -> bind m k w = k a w1.
Proof. intros E. unfold bind. now rewrite E. Qed.

Lemma bind_of_Throw {A B} (m : M A) (k : A -> M B) w e w1 :
  m w = (Throw e, w1) -> bind m k w = (Throw e, w1).
Proof. intros E. unfold bind. now rewrite E. Qed.

Lemma bind_Ok_inv {A B} (m : M A) (k : A -> M B) w b w2 :
  bind m k w = (Ok b, w2) ->
  exists a w1, m w = (Ok a, w1) /\ k a w1 = (Ok b, w2).
Proof.
  unfold bind. destruct (m w) as [[a|e] w1]; intros E.
  - now exists a, w1.
  - discriminate.
Qed.

Lemma pure_Ok_inv {A} (r : Result A) w a w1 :
  pure r w = (Ok a, w1) -> r = Ok a /\ w1 = w.
Proof. unfold pure. intros E. injection E as -> ->. auto. Qed.

Lemma ret_inv {A} (a b : A) w w1 :
  ret a w = (Ok b, w1) -> b = a /\ w1 = w.
Proof. unfold ret. intros E. injection E as -> ->. auto. Qed.

Lemma bindL_lift_Ok {A B} (m : M A) (k : A -> L B) w a w1 :
  m w = (Ok a, w1) -> bindL (lift m) k w = k a w1.
Proof. intros E. unfold bindL, lift. now rewrite E. Qed.

Lemma bindL_Ok_inv {A B} (m : L A) (k : A -> L B) w b w2 :
  bindL m k w = Some (Ok b, w2) ->
  exists a w1, m w = Some (Ok a, w1) /\ k a w1 = Some (Ok b, w2).
Proof.
  unfold bindL. destruct (m w) as [[[a|e] w1]|]; intros E.
  - now exists a, w1.
  - discriminate.
  - discriminate.
Qed.

Lemma lift_Ok_inv {A} (m : M A) w a w1 :
  lift m w = Some (Ok a, w1) -> m w = (Ok a, w1).
Proof. unfold lift. now intros [= ->]. Qed.

(** The clock cannot fail, so neither can recording an event. *)
Lemma push_event_run events type payload w :
  Network.push_event events type payload w
  = (Ok (events ++ [Network.mkNetworkEvent type (Spec.stamp w) payload]),
     Spec.tick w).
Proof.
  unfold Network.push_event, Network.createEvent, bind, now, ret,
    Spec.stamp, Spec.tick.
  now destruct (toISOString_now w).
Qed.

End MonadFacts.

(** Steps through the leading [bind] of a goal [bind m k w = _] when [m] is
    the recording of an event. *)
Ltac step_event :=
  erewrite bind_of_Ok by apply push_event_run.

(** Splits a hypothesis about a run of [bind m k] that ended normally into
    the run of [m] and the run of [k]. *)
Ltac split_run H :=
  let a := fresh "a" in
  let w := fresh "w" in
  let H1 := fresh "Hrun" in
  apply bind_Ok_inv in H as (a & w & H1 & H).

(* ===================================================================== *)
(** ** Network agent: the tool executor *)
(* ===================================================================== *)

Section ExecuteToolFacts.
Context {P : Platform}.
Import Network.

Lemma not_known_tool toolName :
  toolName ∉ Spec.known_tools ->
  toolName <> lit "get_weather" /\ toolName <> lit "research_topic"
  /\ toolName <> lit "write_content" /\ toolName <> lit "city_research".
Proof.
  unfold Spec.known_tools. rewrite !not_elem_of_cons. tauto.
Qed.

(** C5. A tool name that is none of [get_weather], [research_topic],
    [write_content], [city_research] makes the tool executor return exactly
    ["Unknown tool: <name>"], whatever the arguments: it does not throw, and
    the pass of the routing loop goes on, appending the tool message that
    carries this text and the call's id. *)
Theorem unknown_tool_result (ctx : Ctx) (toolName : jstring) (args : json)
    (events : list NetworkEvent) (w : World) :
  toolName ∉ Spec.known_tools ->
  let result := lit "Unknown tool: " ++ toolName in
  executeTool ctx toolName args events w
  = (Ok (result, Spec.bracket toolName args result events w (Spec.tick w)),
     Spec.tick (Spec.tick w))
  /\ forall id arguments r,
       JSON_parse arguments = Ok args ->
       run_tool_call ctx (FunctionToolCall id toolName arguments) r w
       = (Ok (mkRound
                (toolResults r ++ [mkMessage tool (Some result) None (Some id)])
                (rd_executedPrimitives r ++ [toolName])
                (Spec.bracket toolName args result (rd_events r) w (Spec.tick w))),
          Spec.tick (Spec.tick w)).
Proof.
  intros Hname result.
  destruct (not_known_tool _ Hname) as (N1 & N2 & N3 & N4).
  assert (Hexec : forall evs,
    executeTool ctx toolName args evs w
    = (Ok (result, Spec.bracket toolName args result evs w (Spec.tick w)),
       Spec.tick (Spec.tick w))).
  { intros evs. unfold executeTool. step_event.
    rewrite !decide_False by assumption.
    unfold bind at 1. unfold ret at 1. step_event. reflexivity. }
  split; [apply Hexec|].
  intros id arguments r Hparse. unfold run_tool_call.
  erewrite bind_of_Ok by (unfold pure; rewrite Hparse; reflexivity).
  erewrite bind_of_Ok by apply Hexec. reflexivity.
Qed.

(** C4, as amended. Dispatching [get_weather] returns a string whenever the
    location can be converted to a string and encoded, [fetch] resolves and
    the body can be read, whatever the HTTP status: the text is
    ["Weather in <location>: <trimmed body>"]. Nothing catches a failure:
    when [fetch] rejects, or reading the body fails, the exception leaves
    the tool executor. *)
Theorem get_weather_result (ctx : Ctx) (args : json) (location : jsval)
    (shown encoded : jstring) (events : list NetworkEvent) (w : World) :
  prop (Some args) (lit "location") = Ok location ->
  template location = Ok shown ->
  encodeURIComponent shown = Ok encoded ->
  (forall response w2 body,
     fetch (Spec.wttr_url encoded) (Spec.tick w) = (Ok response, w2) ->
     text response = Ok body ->
     let result := lit "Weather in " ++ shown ++ lit ": " ++ trim body in
     executeTool ctx (lit "get_weather") args events w
     = (Ok (result,
            Spec.bracket (lit "get_weather") args result events w w2),
        Spec.tick w2))
  /\ (forall e w2,
        fetch (Spec.wttr_url encoded) (Spec.tick w) = (Throw e, w2) ->
        executeTool ctx (lit "get_weather") args events w = (Throw e, w2))
  /\ (forall response w2 e,
        fetch (Spec.wttr_url encoded) (Spec.tick w) = (Ok response, w2) ->
        text response = Throw e ->
        executeTool ctx (lit "get_weather") args events w = (Throw e, w2)).
Proof.
  intros Hloc Hshown Henc.
  repeat split.
  - intros response w2 body Hfetch Htext result.
    unfold executeTool. step_event.
    rewrite decide_True by reflexivity.
    unfold Tools.getWeather, bind, pure, do_fetch, ret.
    rewrite Hloc, Hshown, Henc. fold (Spec.wttr_url encoded).
    rewrite Hfetch, Htext. cbn -[lit trim template].
    rewrite Hshown, push_event_run. reflexivity.
  - intros e w2 Hfetch.
    unfold executeTool. step_event.
    rewrite decide_True by reflexivity.
    unfold Tools.getWeather, bind, pure, do_fetch, ret.
    rewrite Hloc, Hshown, Henc. fold (Spec.wttr_url encoded).
    rewrite Hfetch. reflexivity.
  - intros response w2 e Hfetch Htext.
    unfold executeTool. step_event.
    rewrite decide_True by reflexivity.
    unfold Tools.getWeather, bind, pure, do_fetch, ret.
    rewrite Hloc, Hshown, Henc. fold (Spec.wttr_url encoded).
    rewrite Hfetch, Htext. reflexivity.
Qed.

(** The failures before the request: arguments that are [null], a location
    that cannot be converted to a string, or one that cannot be encoded,
    make the tool executor throw without fetching anything. *)
Lemma get_weather_unreadable_location (ctx : Ctx) (args : json)
    (events : list NetworkEvent) (w : World) (e : Exn) :
  prop (Some args) (lit "location") = Throw e
  \/ (exists location,
        prop (Some args) (lit "location") = Ok location
        /\ (template location = Throw e
            \/ exists shown, template location = Ok shown
                             /\ encodeURIComponent shown = Throw e)) ->
  executeTool ctx (lit "get_weather") args events w = (Throw e, Spec.tick w).
Proof.
  intros H. unfold executeTool. step_event.
  rewrite decide_True by reflexivity.
  unfold Tools.getWeather, bind, pure, do_fetch, ret.
  destruct H as [->|(location & -> & [->|(shown & -> & ->)])]; reflexivity.
Qed.

End ExecuteToolFacts.

(* ===================================================================== *)
(** ** Weather agent of the using-tools example *)
(* ===================================================================== *)

Section WeatherToolFacts.
Context {P : Platform}.
Import UsingTools.



End WeatherToolFacts.

(* ===================================================================== *)
(** ** Network agent: the routing loop *)
(* ===================================================================== *)

Section RoutingLoopFacts.
Context {P : Platform}.
Import Network.

Lemma slice_last_length {A} (n : nat) (l : list A) :
  length (slice_last n l) = Nat.min n (length l).
Proof. unfold slice_last. rewrite length_drop. lia. Qed.

Lemma slice_last_suffix {A} (n : nat) (l : list A) :
  slice_last n l `suffix_of` l.
Proof. apply suffix_drop. Qed.

Lemma slice_last_short {A} (n : nat) (l : list A) :
  (length l <= n)%nat -> slice_last n l = l.
Proof.
  intros Hle. unfold slice_last.
  replace (length l - n)%nat with 0%nat by lia. reflexivity.
Qed.

Lemma slice_last_again {A} (n : nat) (l : list A) (x : A) :
  (0 < n)%nat ->
  slice_last n (slice_last n l ++ [x]) = slice_last n (l ++ [x]).
Proof.
  intros Hn. destruct (decide (length l <= n)%nat) as [Hle|Hgt].
  - now rewrite (slice_last_short n l).
  - unfold slice_last.
    rewrite !length_app, length_drop. cbn [length].
    rewrite !drop_app_le by (rewrite ?length_drop; lia).
    rewrite drop_drop. do 2 f_equal. lia.
Qed.

(** X27. The sliding window of the memory agent: after the two pushes the
    thread holds the last 20 of the earlier messages followed by the two new
    ones, so never more than 20. *)
Lemma memory_window (message response : jstring)
    (state : gmap jstring (list Memory.ChatMessage)) (w : World) :
  exists t1 t2 state' w',
    Memory.store_exchange message response state w = (Ok state', w')
    /\ state' !! lit "messages"
       = Some (slice_last 20
                 (default [] (state !! lit "messages")
                    ++ [Memory.mkChatMessage user message t1;
                        Memory.mkChatMessage assistant response t2]))
    /\ (length (default [] (state' !! lit "messages")) <= 20)%nat.
Proof.
  unfold Memory.store_exchange, bind, now, ret.
  destruct (toISOString_now w) as [t1 w1].
  destruct (toISOString_now w1) as [t2 w2].
  exists t1, t2. eexists _, _. split; [reflexivity|].
  unfold ThreadState.push, Memory.MAX_MESSAGES.
  set (prior := default [] (state !! lit "messages")).
  rewrite !lookup_insert_eq. simpl.
  rewrite slice_last_again by lia.
  rewrite <- app_assoc. cbn [app]. split; [reflexivity|].
  rewrite slice_last_length. lia.
Qed.



(** What one pass of the loop does, read off a pass that ended normally. *)
Lemma loop_body_inv ctx model st am calls w st' w' :
  loop_body ctx model st am calls w = (Ok st', w') ->
  exists r w1 completion w2,
    run_tool_calls ctx calls
      (mkRound [] (st_executedPrimitives st) (st_events st)) w = (Ok r, w1)
    /\ create (routing_request model
                 (st_messages st ++ Spec.assistant_message am :: toolResults r))
         (Spec.tick (Spec.tick w1)) = (Ok completion, w2)
    /\ st_messages st'
       = st_messages st ++ Spec.assistant_message am :: toolResults r
    /\ st_executedPrimitives st' = rd_executedPrimitives r
    /\ st_assistantMessage st' = first_message completion
    /\ st_response st' = content_or (first_message completion) (st_response st)
    /\ w' = Spec.tick w2.
Proof.
  unfold loop_body. intros H.
  split_run H. rename a into r, w0 into w1.
  rewrite (bind_of_Ok _ _ _ _ _ (push_event_run _ _ _ _)) in H.
  rewrite (bind_of_Ok _ _ _ _ _ (push_event_run _ _ _ _)) in H.
  split_run H. rename a into completion, w0 into w2.
  rewrite (bind_of_Ok _ _ _ _ _ (push_event_run _ _ _ _)) in H.
  apply ret_inv in H as [-> ->].
  exists r, w1, completion, w2. cbn.
  repeat split; try reflexivity; assumption.
Qed.




(** The fuel only bounds the search for the end of the loop: a run that ends
    with some fuel ends in the same way with more. *)
Lemma while_loop_more_fuel fuel ctx model : forall st w r fuel',
  while_loop fuel ctx model st w = Some r ->
  (fuel <= fuel')%nat ->
  while_loop fuel' ctx model st w = Some r.
Proof.
  induction fuel as [|fuel IH]; intros st w r fuel' H Hle.
  - destruct fuel'; cbn in H |- *;
      destruct (pending_calls (st_assistantMessage st)) as [[am calls]|];
      solve [discriminate H | exact H].
  - destruct fuel' as [|fuel']; [lia|]. cbn in H |- *.
    destruct (pending_calls (st_assistantMessage st)) as [[am calls]|];
      [|exact H].
    unfold bindL, lift in H |- *.
    destruct (loop_body ctx model st am calls w) as [[st1|e] w1]; [|exact H].
    apply IH; [exact H|lia].
Qed.

Lemma handler_more_fuel fuel fuel' ctx input state w r :
  handler fuel ctx input state w = Some r ->
  (fuel <= fuel')%nat ->
  handler fuel' ctx input state w = Some r.
Proof.
  unfold handler. intros H Hle.
  rewrite (bindL_lift_Ok _ _ _ _ _ (push_event_run _ _ _ _)) in H.
  rewrite (bindL_lift_Ok _ _ _ _ _ (push_event_run _ _ _ _)) in H.
  rewrite (bindL_lift_Ok _ _ _ _ _ (push_event_run _ _ _ _)).
  rewrite (bindL_lift_Ok _ _ _ _ _ (push_event_run _ _ _ _)).
  unfold bindL at 1 in H. unfold bindL at 1.
  unfold lift at 1 in H. unfold lift at 1.
  destruct (create _ _) as [[completion|e] w1]; [|exact H].
  rewrite (bindL_lift_Ok _ _ _ _ _ (push_event_run _ _ _ _)) in H.
  rewrite (bindL_lift_Ok _ _ _ _ _ (push_event_run _ _ _ _)).
  unfold bindL at 1 in H. unfold bindL at 1.
  destruct (while_loop fuel _ _ _ _) as [[[st|e] w2]|] eqn:E;
    [| |discriminate H].
  - now rewrite (while_loop_more_fuel _ _ _ _ _ _ _ E Hle).
  - now rewrite (while_loop_more_fuel _ _ _ _ _ _ _ E Hle).
Qed.

(** What a completed invocation of the handler went through. *)
Lemma handler_inv fuel ctx input state w out state' w' :
  handler fuel ctx input state w = Some (Ok (out, state'), w') ->
  exists st0 w0 st w2,
    Spec.start ctx input state w = (Ok st0, w0)
    /\ while_loop fuel ctx (default gpt_5_mini (in_model input)) st0 w0
       = Some (Ok st, w2)
    /\ response out = st_response st
    /\ executedPrimitives out = st_executedPrimitives st
    /\ message out = in_message input
    /\ state'
       = ThreadState.set (lit "conversation")
           (slice_last 20
              ((default [] (ThreadState.get (lit "conversation") state)
                  ++ [mkHistoryEntry user (in_message input)])
                 ++ [mkHistoryEntry assistant (st_response st)]))
           state.
Proof.
  unfold handler. intros H.
  rewrite (bindL_lift_Ok _ _ _ _ _ (push_event_run _ _ _ _)) in H.
  rewrite (bindL_lift_Ok _ _ _ _ _ (push_event_run _ _ _ _)) in H.
  apply bindL_Ok_inv in H as (completion & w1 & Hcreate & H).
  apply lift_Ok_inv in Hcreate.
  rewrite (bindL_lift_Ok _ _ _ _ _ (push_event_run _ _ _ _)) in H.
  apply bindL_Ok_inv in H as (st & w2 & Hloop & H).
  rewrite (bindL_lift_Ok _ _ _ _ _ (push_event_run _ _ _ _)) in H.
  apply lift_Ok_inv, ret_inv in H as [H _].
  injection H as -> ->.
  eexists _, _, st, w2. split; [|split; [exact Hloop|]].
  - unfold Spec.start.
    rewrite (bind_of_Ok _ _ _ _ _ (push_event_run _ _ _ _)).
    rewrite (bind_of_Ok _ _ _ _ _ (push_event_run _ _ _ _)).
    rewrite (bind_of_Ok _ _ _ _ _ Hcreate).
    rewrite (bind_of_Ok _ _ _ _ _ (push_event_run _ _ _ _)).
    reflexivity.
  - cbn. repeat split; reflexivity.
Qed.

(** C2. After every completed invocation of the routing loop, the history
    kept for the thread is the prior history followed by the user message
    and the final response as an assistant entry, cut down to its last 20
    entries: it never has more than 20 entries and it is the tail end of
    that sequence, in the same order. *)
Theorem history_persisted_capped (fuel : nat) (ctx : Ctx)
    (input : NetworkInput) (state : gmap jstring (list HistoryEntry))
    (w : World) (out : NetworkOutput)
    (state' : gmap jstring (list HistoryEntry)) (w' : World) :
  handler fuel ctx input state w = Some (Ok (out, state'), w') ->
  let prior := default [] (state !! lit "conversation") in
  let extended :=
    prior ++ [mkHistoryEntry user (in_message input);
              mkHistoryEntry assistant (response out)] in
  state' !! lit "conversation" = Some (slice_last 20 extended)
  /\ (length (slice_last 20 extended) <= 20)%nat
  /\ length (slice_last 20 extended) = Nat.min 20 (length extended)
  /\ slice_last 20 extended `suffix_of` extended
  /\ (forall key, key <> lit "conversation" -> state' !! key = state !! key).
Proof.
  intros H prior extended.
  apply handler_inv in H as (st0 & w0 & st & w2 & _ & _ & Hr & _ & _ & ->).
  unfold ThreadState.set, ThreadState.get.
  rewrite <- Hr, <- app_assoc. fold prior. cbn [app]. fold extended.
  repeat split.
  - apply lookup_insert_eq.
  - rewrite slice_last_length. lia.
  - apply slice_last_length.
  - apply slice_last_suffix.
  - intros key Hkey. now apply lookup_insert_ne.
Qed.

Lemma content_or_spec am previous :
  content_or am previous
  = match Spec.turn_text am with
    | [] => previous
    | text => text
    end.
Proof. now destruct am as [[[[|c s]|] tcs]|]. Qed.

(** The response at the end of the loop is the response at its start,
    updated by every turn the loop received. *)
Lemma while_loop_response fuel ctx model : forall st w st' w',
  while_loop fuel ctx model st w = Some (Ok st', w') ->
  st_response st'
  = fold_left (fun acc am => content_or am acc)
      (Spec.loop_turns fuel ctx model st w) (st_response st).
Proof.
  induction fuel as [|fuel IH]; intros st w st' w' H; cbn in H |- *.
  - destruct (pending_calls (st_assistantMessage st)) as [[am calls]|].
    + discriminate.
    + apply lift_Ok_inv, ret_inv in H as [-> _]. reflexivity.
  - destruct (pending_calls (st_assistantMessage st)) as [[am calls]|].
    + apply bindL_Ok_inv in H as (st1 & w1 & Hbody & H).
      apply lift_Ok_inv in Hbody. rewrite Hbody. cbn [fold_left].
      rewrite (IH _ _ _ _ H). f_equal.
      apply loop_body_inv in Hbody
        as (_ & _ & completion & _ & _ & _ & _ & _ & -> & -> & _).
      reflexivity.
    + apply lift_Ok_inv, ret_inv in H as [-> _]. reflexivity.
Qed.

(** Folding [content_or] over the turns picks the text of the last turn that
    has one, and leaves the initial text when no turn has. *)
Lemma fold_content_or_spec turns : forall init,
  let final := fold_left (fun acc am => content_or am acc) turns init in
  (exists before am after,
      turns = before ++ am :: after
      /\ Spec.turn_text am <> []
      /\ Forall (fun a => Spec.turn_text a = []) after
      /\ final = Spec.turn_text am)
  \/ (Forall (fun a => Spec.turn_text a = []) turns /\ final = init).
Proof.
  induction turns as [|a l IH] using rev_ind; intros init final.
  - right. split; [constructor|reflexivity].
  - subst final. rewrite fold_left_app. cbn [fold_left].
    rewrite content_or_spec.
    destruct (Spec.turn_text a) as [|c s] eqn:Ea.
    + destruct (IH init) as [(before & am & after & -> & Hne & Hall & E)|[Hall E]].
      * left. exists before, am, (after ++ [a]). repeat split.
        -- now rewrite <- app_assoc.
        -- assumption.
        -- apply Forall_app. split; [assumption|]. now constructor.
        -- assumption.
      * right. split; [|assumption].
        apply Forall_app. split; [assumption|]. now constructor.
    + left. exists l, a, []. rewrite Ea. repeat split.
      * discriminate.
      * constructor.
Qed.

(** C3. After each model turn of the routing loop the response is that
    turn's assistant text when it is not empty, and the text recorded before
    otherwise; so the response of a completed invocation is the text of the
    last turn that had one, and empty when no turn had. *)
Theorem response_is_last_nonempty_turn (fuel : nat) (ctx : Ctx)
    (input : NetworkInput) (state : gmap jstring (list HistoryEntry))
    (w : World) (out : NetworkOutput)
    (state' : gmap jstring (list HistoryEntry)) (w' : World) :
  handler fuel ctx input state w = Some (Ok (out, state'), w') ->
  (forall model st am calls w1 st1 w1',
     loop_body ctx model st am calls w1 = (Ok st1, w1') ->
     st_response st1
     = match Spec.turn_text (st_assistantMessage st1) with
       | [] => st_response st
       | text => text
       end)
  /\ let ts := Spec.turns fuel ctx input state w in
     ts <> []
     /\ ((exists before am after,
            ts = before ++ am :: after
            /\ Spec.turn_text am <> []
            /\ Forall (fun a => Spec.turn_text a = []) after
            /\ response out = Spec.turn_text am)
         \/ (Forall (fun a => Spec.turn_text a = []) ts
             /\ response out = [])).
Proof.
  intros H. split.
  - intros model st am calls w1 st1 w1' Hbody.
    apply loop_body_inv in Hbody
      as (_ & _ & completion & _ & _ & _ & _ & _ & -> & -> & _).
    apply content_or_spec.
  - apply handler_inv in H as (st0 & w0 & st & w2 & Hstart & Hloop & -> & _).
    unfold Spec.turns. rewrite Hstart. cbv zeta. split; [discriminate|].
    apply while_loop_response in Hloop. rewrite Hloop.
    assert (E0 : st_response st0 = content_or (st_assistantMessage st0) []).
    { unfold Spec.start in Hstart.
      rewrite (bind_of_Ok _ _ _ _ _ (push_event_run _ _ _ _)) in Hstart.
      rewrite (bind_of_Ok _ _ _ _ _ (push_event_run _ _ _ _)) in Hstart.
      split_run Hstart.
      rewrite (bind_of_Ok _ _ _ _ _ (push_event_run _ _ _ _)) in Hstart.
      apply ret_inv in Hstart as [-> _]. reflexivity. }
    rewrite E0.
    exact (fold_content_or_spec
             (st_assistantMessage st0
                :: Spec.loop_turns fuel ctx
                     (default gpt_5_mini (in_model input)) st0 w0) []).
Qed.

End RoutingLoopFacts.

(* ===================================================================== *)
(** ** City workflow and Writing agent *)
(* ===================================================================== *)

Section WorkflowFacts.
Context {P : Platform}.
Import Workflows.

Lemma as_strings_of_strings (l : list jstring) :
  Writing.as_strings (Some (JArr (map JStr l))) = Some l.
Proof.
  unfold Writing.as_strings.
  induction l as [|x l IH]; [reflexivity|].
  cbn. cbn in IH. rewrite IH. reflexivity.
Qed.

(** C6. For every city, [cityWorkflow] first runs the Research agent on the
    city name followed by [" - history, culture, landmarks, and interesting
    facts"], then runs the Writing agent on the city with exactly the
    insights that research returned and with style ["report"]; it returns the
    city, those insights, and the content and word count that the Writing
    agent returned. The prompt that the Writing agent sends to the model is
    built from those insights and no others. *)
Theorem city_workflow_composition (ctx : Ctx) (city : jstring) (w : World) :
  (forall r w1 wr w',
     Research.run ctx
       (Some (JStr (city
                      ++ lit " - history, culture, landmarks, and interesting facts")))
       w = (Ok r, w1) ->
     Writing.run ctx (Some (JStr city))
       (Some (JArr (map JStr (Research.insights r))))
       (Some (JStr (lit "report"))) w1 = (Ok wr, w') ->
     cityWorkflow ctx (Some (JStr city)) w
     = (Ok (mkCityWorkflowOutput (Some (JStr city))
              (mkResearchPart (Research.insights r))
              (mkReportPart (Writing.content wr) (Writing.wordCount wr))),
        w'))
  /\ (forall out w',
        cityWorkflow ctx (Some (JStr city)) w = (Ok out, w') ->
        exists r w1 wr completion,
          Research.run ctx
            (Some (JStr (city
                           ++ lit " - history, culture, landmarks, and interesting facts")))
            w = (Ok r, w1)
          /\ Research.handler ctx
               (city ++ lit " - history, culture, landmarks, and interesting facts")
               None w = (Ok r, w1)
          /\ Research.topic r
             = city ++ lit " - history, culture, landmarks, and interesting facts"
          /\ Writing.run ctx (Some (JStr city))
               (Some (JArr (map JStr (Research.insights r))))
               (Some (JStr (lit "report"))) w1 = (Ok wr, w')
          /\ Writing.handler ctx city (Research.insights r)
               (Some Writing.report) None w1 = (Ok wr, w')
          /\ Writing.style_name Writing.report = lit "report"
          /\ create
               (Spec.writing_request city (Research.insights r) Writing.report)
               w1 = (Ok completion, w')
          /\ Writing.content wr = default [] (first_content completion)
          /\ out = mkCityWorkflowOutput (Some (JStr city))
                     (mkResearchPart (Research.insights r))
                     (mkReportPart (Writing.content wr)
                        (Writing.wordCount wr))).
Proof.
  assert (Hwrite : forall ins,
    Writing.run ctx (Some (JStr city)) (Some (JArr (map JStr ins)))
      (Some (JStr (lit "report")))
    = Writing.handler ctx city ins (Some Writing.report) None).
  { intros ins. unfold Writing.run. now rewrite as_strings_of_strings. }
  assert (Hshown : forall w0, pure (template (Some (JStr city))) w0 = (Ok city, w0))
    by reflexivity.
  split.
  - intros r w1 wr w' Hr Hw. unfold cityWorkflow.
    rewrite (bind_of_Ok _ _ _ _ _ (Hshown w)).
    unfold topic_suffix.
    rewrite (bind_of_Ok _ _ _ _ _ Hr).
    now rewrite (bind_of_Ok _ _ _ _ _ Hw).
  - unfold cityWorkflow. intros out w' H.
    rewrite (bind_of_Ok _ _ _ _ _ (Hshown w)) in H.
    unfold topic_suffix in H.
    split_run H. rename a into r, w0 into w1.
    split_run H. rename a into wr, w0 into w2.
    apply ret_inv in H as [-> ->].
    exists r, w1, wr.
    pose proof Hrun as Hr. cbn [Research.run] in Hr.
    pose proof Hr as Hr'. unfold Research.handler in Hr'.
    split_run Hr'. apply ret_inv in Hr' as [-> _].
    pose proof Hrun0 as Hw. rewrite Hwrite in Hw.
    pose proof Hw as Hw'. unfold Writing.handler in Hw'.
    split_run Hw'. apply ret_inv in Hw' as [-> ->].
    exists a0. cbn [Research.insights Research.topic Writing.content
                     Writing.wordCount] in *.
    repeat split; assumption.
Qed.

Lemma split_spaces_word word : forall in_run cur rest,
  Forall (fun c => is_space c = false) word ->
  split_spaces_from in_run cur (word ++ rest)
  = split_spaces_from (match word with [] => in_run | _ => false end)
      (rev word ++ cur) rest.
Proof.
  induction word as [|c word IH]; intros in_run cur rest Hw; [reflexivity|].
  inversion Hw as [|? ? Hc Hword]; subst. cbn [app split_spaces_from].
  rewrite Hc, IH by assumption.
  cbn [rev]. rewrite <- app_assoc. cbn [app]. now destruct word.
Qed.

Lemma split_spaces_in_gap gap : forall rest,
  Forall (fun c => is_space c = true) gap ->
  split_spaces_from true [] (gap ++ rest) = split_spaces_from true [] rest.
Proof.
  induction gap as [|c gap IH]; intros rest Hg; [reflexivity|].
  inversion Hg as [|? ? Hc Hgap]; subst. cbn [app split_spaces_from].
  rewrite Hc. now apply IH.
Qed.

Lemma split_spaces_gap gap cur rest :
  Spec.is_gap gap ->
  split_spaces_from false cur (gap ++ rest)
  = rev cur :: split_spaces_from true [] rest.
Proof.
  intros [Hne Hg]. destruct gap as [|c gap]; [contradiction|].
  inversion Hg as [|? ? Hc Hgap]; subst. cbn [app split_spaces_from].
  rewrite Hc. f_equal. now apply split_spaces_in_gap.
Qed.

Lemma count_gaps_and_words rest : forall cur,
  Forall (fun gw => Spec.is_gap (fst gw) /\ Spec.is_word (snd gw)) rest ->
  length (split_spaces_from false cur (Spec.gaps_and_words rest))
  = S (length rest).
Proof.
  induction rest as [|[gap word] rest IH]; intros cur Hrest; [reflexivity|].
  inversion Hrest as [|? ? [Hgap [Hne Hword]] Hrest']; subst.
  cbn [Spec.gaps_and_words fst snd] in *.
  rewrite split_spaces_gap by assumption.
  rewrite split_spaces_word by assumption.
  destruct word as [|c word]; [contradiction|].
  cbn [length]. f_equal. now apply IH.
Qed.

(** X26. Where the word count is the number of words: for a content that
    starts with a word and goes on with gaps of whitespace and words,
    ending with a word, [wordCount] is the number of words. *)
Lemma count_words_of_words first rest :
  Spec.is_word first ->
  Forall (fun gw => Spec.is_gap (fst gw) /\ Spec.is_word (snd gw)) rest ->
  Writing.count_words (first ++ Spec.gaps_and_words rest) = S (length rest).
Proof.
  intros [_ Hfirst] Hrest. unfold Writing.count_words, split_spaces.
  rewrite split_spaces_word by assumption.
  assert (E : match first with [] => false | _ => false end = false)
    by now destruct first.
  rewrite E. now apply count_gaps_and_words.
Qed.

End WorkflowFacts.

(** C7, at the input where the code departs from the claim. The word count
    of the empty content is 1, not 0: splitting the empty string gives one
    empty piece. The Writing agent returns this count when the model's
    content is [null] or empty. A run of whitespace at the start or at the
    end of the content adds an empty piece in the same way. *)
Theorem empty_content_counts_one_word :
  Writing.count_words [] = 1%nat
  /\ split_spaces [] = [[]]
  /\ (exists out w',
        Writing.handler (P := Scripted.platform Scripted.null_script)
          Scripted.ctx0 (lit "Paris") [lit "has a tower"] None None []
        = (Ok out, w')
        /\ Writing.content out = []
        /\ Writing.wordCount out = 1%nat)
  /\ Writing.count_words (lit "two words") = 2%nat
  /\ Writing.count_words (lit " two words ") = 4%nat.
Proof.
  repeat split; try (vm_compute; reflexivity).
  eexists _, _. repeat split; vm_compute; reflexivity.
Qed.

(* ===================================================================== *)
(** ** Day planner *)
(* ===================================================================== *)

Section DayPlannerFacts.
Context {P : Platform}.
Import DayPlanner.

Lemma prop_throws_TypeError v k e : prop v k = Throw e -> e = TypeError.
Proof.
  destruct v as [[| | | | |]|]; cbn; intros H;
    solve [discriminate H | now injection H as <-].
Qed.

(** C8. When the content of the model's response is not valid JSON, the
    handler does not throw: it goes on with the placeholder in place of the
    parsed plan and returns one ["Morning"] block holding one
    ["Plan your day"] activity, the summary
    ["A simple day plan to get started."] and a total of one activity. *)
Theorem day_planner_fallback (ctx : Ctx) (input : AgentInput)
    (state : gmap jstring (list HistoryEntry)) (w : World)
    (completion : Completion) (w1 : World) (e : Exn) :
  create (Spec.planner_request input) w = (Ok completion, w1) ->
  JSON_parse (default (lit "{}") (first_content completion)) = Throw e ->
  exists out state',
    handler ctx input state w = (Ok (out, state'), Spec.tick w1)
    /\ plan out = Some (JArr [Spec.placeholder_block])
    /\ summary out = Some (JStr (lit "A simple day plan to get started."))
    /\ totalActivities out = Some 1%nat.
Proof.
  intros Hcreate Hparse.
  unfold handler. fold (Spec.planner_request input).
  rewrite (bind_of_Ok _ _ _ _ _ Hcreate).
  unfold try_catch, bind at 1. unfold pure at 1. rewrite Hparse.
  unfold ret at 1.
  change (count_activities fallbackPlan) with (Ok (A:=option nat) (Some 1%nat)).
  unfold bind at 1. unfold pure at 1.
  unfold bind at 1. unfold now at 1. unfold Spec.tick.
  destruct (toISOString_now w1) as [timestamp w2]. cbn [snd].
  eexists _, _. split; [reflexivity|].
  cbn. repeat split; reflexivity.
Qed.

(** C9. The placeholder stands in for parse failures only. When the content
    parses as JSON but the parsed value holds no array under [plan] - as
    for ["{}"], which is also what the handler parses when the model's
    content is [null] - computing the total throws a [TypeError], and the
    handler ends by throwing it. *)
Theorem day_planner_raises_without_plan (ctx : Ctx) (input : AgentInput)
    (state : gmap jstring (list HistoryEntry)) (w : World)
    (completion : Completion) (w1 : World) (parsed : json) :
  create (Spec.planner_request input) w = (Ok completion, w1) ->
  JSON_parse (default (lit "{}") (first_content completion)) = Ok parsed ->
  (forall blocks, prop (Some parsed) (lit "plan") <> Ok (Some (JArr blocks))) ->
  handler ctx input state w = (Throw TypeError, w1).
Proof.
  intros Hcreate Hparse Hplan.
  unfold handler. fold (Spec.planner_request input).
  rewrite (bind_of_Ok _ _ _ _ _ Hcreate).
  unfold try_catch, bind at 1. unfold pure at 1. rewrite Hparse.
  assert (E : count_activities parsed = Throw TypeError).
  { unfold count_activities.
    destruct (prop (Some parsed) (lit "plan")) as [[[| | | |blocks|]|]|e] eqn:E;
      try reflexivity.
    - now specialize (Hplan blocks).
    - now rewrite (prop_throws_TypeError _ _ _ E). }
  unfold bind at 1. unfold pure at 1. rewrite E. reflexivity.
Qed.

End DayPlannerFacts.

(* ===================================================================== *)
(** ** The properties on examples *)
(* ===================================================================== *)

Section Examples.
Import Scripted.


Lemma history_persisted_capped_witness :
  exists out state' w',
    Network.handler (P := platform weather_script) 3 ctx0 weather_input
      long_state [] = Some (Ok (out, state'), w')
    /\ state' !! lit "conversation"
       = Some (slice_last 20
                 (long_history
                    ++ [Network.mkHistoryEntry user (lit "Weather in Paris?");
                        Network.mkHistoryEntry assistant
                          (Network.response out)]))
    /\ length (default [] (state' !! lit "conversation")) = 20%nat.
Proof.
  eexists _, _, _. split; [vm_compute; reflexivity|].
  split.
  - eapply (history_persisted_capped (P := platform weather_script) 3 ctx0
              weather_input long_state []).
    vm_compute. reflexivity.
  - vm_compute. reflexivity.
Defined.

Lemma response_is_last_nonempty_turn_witness :
  exists out state' w',
    Network.handler (P := platform weather_script) 3 ctx0 weather_input
      long_state [] = Some (Ok (out, state'), w')
    /\ Spec.turns (P := platform weather_script) 3 ctx0 weather_input
         long_state []
       = [Some weather_message;
          Some (mkResponseMessage (Some (lit "It is sunny in Paris.")) None)]
    /\ Network.response out = lit "It is sunny in Paris."
    /\ ((exists before am after,
           Spec.turns (P := platform weather_script) 3 ctx0 weather_input
             long_state [] = before ++ am :: after
           /\ Spec.turn_text am <> []
           /\ Forall (fun a => Spec.turn_text a = []) after
           /\ Network.response out = Spec.turn_text am)
        \/ (Forall (fun a => Spec.turn_text a = [])
              (Spec.turns (P := platform weather_script) 3 ctx0 weather_input
                 long_state [])
            /\ Network.response out = [])).
Proof.
  eexists _, _, _. split; [vm_compute; reflexivity|].
  split; [vm_compute; reflexivity|].
  split; [vm_compute; reflexivity|].
  eapply (response_is_last_nonempty_turn (P := platform weather_script) 3 ctx0
            weather_input long_state []).
  vm_compute. reflexivity.
Defined.

(** C4 as it is stated fails: when [fetch] rejects, dispatching
    [get_weather] throws. *)
Lemma get_weather_raises_when_offline :
  ~ Spec.get_weather_never_raises (P := platform offline_script) ctx0
      paris_args [] [].
Proof.
  intros (result & events' & w' & H).
  vm_compute in H. discriminate H.
Qed.

Lemma get_weather_result_witness :
  Network.executeTool (P := platform weather_script) ctx0 (lit "get_weather")
    paris_args [] []
  = (Ok (lit "Weather in Paris: Sunny +20C",
         Spec.bracket (P := platform weather_script) (lit "get_weather")
           paris_args (lit "Weather in Paris: Sunny +20C") [] [] []),
     [])
  /\ Network.executeTool (P := platform offline_script) ctx0
       (lit "get_weather") paris_args [] []
     = (Throw (Rejected (lit "fetch failed")), []).
Proof.
  split.
  - destruct (get_weather_result (P := platform weather_script) ctx0
                paris_args (Some (JStr (lit "Paris"))) (lit "Paris")
                (lit "Paris") [] [] eq_refl eq_refl eq_refl)
      as (Hok & _ & _).
    exact (Hok (mkResponse false (Ok (lit " Sunny +20C "))) []
             (lit " Sunny +20C ") eq_refl eq_refl).
  - destruct (get_weather_result (P := platform offline_script) ctx0
                paris_args (Some (JStr (lit "Paris"))) (lit "Paris")
                (lit "Paris") [] [] eq_refl eq_refl eq_refl)
      as (_ & Hfail & _).
    exact (Hfail (Rejected (lit "fetch failed")) [] eq_refl).
Defined.

Lemma translate_is_unknown : lit "translate" ∉ Spec.known_tools.
Proof.
  unfold Spec.known_tools. rewrite !not_elem_of_cons.
  repeat split; try discriminate. apply not_elem_of_nil.
Defined.

Lemma unknown_tool_result_witness :
  Network.executeTool (P := platform weather_script) ctx0 (lit "translate")
    paris_args [] []
  = (Ok (lit "Unknown tool: translate",
         Spec.bracket (P := platform weather_script) (lit "translate")
           paris_args (lit "Unknown tool: translate") [] [] []),
     []).
Proof.
  exact (proj1 (unknown_tool_result (P := platform weather_script) ctx0
                  (lit "translate") paris_args [] [] translate_is_unknown)).
Defined.

Lemma city_workflow_composition_witness :
  exists out w',
    Workflows.cityWorkflow (P := platform city_script) ctx0
      (Some (JStr (lit "Paris"))) [] = (Ok out, w')
    /\ Workflows.insights (Workflows.research out)
       = [lit "founded long ago"; lit "has a tower"]
    /\ exists r w1 wr completion,
         Research.run (P := platform city_script) ctx0
           (Some (JStr (lit "Paris - history, culture, landmarks, and interesting facts")))
           [] = (Ok r, w1)
         /\ Research.handler (P := platform city_script) ctx0
              (lit "Paris - history, culture, landmarks, and interesting facts")
              None [] = (Ok r, w1)
         /\ Research.topic r
            = lit "Paris - history, culture, landmarks, and interesting facts"
         /\ Writing.run (P := platform city_script) ctx0
              (Some (JStr (lit "Paris")))
              (Some (JArr (map JStr (Research.insights r))))
              (Some (JStr (lit "report"))) w1 = (Ok wr, w')
         /\ Writing.handler (P := platform city_script) ctx0 (lit "Paris")
              (Research.insights r) (Some Writing.report) None w1
            = (Ok wr, w')
         /\ Writing.style_name Writing.report = lit "report"
         /\ create (P := platform city_script)
              (Spec.writing_request (lit "Paris") (Research.insights r)
                 Writing.report) w1 = (Ok completion, w')
         /\ Writing.content wr = default [] (first_content completion)
         /\ out = Workflows.mkCityWorkflowOutput (Some (JStr (lit "Paris")))
                    (Workflows.mkResearchPart (Research.insights r))
                    (Workflows.mkReportPart (Writing.content wr)
                       (Writing.wordCount wr)).
Proof.
  eexists _, _. split; [vm_compute; reflexivity|].
  split; [vm_compute; reflexivity|].
  eapply (proj2 (city_workflow_composition (P := platform city_script) ctx0
                   (lit "Paris") [])).
  vm_compute. reflexivity.
Defined.

Lemma day_planner_fallback_witness :
  exists out state',
    DayPlanner.handler (P := platform prose_script) ctx0 planner_input ∅ []
    = (Ok (out, state'),
       Spec.tick (P := platform prose_script)
         [Spec.planner_request planner_input])
    /\ DayPlanner.plan out = Some (JArr [Spec.placeholder_block])
    /\ DayPlanner.summary out
       = Some (JStr (lit "A simple day plan to get started."))
    /\ DayPlanner.totalActivities out = Some 1%nat.
Proof.
  eapply (day_planner_fallback (P := platform prose_script) ctx0 planner_input
            ∅ [] _ _ SyntaxError).
  - vm_compute. reflexivity.
  - vm_compute. reflexivity.
Defined.

Lemma day_planner_raises_without_plan_witness :
  DayPlanner.handler (P := platform null_script) ctx0 planner_input ∅ []
  = (Throw TypeError, [Spec.planner_request planner_input]).
Proof.
  eapply (day_planner_raises_without_plan (P := platform null_script) ctx0
            planner_input ∅ [] _ _ (JObj [])).
  - vm_compute. reflexivity.
  - vm_compute. reflexivity.
  - intros blocks. discriminate.
Defined.


End Examples.

(* ===================================================================== *)
(** ** Further properties of the routing loop *)
(* ===================================================================== *)

Section RoutingLoopMore.
Context {P : Platform}.
Import Network.

Lemma bindL_lift_Throw {A B} (m : M A) (k : A -> L B) w e w1 :
  m w = (Throw e, w1) -> bindL (lift m) k w = Some (Throw e, w1).
Proof. intros E. unfold bindL, lift. now rewrite E. Qed.

Lemma while_loop_done fuel ctx model st w :
  pending_calls (st_assistantMessage st) = None ->
  while_loop fuel ctx model st w = Some (Ok st, w).
Proof. intros E. destruct fuel; cbn; now rewrite E. Qed.

Lemma pending_requested am :
  match pending_calls am with
  | Some (m, calls) => am = Some m /\ Props.requested am = calls
  | None => Props.requested am = []
  end.
Proof.
  destruct am as [[c [[|tc tcs]|]]|]; cbn; auto.
Qed.

(** X1. When the first answer of the model asks for no tool, the handler
    ends whatever the fuel, after that one model call: the response is the
    text of that answer (empty when it has none), no primitive was
    executed, the events are the four of a run without tools, and the
    history gains the user message and the response. *)
Theorem no_tools_answers_at_once (fuel : nat) (ctx : Ctx)
    (input : NetworkInput) (state : gmap jstring (list HistoryEntry))
    (w : World) (completion : Completion) (w1 : World) :
  let history := default [] (state !! lit "conversation") in
  let messages :=
    mkMessage system (Some systemPrompt) None None
      :: map history_message history
      ++ [mkMessage user (Some (in_message input)) None None] in
  create (routing_request (default gpt_5_mini (in_model input)) messages)
    (Spec.tick (Spec.tick w)) = (Ok completion, w1) ->
  pending_calls (first_message completion) = None ->
  exists out state',
    handler fuel ctx input state w
    = Some (Ok (out, state'), Spec.tick (Spec.tick w1))
    /\ response out = Spec.turn_text (first_message completion)
    /\ executedPrimitives out = []
    /\ map type (events out)
       = [network_start; routing_agent_start; routing_agent_end;
          network_complete]
    /\ state' !! lit "conversation"
       = Some (slice_last 20
                 (history
                    ++ [mkHistoryEntry user (in_message input);
                        mkHistoryEntry assistant (response out)])).
Proof.
  intros history messages Hcreate Hdone.
  unfold handler.
  rewrite (bindL_lift_Ok _ _ _ _ _ (push_event_run _ _ _ _)).
  rewrite (bindL_lift_Ok _ _ _ _ _ (push_event_run _ _ _ _)).
  rewrite (bindL_lift_Ok _ _ _ _ _ Hcreate).
  rewrite (bindL_lift_Ok _ _ _ _ _ (push_event_run _ _ _ _)).
  unfold bindL at 1. rewrite while_loop_done by exact Hdone.
  rewrite (bindL_lift_Ok _ _ _ _ _ (push_event_run _ _ _ _)).
  eexists _, _. split; [reflexivity|]. cbn.
  repeat split.
  - rewrite content_or_spec. now destruct (Spec.turn_text _).
  - unfold ThreadState.set, ThreadState.get. rewrite lookup_insert_eq.
    now rewrite <- app_assoc.
Qed.

Lemma run_tool_call_executed ctx toolCall r w r' w' :
  run_tool_call ctx toolCall r w = (Ok r', w') ->
  rd_executedPrimitives r'
  = rd_executedPrimitives r ++ Props.function_names [toolCall].
Proof.
  destruct toolCall as [id toolName arguments | id toolName input];
    unfold run_tool_call; intros H; cbn.
  - split_run H. split_run H. destruct a0 as [result events].
    now apply ret_inv in H as [-> _].
  - apply ret_inv in H as [-> _]. now rewrite app_nil_r.
Qed.

Lemma function_names_app a b :
  Props.function_names (a ++ b)
  = Props.function_names a ++ Props.function_names b.
Proof. unfold Props.function_names. apply flat_map_app. Qed.

Lemma run_tool_calls_executed ctx calls : forall r w r' w',
  run_tool_calls ctx calls r w = (Ok r', w') ->
  rd_executedPrimitives r'
  = rd_executedPrimitives r ++ Props.function_names calls.
Proof.
  induction calls as [|toolCall rest IH]; intros r w r' w' H; cbn in H.
  - apply ret_inv in H as [-> _]. cbn. now rewrite app_nil_r.
  - split_run H.
    apply run_tool_call_executed in Hrun. apply IH in H.
    rewrite H, Hrun, <- app_assoc.
    change (toolCall :: rest) with ([toolCall] ++ rest).
    now rewrite function_names_app.
Qed.

Lemma while_loop_executed fuel ctx model : forall st w st' w',
  while_loop fuel ctx model st w = Some (Ok st', w') ->
  st_executedPrimitives st'
  = st_executedPrimitives st
      ++ flat_map (fun am => Props.function_names (Props.requested am))
           (st_assistantMessage st :: Spec.loop_turns fuel ctx model st w).
Proof.
  induction fuel as [|fuel IH]; intros st w st' w' H; cbn in H |- *;
    pose proof (pending_requested (st_assistantMessage st)) as Hp;
    destruct (pending_calls (st_assistantMessage st)) as [[am calls]|].
  - discriminate.
  - apply lift_Ok_inv, ret_inv in H as [-> _].
    rewrite Hp. cbn. now rewrite app_nil_r.
  - destruct Hp as [_ Hp].
    apply bindL_Ok_inv in H as (st1 & w1 & Hbody & H).
    apply lift_Ok_inv in Hbody. rewrite Hbody.
    rewrite (IH _ _ _ _ H), Hp.
    apply loop_body_inv in Hbody
      as (r & w0 & _ & _ & Hcalls & _ & _ & -> & _).
    apply run_tool_calls_executed in Hcalls. cbn in Hcalls.
    rewrite Hcalls. cbn [flat_map]. now rewrite <- !app_assoc.
  - apply lift_Ok_inv, ret_inv in H as [-> _].
    rewrite Hp. cbn. now rewrite app_nil_r.
Qed.

(** X2. The executed primitives of a completed invocation are the names of
    the function calls that the model asked for, turn after turn and, in a
    turn, in the order of the calls; calls that are not function calls
    leave no name. *)
Theorem executed_primitives_are_function_names (fuel : nat) (ctx : Ctx)
    (input : NetworkInput) (state : gmap jstring (list HistoryEntry))
    (w : World) (out : NetworkOutput)
    (state' : gmap jstring (list HistoryEntry)) (w' : World) :
  handler fuel ctx input state w = Some (Ok (out, state'), w') ->
  executedPrimitives out
  = flat_map (fun am => Props.function_names (Props.requested am))
      (Spec.turns fuel ctx input state w).
Proof.
  intros H.
  apply handler_inv in H as (st0 & w0 & st & w2 & Hstart & Hloop & _ & -> & _).
  unfold Spec.turns. rewrite Hstart.
  apply while_loop_executed in Hloop. rewrite Hloop.
  assert (E0 : st_executedPrimitives st0 = []).
  { unfold Spec.start in Hstart.
    rewrite (bind_of_Ok _ _ _ _ _ (push_event_run _ _ _ _)) in Hstart.
    rewrite (bind_of_Ok _ _ _ _ _ (push_event_run _ _ _ _)) in Hstart.
    split_run Hstart.
    rewrite (bind_of_Ok _ _ _ _ _ (push_event_run _ _ _ _)) in Hstart.
    apply ret_inv in Hstart as [-> _]. reflexivity. }
  now rewrite E0.
Qed.

Lemma run_tool_calls_app ctx before after : forall r w,
  run_tool_calls ctx (before ++ after) r w
  = bind (run_tool_calls ctx before r) (run_tool_calls ctx after) w.
Proof.
  induction before as [|tc before IH]; intros r w; cbn.
  - reflexivity.
  - unfold bind.
    destruct (run_tool_call ctx tc r w) as [[r1|e] w1]; [|reflexivity].
    rewrite IH. reflexivity.
Qed.

(** X3. A function call whose arguments are not JSON ends the pass with the
    exception of [JSON.parse], whatever the tool named - an unknown one
    too: the results of the calls before it are dropped, the calls after it
    are not run, and the model is not called again. *)
Theorem malformed_arguments_abort_the_pass (ctx : Ctx) (model : Model)
    (st : LoopState) (am : ResponseMessage)
    (before after : list ToolCall) (id toolName arguments : jstring)
    (e : Exn) (w : World) (r1 : Round) (w1 : World) :
  run_tool_calls ctx before
    (mkRound [] (st_executedPrimitives st) (st_events st)) w = (Ok r1, w1) ->
  JSON_parse arguments = Throw e ->
  let calls := before ++ FunctionToolCall id toolName arguments :: after in
  loop_body ctx model st am calls w = (Throw e, w1)
  /\ (pending_calls (st_assistantMessage st) = Some (am, calls) ->
      forall fuel, while_loop (S fuel) ctx model st w = Some (Throw e, w1)).
Proof.
  intros Hbefore Hparse calls.
  assert (Hbody : loop_body ctx model st am calls w = (Throw e, w1)).
  { unfold loop_body, calls. apply bind_of_Throw.
    rewrite run_tool_calls_app. rewrite (bind_of_Ok _ _ _ _ _ Hbefore).
    cbn [run_tool_calls]. apply bind_of_Throw.
    unfold run_tool_call. apply bind_of_Throw.
    unfold pure. now rewrite Hparse. }
  split; [exact Hbody|].
  intros Hpending fuel. cbn [while_loop]. rewrite Hpending.
  unfold bindL, lift. now rewrite Hbody.
Qed.

(** X4. A failure of the model call ends the invocation with the exception
    of the client, whatever the fuel: the first call is not tried again,
    and a failing call of a later pass ends that pass in the same way. *)
Theorem model_failure_ends_the_invocation (ctx : Ctx) (input : NetworkInput)
    (state : gmap jstring (list HistoryEntry)) (w : World) :
  (forall e w1 fuel,
     (let history := default [] (state !! lit "conversation") in
      create
        (routing_request (default gpt_5_mini (in_model input))
           (mkMessage system (Some systemPrompt) None None
              :: map history_message history
              ++ [mkMessage user (Some (in_message input)) None None]))
        (Spec.tick (Spec.tick w))) = (Throw e, w1) ->
     handler fuel ctx input state w = Some (Throw e, w1))
  /\ (forall model st am calls r w1 e w2 fuel,
        pending_calls (st_assistantMessage st) = Some (am, calls) ->
        run_tool_calls ctx calls
          (mkRound [] (st_executedPrimitives st) (st_events st)) w
        = (Ok r, w1) ->
        create
          (routing_request model
             (st_messages st ++ Spec.assistant_message am :: toolResults r))
          (Spec.tick (Spec.tick w1)) = (Throw e, w2) ->
        while_loop (S fuel) ctx model st w = Some (Throw e, w2)).
Proof.
  split.
  - intros e w1 fuel Hcreate. unfold handler.
    rewrite (bindL_lift_Ok _ _ _ _ _ (push_event_run _ _ _ _)).
    rewrite (bindL_lift_Ok _ _ _ _ _ (push_event_run _ _ _ _)).
    exact (bindL_lift_Throw _ _ _ _ _ Hcreate).
  - intros model st am calls r w1 e w2 fuel Hpending Hcalls Hcreate.
    cbn [while_loop]. rewrite Hpending. unfold bindL, lift.
    assert (Hbody : loop_body ctx model st am calls w = (Throw e, w2)).
    { unfold loop_body. rewrite (bind_of_Ok _ _ _ _ _ Hcalls).
      rewrite (bind_of_Ok _ _ _ _ _ (push_event_run _ _ _ _)).
      rewrite (bind_of_Ok _ _ _ _ _ (push_event_run _ _ _ _)).
      apply bind_of_Throw. exact Hcreate. }
    now rewrite Hbody.
Qed.

(** X5. Arguments that are the JSON text [null] make each of the four known
    tools throw a [TypeError] when it reads its argument; an unknown tool
    reads nothing and is not touched by this. *)
Theorem null_arguments_throw (ctx : Ctx) (toolName : jstring)
    (events : list NetworkEvent) (w : World) :
  toolName ∈ Spec.known_tools ->
  exists w', executeTool ctx toolName JNull events w = (Throw TypeError, w').
Proof.
  unfold Spec.known_tools. rewrite !elem_of_cons, elem_of_nil.
  intros [->|[->|[->|[->|[]]]]]; unfold executeTool; step_event.
  - rewrite decide_True by reflexivity. eexists. reflexivity.
  - rewrite decide_False by discriminate. rewrite decide_True by reflexivity.
    eexists. apply bind_of_Throw. step_event. reflexivity.
  - rewrite !decide_False by discriminate. rewrite decide_True by reflexivity.
    eexists. apply bind_of_Throw. step_event. reflexivity.
  - rewrite !decide_False by discriminate. rewrite decide_True by reflexivity.
    eexists. apply bind_of_Throw. step_event. reflexivity.
Qed.

End RoutingLoopMore.

(* ===================================================================== *)
(** ** The event trace of the routing loop *)
(* ===================================================================== *)

(** As [step_event], in a hypothesis. *)
Ltac step_event_in H :=
  rewrite (bind_of_Ok _ _ _ _ _ (push_event_run _ _ _ _)) in H.

Section EventTrace.
Context {P : Platform}.
Import Network.

Lemma executeTool_event_types ctx toolName args events w result events' w' :
  executeTool ctx toolName args events w = (Ok (result, events'), w') ->
  map type events' = map type events ++ Props.tool_events toolName.
Proof.
  unfold executeTool, Props.tool_events. intros H.
  step_event_in H. split_run H. destruct a as [res evs].
  step_event_in H. apply ret_inv in H as [[= -> ->] _].
  rewrite map_app. cbn [map type].
  destruct (decide (toolName = lit "get_weather")) as [->|N1];
    [|destruct (decide (toolName = lit "research_topic")) as [->|N2];
      [|destruct (decide (toolName = lit "write_content")) as [->|N3];
        [|destruct (decide (toolName = lit "city_research")) as [->|N4]]]].
  - split_run Hrun. split_run Hrun. split_run Hrun.
    apply ret_inv in Hrun as [[= _ ->] _].
    rewrite map_app. cbn. now rewrite <- !app_assoc.
  - step_event_in Hrun. split_run Hrun. split_run Hrun.
    step_event_in Hrun. apply ret_inv in Hrun as [[= _ ->] _].
    rewrite !map_app. cbn. now rewrite <- !app_assoc.
  - step_event_in Hrun. split_run Hrun. split_run Hrun. split_run Hrun.
    split_run Hrun.
    step_event_in Hrun. apply ret_inv in Hrun as [[= _ ->] _].
    rewrite !map_app. cbn. now rewrite <- !app_assoc.
  - step_event_in Hrun. split_run Hrun. split_run Hrun.
    step_event_in Hrun. apply ret_inv in Hrun as [[= _ ->] _].
    rewrite !map_app. cbn. now rewrite <- !app_assoc.
  - apply ret_inv in Hrun as [[= _ ->] _].
    unfold Props.inner_events. rewrite !decide_False by assumption.
    rewrite map_app. cbn. now rewrite <- !app_assoc.
Qed.

Lemma run_tool_calls_event_types ctx calls : forall r w r' w',
  run_tool_calls ctx calls r w = (Ok r', w') ->
  map type (rd_events r')
  = map type (rd_events r)
      ++ flat_map Props.tool_events (Props.function_names calls).
Proof.
  induction calls as [|toolCall rest IH]; intros r w r' w' H; cbn in H.
  - apply ret_inv in H as [-> _]. cbn. now rewrite app_nil_r.
  - split_run H. apply IH in H. rewrite H. clear H IH.
    destruct toolCall as [id toolName arguments | id toolName input];
      unfold run_tool_call in Hrun.
    + split_run Hrun. split_run Hrun. destruct a1 as [result events].
      apply ret_inv in Hrun as [-> _]. cbn [rd_events].
      apply executeTool_event_types in Hrun1. rewrite Hrun1.
      cbn [Props.function_names flat_map]. now rewrite <- !app_assoc.
    + apply ret_inv in Hrun as [-> _]. reflexivity.
Qed.

Lemma while_loop_event_types fuel ctx model : forall st w st' w',
  while_loop fuel ctx model st w = Some (Ok st', w') ->
  map type (st_events st')
  = map type (st_events st)
      ++ flat_map Props.pass_events
           (st_assistantMessage st :: Spec.loop_turns fuel ctx model st w).
Proof.
  induction fuel as [|fuel IH]; intros st w st' w' H; cbn in H |- *;
    unfold Props.pass_events at 1;
    destruct (pending_calls (st_assistantMessage st)) as [[am calls]|].
  - discriminate.
  - apply lift_Ok_inv, ret_inv in H as [-> _]. cbn. now rewrite app_nil_r.
  - apply bindL_Ok_inv in H as (st1 & w1 & Hbody & H).
    apply lift_Ok_inv in Hbody. rewrite Hbody.
    rewrite (IH _ _ _ _ H). clear IH H.
    unfold loop_body in Hbody. split_run Hbody.
    apply run_tool_calls_event_types in Hrun. cbn [rd_events] in Hrun.
    step_event_in Hbody. step_event_in Hbody. split_run Hbody.
    step_event_in Hbody. apply ret_inv in Hbody as [-> _].
    cbn [st_events st_assistantMessage].
    rewrite !map_app, Hrun. cbn [map type flat_map].
    now rewrite <- !app_assoc.
  - apply lift_Ok_inv, ret_inv in H as [-> _]. cbn. now rewrite app_nil_r.
Qed.

(** X6. The events of a completed invocation, by type: [network-start], the
    first routing call, then for every turn that asks for tools the events
    of its pass - per function call a [tool-execution-start], the events of
    the sub-agent or workflow if the tool runs one, a [tool-execution-end];
    then [network-step-finish] and the next routing call -, and
    [network-complete] last. *)
Theorem events_of_an_invocation (fuel : nat) (ctx : Ctx)
    (input : NetworkInput) (state : gmap jstring (list HistoryEntry))
    (w : World) (out : NetworkOutput)
    (state' : gmap jstring (list HistoryEntry)) (w' : World) :
  handler fuel ctx input state w = Some (Ok (out, state'), w') ->
  map type (events out)
  = [network_start; routing_agent_start; routing_agent_end]
      ++ flat_map Props.pass_events (Spec.turns fuel ctx input state w)
      ++ [network_complete].
Proof.
  unfold handler. intros H.
  rewrite (bindL_lift_Ok _ _ _ _ _ (push_event_run _ _ _ _)) in H.
  rewrite (bindL_lift_Ok _ _ _ _ _ (push_event_run _ _ _ _)) in H.
  apply bindL_Ok_inv in H as (completion & w1 & Hcreate & H).
  apply lift_Ok_inv in Hcreate.
  rewrite (bindL_lift_Ok _ _ _ _ _ (push_event_run _ _ _ _)) in H.
  apply bindL_Ok_inv in H as (st & w2 & Hloop & H).
  rewrite (bindL_lift_Ok _ _ _ _ _ (push_event_run _ _ _ _)) in H.
  apply lift_Ok_inv, ret_inv in H as [H _].
  apply (f_equal fst) in H. cbn [fst] in H. subst out. cbn [events].
  unfold Spec.turns, Spec.start.
  rewrite (bind_of_Ok _ _ _ _ _ (push_event_run _ _ _ _)).
  rewrite (bind_of_Ok _ _ _ _ _ (push_event_run _ _ _ _)).
  rewrite (bind_of_Ok _ _ _ _ _ Hcreate).
  rewrite (bind_of_Ok _ _ _ _ _ (push_event_run _ _ _ _)).
  unfold ret at 1.
  apply while_loop_event_types in Hloop.
  rewrite map_app, Hloop. cbn [st_events st_assistantMessage map type app].
  now rewrite <- ?app_assoc.
Qed.

End EventTrace.

(* ===================================================================== *)
(** ** Research agent: the parsed insights *)
(* ===================================================================== *)

Section InsightFacts.

Lemma trimStart_split s :
  exists sp, s = sp ++ trimStart s /\ Forall (fun c => is_space c = true) sp.
Proof.
  induction s as [|c s IH]; cbn.
  - exists []. split; [reflexivity|constructor].
  - destruct (is_space c) eqn:Ec.
    + destruct IH as (sp & E & Hsp). exists (c :: sp). split.
      * cbn. now rewrite <- E.
      * now constructor.
    + exists []. split; [reflexivity|constructor].
Qed.

Lemma trimStart_head s :
  match trimStart s with
  | [] => True
  | c :: _ => is_space c = false
  end.
Proof.
  induction s as [|c s IH]; cbn; [exact I|].
  destruct (is_space c) eqn:Ec; [exact IH|exact Ec].
Qed.

Lemma trimStart_fixed s :
  match s with [] => True | c :: _ => is_space c = false end ->
  trimStart s = s.
Proof. destruct s as [|c s]; cbn; [reflexivity|]. now intros ->. Qed.

Lemma trimStart_idem s : trimStart (trimStart s) = trimStart s.
Proof. apply trimStart_fixed, trimStart_head. Qed.

Lemma trimStart_length s : (length (trimStart s) <= length s)%nat.
Proof.
  destruct (trimStart_split s) as (sp & E & _).
  rewrite E at 2. rewrite length_app. lia.
Qed.

Lemma trimEnd_length s : (length (trimEnd s) <= length s)%nat.
Proof.
  unfold trimEnd. rewrite length_rev.
  etransitivity; [apply trimStart_length|]. now rewrite length_rev.
Qed.

Lemma trimEnd_split s :
  exists sp, s = trimEnd s ++ sp /\ Forall (fun c => is_space c = true) sp.
Proof.
  unfold trimEnd. destruct (trimStart_split (rev s)) as (sp & E & Hsp).
  exists (rev sp). split.
  - rewrite <- rev_app_distr, <- E. now rewrite rev_involutive.
  - now apply Forall_rev.
Qed.

Lemma trim_idem s : trim (trim s) = trim s.
Proof.
  unfold trim. set (y := trimStart s).
  assert (Hz : trimStart (trimEnd y) = trimEnd y).
  { apply trimStart_fixed.
    destruct (trimEnd_split y) as (sp & E & _).
    pose proof (trimStart_head s) as Hh. fold y in Hh.
    destruct (trimEnd y) as [|c z]; [exact I|].
    rewrite E in Hh. exact Hh. }
  rewrite Hz. unfold trimEnd at 1.
  unfold trimEnd. rewrite rev_involutive, trimStart_idem. reflexivity.
Qed.

Lemma trimStart_of_trimmed i : trim i = i -> trimStart i = i.
Proof.
  intros E. destruct (trimStart_split i) as (sp & Hi & _).
  destruct sp as [|c sp]; [now symmetry|].
  exfalso.
  pose proof (trimEnd_length (trimStart i)) as H1.
  fold (trim i) in H1. rewrite E in H1.
  rewrite Hi in H1 at 1. cbn in H1. rewrite length_app in H1. lia.
Qed.

Lemma trim_blank s :
  Forall (fun c => is_space c = true) s -> trim s = [].
Proof.
  intros H. unfold trim.
  assert (E : trimStart s = []).
  { induction H as [|c s Hc _ IH]; cbn; [reflexivity|]. now rewrite Hc. }
  now rewrite E.
Qed.

Lemma trimStart_Forall (Q : N -> Prop) s :
  Forall Q s -> Forall Q (trimStart s).
Proof.
  intros H. destruct (trimStart_split s) as (sp & E & _).
  rewrite E in H. now apply Forall_app in H as [_ H].
Qed.

Lemma trim_Forall (Q : N -> Prop) s : Forall Q s -> Forall Q (trim s).
Proof.
  intros H. unfold trim, trimEnd.
  apply Forall_rev, trimStart_Forall, Forall_rev, trimStart_Forall, H.
Qed.

Lemma strip_bullet_Forall (Q : N -> Prop) line :
  Forall Q line -> Forall Q (Research.strip_bullet line).
Proof.
  intros H. destruct line as [|c rest]; cbn; [constructor|].
  destruct ((c =? 45) || (c =? 8226) || (c =? 42)); [|exact H].
  apply trimStart_Forall. now inversion H.
Qed.

Lemma split_unit_from_pieces c s : forall cur,
  Forall (fun x => x <> c) cur ->
  Forall (Forall (fun x => x <> c)) (split_unit_from c cur s).
Proof.
  induction s as [|x s IH]; intros cur Hcur; cbn.
  - constructor; [|constructor]. now apply Forall_rev.
  - destruct (x =? c) eqn:Ex.
    + constructor; [now apply Forall_rev|]. apply IH. constructor.
    + apply IH. constructor; [|exact Hcur]. now apply N.eqb_neq.
Qed.

Lemma split_unit_from_Forall (Q : N -> Prop) c s : forall cur,
  Forall Q cur -> Forall Q s ->
  Forall (Forall Q) (split_unit_from c cur s).
Proof.
  induction s as [|x s IH]; intros cur Hcur Hs; cbn.
  - constructor; [|constructor]. now apply Forall_rev.
  - inversion Hs as [|? ? Hx Hs']; subst.
    destruct (x =? c).
    + constructor; [now apply Forall_rev|]. apply IH; [constructor|exact Hs'].
    + apply IH; [now constructor|exact Hs'].
Qed.

(** X7. Every insight that the Research agent returns is not empty, has no
    whitespace at either end, and holds no line feed (U+000A), the unit at
    which the content is cut into lines; another line terminator, such as
    a carriage return, can remain inside an insight. *)
Theorem parse_insights_clean (content : jstring) :
  Forall Props.clean_insight (Research.parse_insights content).
Proof.
  unfold Research.parse_insights. apply Forall_forall. intros i Hi.
  apply list_elem_of_filter in Hi as [Hlen Hi].
  apply list_elem_of_fmap in Hi as (line & -> & Hline).
  repeat split.
  - intros E. rewrite E in Hlen. cbn in Hlen. lia.
  - apply trim_idem.
  - apply trim_Forall, strip_bullet_Forall.
    pose proof (split_unit_from_pieces 10 content [] (List.Forall_nil _)) as Hall.
    rewrite Forall_forall in Hall. now apply Hall.
Qed.

Lemma split_unit_from_piece c piece : forall cur rest,
  Forall (fun x => x <> c) piece ->
  split_unit_from c cur (piece ++ rest)
  = split_unit_from c (rev piece ++ cur) rest.
Proof.
  induction piece as [|x piece IH]; intros cur rest Hp; [reflexivity|].
  inversion Hp as [|? ? Hx Hp']; subst. cbn [app split_unit_from].
  apply N.eqb_neq in Hx. rewrite Hx, IH by assumption.
  cbn [rev]. now rewrite <- app_assoc.
Qed.

Lemma split_unit_join c (lines : list jstring) :
  lines <> [] ->
  Forall (Forall (fun x => x <> c)) lines ->
  split_unit c (join [c] lines) = lines.
Proof.
  unfold split_unit. intros Hne Hall.
  induction Hall as [|p rest Hp Hrest IH]; [contradiction|].
  destruct rest as [|q rest].
  - cbn [join]. rewrite <- (app_nil_r p) at 1.
    rewrite split_unit_from_piece by assumption.
    cbn. now rewrite app_nil_r, rev_involutive.
  - change (join [c] (p :: q :: rest))
      with (p ++ [c] ++ join [c] (q :: rest)).
    rewrite split_unit_from_piece by assumption.
    cbn [app split_unit_from]. rewrite N.eqb_refl.
    rewrite app_nil_r, rev_involutive. f_equal.
    apply IH. discriminate.
Qed.

Lemma clean_lines_read_back (insights : list jstring) :
  Forall Props.clean_insight insights ->
  filter (fun line : jstring => (0 < length line)%nat)
    (map (fun line => trim (Research.strip_bullet line))
       (map (fun i => lit "- " ++ i) insights))
  = insights.
Proof.
  intros Hclean.
  induction Hclean as [|i l (Hne & Htrim & _) _ IH]; [reflexivity|].
  cbn [map].
  assert (E : trim (Research.strip_bullet (lit "- " ++ i)) = i).
  { change (lit "- " ++ i) with (45 :: 32 :: i).
    cbn [Research.strip_bullet N.eqb Pos.eqb orb trimStart].
    change (is_space 32) with true. cbv iota.
    now rewrite (trimStart_of_trimmed i Htrim). }
  rewrite E, filter_cons_True.
  - now rewrite IH.
  - destruct i; [contradiction|cbn; lia].
Qed.

(** X8. The Research agent's parser reads back the list that the Writing
    agent prints: parsing the insight list of the Writing prompt, one
    ["- <insight>"] per line, gives the insights again, provided each is
    not empty, has no whitespace at either end and holds no line break. *)
Theorem parse_insights_of_insightsList (insights : list jstring) :
  Forall Props.clean_insight insights ->
  Research.parse_insights (Writing.insightsList insights) = insights.
Proof.
  intros Hclean. unfold Research.parse_insights, Writing.insightsList.
  destruct insights as [|i0 rest]; [reflexivity|].
  unfold newline. rewrite split_unit_join.
  - now apply clean_lines_read_back.
  - discriminate.
  - apply Forall_forall. intros line Hline.
    apply list_elem_of_fmap in Hline as (i & -> & Hi).
    rewrite Forall_forall in Hclean.
    destruct (Hclean i Hi) as (_ & _ & Hno).
    change (lit "- " ++ i) with (45 :: 32 :: i).
    repeat constructor; try discriminate. exact Hno.
Qed.

Lemma strip_bullet_blank line :
  Forall (fun c => is_space c = true) line ->
  trim (Research.strip_bullet line) = [].
Proof.
  intros H. apply trim_blank. now apply strip_bullet_Forall.
Qed.

Lemma parse_insights_blank (content : jstring) :
  Forall (fun c => is_space c = true) content ->
  Research.parse_insights content = [].
Proof.
  intros H. unfold Research.parse_insights, split_unit.
  pose proof (split_unit_from_Forall _ 10 content [] (List.Forall_nil _) H) as Hall.
  induction Hall as [|line lines Hline _ IH]; [reflexivity|].
  cbn [map]. rewrite strip_bullet_blank by assumption.
  rewrite filter_cons_False by (cbn; lia). exact IH.
Qed.

(** X9. When the model's content for the Research agent is missing, empty
    or whitespace only, the agent does not fail: it returns the topic with
    an empty list of insights. *)
Theorem research_without_content {P : Platform} (ctx : Ctx)
    (topic : jstring) (model : option Model) (w : World)
    (completion : Completion) (w1 : World) :
  create
    (mkChatRequest (model_name (default gpt_5_mini model))
       [user_message (Research.prompt topic)] None false) w
  = (Ok completion, w1) ->
  Props.blank (first_content completion) ->
  Research.handler ctx topic model w
  = (Ok (Research.mkResearchOutput topic []
           (Runtime.sessionId ctx) (Runtime.threadId ctx)), w1).
Proof.
  intros Hcreate Hblank. unfold Research.handler.
  rewrite (bind_of_Ok _ _ _ _ _ Hcreate).
  now rewrite (parse_insights_blank _ Hblank).
Qed.

End InsightFacts.

(* ===================================================================== *)
(** ** Day planner: the parsed plan and the history *)
(* ===================================================================== *)

Section DayPlannerMore.
Context {P : Platform}.
Import DayPlanner.

Lemma truncate_length_bound (str : jstring) (len : nat) :
  (length (truncate str len) <= len + 3)%nat.
Proof.
  unfold truncate, slice0.
  destruct (len <? length str)%nat eqn:E.
  - rewrite length_app, length_take. cbn. lia.
  - apply Nat.ltb_ge in E. lia.
Qed.

(** X10. [truncate] never gives more than [len + 3] units; it leaves a
    string of at most [len] units as it is, and cuts a longer one to its
    first [len] units followed by ["..."]. *)
Theorem truncate_bounds (str : jstring) (len : nat) :
  (length (truncate str len) <= len + 3)%nat
  /\ take len (truncate str len) = take len str
  /\ ((length str <= len)%nat -> truncate str len = str)
  /\ ((len < length str)%nat -> truncate str len = take len str ++ lit "...").
Proof.
  unfold truncate, slice0.
  destruct (len <? length str)%nat eqn:E.
  - apply Nat.ltb_lt in E. repeat split.
    + rewrite length_app, length_take. cbn. lia.
    + rewrite take_app_le by (rewrite length_take; lia).
      rewrite take_take. f_equal. lia.
    + lia.
  - apply Nat.ltb_ge in E. repeat split; try lia.
Qed.

Lemma add_block_size n block k :
  Props.block_size block = Some k ->
  N.of_nat (n + k) <= exact_limit ->
  add_block (Some n) block = Ok (Some (n + k)%nat).
Proof.
  unfold Props.block_size, add_block.
  destruct (prop (Some block) (lit "activities"))
    as [[[| | | |items|]|]|e]; try discriminate.
  intros [= <-] Hle. cbn [length_of plus].
  rewrite <- Nat2N.inj_add, Nat2N.id.
  apply N.leb_le in Hle. now rewrite Hle.
Qed.

Lemma reduce_blocks_sum blocks : forall sizes n,
  mapM Props.block_size blocks = Some sizes ->
  N.of_nat (n + list_sum sizes) <= exact_limit ->
  reduce_blocks blocks (Some n) = Ok (Some (n + list_sum sizes)%nat).
Proof.
  induction blocks as [|block blocks IH]; intros sizes n H Hle.
  - cbn in H. injection H as <-. cbn. now rewrite Nat.add_0_r.
  - cbn [mapM] in H.
    destruct (Props.block_size block) as [k|] eqn:Ek; [|discriminate H].
    destruct (mapM Props.block_size blocks) as [rest|] eqn:Erest;
      [|discriminate H].
    cbn in H. injection H as <-.
    change (list_sum (k :: rest)) with (k + list_sum rest)%nat in *.
    cbn [reduce_blocks]. rewrite (add_block_size _ _ _ Ek) by lia.
    rewrite (IH rest _ eq_refl) by (rewrite <- Nat.add_assoc; exact Hle).
    do 2 f_equal. lia.
Qed.

(** X11. When the content parses to a value whose [plan] is an array of
    blocks that each hold an array of activities, the handler returns that
    plan and the value's [summary] unchanged, the total is the sum of the
    numbers of activities of the blocks (a sum up to 2^53, beyond which the
    numbers of JavaScript round), and the tokens are those the client
    reported, 0 when it reported none. This is what the handler returns;
    the runtime then checks it against the output schema. *)
Theorem day_planner_counts_activities (ctx : Ctx) (input : AgentInput)
    (state : gmap jstring (list HistoryEntry)) (w : World)
    (completion : Completion) (w1 : World) (parsed : json)
    (blocks : list json) (sizes : list nat) :
  create (Spec.planner_request input) w = (Ok completion, w1) ->
  JSON_parse (default (lit "{}") (first_content completion)) = Ok parsed ->
  prop (Some parsed) (lit "plan") = Ok (Some (JArr blocks)) ->
  mapM Props.block_size blocks = Some sizes ->
  N.of_nat (list_sum sizes) <= exact_limit ->
  exists out state' summary,
    handler ctx input state w = (Ok (out, state'), Spec.tick w1)
    /\ prop (Some parsed) (lit "summary") = Ok summary
    /\ plan out = Some (JArr blocks)
    /\ DayPlanner.summary out = summary
    /\ totalActivities out = Some (list_sum sizes)
    /\ tokens out = default 0 (usage_total_tokens completion).
Proof.
  intros Hcreate Hparse Hplan Hsizes Hle.
  assert (Hsum : exists summary, prop (Some parsed) (lit "summary") = Ok summary).
  { destruct parsed; try discriminate Hplan; cbn; eauto. }
  destruct Hsum as [summary Hsum].
  unfold handler. fold (Spec.planner_request input).
  rewrite (bind_of_Ok _ _ _ _ _ Hcreate).
  unfold try_catch, bind at 1. unfold pure at 1. rewrite Hparse.
  unfold count_activities. rewrite Hplan.
  rewrite (reduce_blocks_sum _ _ 0%nat Hsizes Hle).
  unfold bind at 1. unfold pure at 1.
  unfold bind at 1. unfold now at 1. unfold Spec.tick.
  destruct (toISOString_now w1) as [timestamp w2]. cbn [snd].
  unfold bind, pure, ret. rewrite Hsum.
  eexists _, _, summary. split; [reflexivity|].
  cbn. repeat split; reflexivity.
Qed.

Lemma pieces_throws (print : json -> Result jstring) items :
  Forall (fun x => forall e, print x = Throw e -> e = TypeError) items ->
  forall e, pieces print items = Throw e -> e = TypeError.
Proof.
  induction 1 as [|x rest Hx _ IH]; intros e; cbn [pieces]; [discriminate|].
  destruct (match x with JNull => Ok [] | _ => print x end)
    as [piece|e1] eqn:E1.
  - destruct (pieces print rest) as [others|e2] eqn:E2; [discriminate|].
    intros [= <-]. now apply IH.
  - intros [= <-]. apply Hx. destruct x; try exact E1. discriminate E1.
Qed.

Lemma to_string_throws v : forall e, to_string v = Throw e -> e = TypeError.
Proof.
  induction v as [|b|text|s|items IH|members _] using json_induction;
    intros e; cbn [to_string]; try discriminate.
  - destruct b; discriminate.
  - destruct (pieces to_string items) as [printed|e1] eqn:E; [discriminate|].
    intros [= <-]. eapply pieces_throws; eassumption.
  - destruct (member (lit "toString") members); [|discriminate].
    now intros [= <-].
Qed.

Lemma operand_throws x e : operand x = Throw e -> e = TypeError.
Proof.
  destruct x as [[| | | |items|members]|]; cbn [operand]; try discriminate.
  - destruct (to_string (JArr items)) eqn:E; [discriminate|].
    intros [= <-]. eapply to_string_throws, E.
  - destruct (to_string (JObj members)) eqn:E; [discriminate|].
    intros [= <-]. eapply to_string_throws, E.
Qed.

Lemma length_of_throws v e : length_of v = Throw e -> e = TypeError.
Proof.
  destruct v as [[| | | | |members]|]; cbn [length_of]; intros H;
    try solve [discriminate H | now injection H as <-].
  eapply operand_throws, H.
Qed.

Lemma add_block_throws sum block e :
  add_block sum block = Throw e -> e = TypeError.
Proof.
  unfold add_block.
  destruct (prop (Some block) (lit "activities")) as [activities|e'] eqn:E.
  - destruct (length_of activities) as [len|e''] eqn:El; [discriminate|].
    intros [= <-]. eapply length_of_throws, El.
  - intros [= <-]. eapply prop_throws_TypeError, E.
Qed.

Lemma reduce_blocks_broken blocks : forall sum block,
  block ∈ blocks ->
  (forall n, add_block n block = Throw TypeError) ->
  reduce_blocks blocks sum = Throw TypeError.
Proof.
  induction blocks as [|b blocks IH]; intros sum block Hin Hbad.
  - now apply elem_of_nil in Hin.
  - cbn. destruct (add_block sum b) as [sum'|e] eqn:E.
    + apply elem_of_cons in Hin as [->|Hin].
      * rewrite Hbad in E. discriminate E.
      * eapply IH; eassumption.
    + now rewrite (add_block_throws _ _ _ E).
Qed.

(** X12. One block that is [null], or whose [activities] is missing or
    [null], anywhere in the plan, makes the handler throw a [TypeError]:
    the placeholder plan is not used, and nothing is added to the history. *)
Theorem day_planner_broken_block (ctx : Ctx) (input : AgentInput)
    (state : gmap jstring (list HistoryEntry)) (w : World)
    (completion : Completion) (w1 : World) (parsed : json)
    (blocks : list json) (block : json) :
  create (Spec.planner_request input) w = (Ok completion, w1) ->
  JSON_parse (default (lit "{}") (first_content completion)) = Ok parsed ->
  prop (Some parsed) (lit "plan") = Ok (Some (JArr blocks)) ->
  block ∈ blocks ->
  (block = JNull
   \/ prop (Some block) (lit "activities") = Ok None
   \/ prop (Some block) (lit "activities") = Ok (Some JNull)) ->
  handler ctx input state w = (Throw TypeError, w1).
Proof.
  intros Hcreate Hparse Hplan Hin Hbad.
  unfold handler. fold (Spec.planner_request input).
  rewrite (bind_of_Ok _ _ _ _ _ Hcreate).
  unfold try_catch, bind at 1. unfold pure at 1. rewrite Hparse.
  assert (E : count_activities parsed = Throw TypeError).
  { unfold count_activities. rewrite Hplan.
    apply (reduce_blocks_broken _ _ _ Hin).
    intros n. unfold add_block.
    destruct Hbad as [->|[->| ->]]; reflexivity. }
  unfold bind at 1. unfold pure at 1. rewrite E. reflexivity.
Qed.

Lemma slice_last_last {A} (n : nat) (l : list A) (x : A) :
  (0 < n)%nat -> last (slice_last n (l ++ [x])) = Some x.
Proof.
  intros Hn. unfold slice_last. rewrite length_app. cbn [length].
  rewrite drop_app_le by lia. apply last_snoc.
Qed.

(** X13. After every run of the handler that ends normally, the history it
    returns is the one kept for the thread: the earlier entries followed by
    the entry of this run, cut down to the last five. The new entry is the
    last one; its prompt has at most 53 units and its activity count is the
    total that the handler returns. *)
Theorem day_planner_history (ctx : Ctx) (input : AgentInput)
    (state : gmap jstring (list HistoryEntry)) (w : World)
    (out : AgentOutput) (state' : gmap jstring (list HistoryEntry))
    (w' : World) :
  handler ctx input state w = (Ok (out, state'), w') ->
  exists entry,
    history out
    = slice_last 5 (default [] (state !! lit "history") ++ [entry])
    /\ state' !! lit "history" = Some (history out)
    /\ (length (history out) <= 5)%nat
    /\ last (history out) = Some entry
    /\ h_prompt entry = truncate (in_prompt input) 50
    /\ (length (h_prompt entry) <= 53)%nat
    /\ h_activityCount entry = totalActivities out
    /\ h_tokens entry = tokens out
    /\ (forall key, key <> lit "history" -> state' !! key = state !! key).
Proof.
  unfold handler. intros H.
  split_run H. rename a into completion.
  split_run H. rename a into parsedPlan.
  split_run H. rename a into total.
  split_run H. rename a into timestamp.
  split_run H. split_run H.
  apply ret_inv in H as [H _].
  injection H as -> ->.
  eexists. cbn [history plan totalActivities tokens].
  unfold ThreadState.push, ThreadState.get.
  rewrite lookup_insert_eq. cbn [default from_option id].
  repeat split.
  - rewrite slice_last_length. lia.
  - apply slice_last_last. lia.
  - pose proof (truncate_length_bound (in_prompt input) 50). cbn. lia.
  - intros key Hkey. now apply lookup_insert_ne.
Qed.

End DayPlannerMore.

(* ===================================================================== *)
(** ** Weather agent of the using-tools example: tool and handler *)
(* ===================================================================== *)

Section WeatherAgentFacts.
Context {P : Platform}.
Variable JSON_stringify : json -> jstring.
Import WeatherAgent.

Lemma describe_conditions code key :
  template code = Ok key ->
  UsingTools.describe code = Ok (Props.conditions key).
Proof. intros H. unfold UsingTools.describe. rewrite H. reflexivity. Qed.

(** X14. When geocoding finds the place, the weather service answers with a
    body that holds [current], and the values to print can be converted to
    strings, [getWeather] returns
    ["<name>: <description>, <temperature>°C, Wind: <wind> km/h"], the
    description being that of the weather code in the table of WMO codes. *)
Theorem getWeather_success (location : jstring) (w : World)
    (coords : UsingTools.Coordinates) (url : jstring) (w1 : World)
    (response : Response) (w2 : World) (body : jstring) (data : json)
    (current code temperature wind : jsval)
    (key place degrees speed : jstring) :
  UsingTools.getCoordinates location w = (Ok (Some coords), w1) ->
  Spec.forecast_url coords = Ok url ->
  fetch url w1 = (Ok response, w2) ->
  ok response = true ->
  text response = Ok body ->
  JSON_parse body = Ok data ->
  prop (Some data) (lit "current") = Ok current ->
  prop current (lit "weather_code") = Ok code ->
  template code = Ok key ->
  template (UsingTools.name coords) = Ok place ->
  prop current (lit "temperature_2m") = Ok temperature ->
  template temperature = Ok degrees ->
  prop current (lit "wind_speed_10m") = Ok wind ->
  template wind = Ok speed ->
  UsingTools.getWeather location w
  = (Ok (place ++ lit ": " ++ Props.conditions key ++ lit ", " ++ degrees
           ++ degree ++ lit "C, Wind: " ++ speed ++ lit " km/h"),
     w2).
Proof.
  intros Hgeo Hurl Hfetch Hok Htext Hparse Hcur Hcode Hkey Hplace Htemp
    Hdegrees Hwind Hspeed.
  unfold Spec.forecast_url in Hurl.
  destruct (template (UsingTools.lat coords)) as [latitude|] eqn:Hlat;
    [|discriminate].
  destruct (template (UsingTools.lon coords)) as [longitude|] eqn:Hlon;
    [|discriminate].
  apply Ok_inj in Hurl. subst url.
  unfold UsingTools.getWeather, try_catch, UsingTools.getWeather_try.
  rewrite (bind_of_Ok _ _ _ _ _ Hgeo). cbv beta iota.
  erewrite bind_of_Ok by (unfold pure; rewrite Hlat; reflexivity).
  erewrite bind_of_Ok by (unfold pure; rewrite Hlon; reflexivity).
  cbv zeta.
  erewrite bind_of_Ok by (unfold do_fetch; exact Hfetch).
  rewrite Hok. cbn [negb].
  erewrite bind_of_Ok by (unfold json_of, bind, pure, ret;
                          rewrite Htext, Hparse; reflexivity).
  erewrite bind_of_Ok by (unfold pure; rewrite Hcur; reflexivity).
  erewrite bind_of_Ok by (unfold pure; rewrite Hcode; reflexivity).
  erewrite bind_of_Ok
    by (unfold pure; rewrite (describe_conditions _ _ Hkey); reflexivity).
  erewrite bind_of_Ok by (unfold pure; rewrite Hplace; reflexivity).
  erewrite bind_of_Ok by (unfold pure; rewrite Htemp; reflexivity).
  erewrite bind_of_Ok by (unfold pure; rewrite Hdegrees; reflexivity).
  erewrite bind_of_Ok by (unfold pure; rewrite Hwind; reflexivity).
  erewrite bind_of_Ok by (unfold pure; rewrite Hspeed; reflexivity).
  reflexivity.
Qed.

Lemma getWeather_returns (location : jstring) (w : World) :
  exists s w', UsingTools.getWeather location w = (Ok s, w').
Proof.
  unfold UsingTools.getWeather, try_catch.
  destruct (UsingTools.getWeather_try location w) as [[s|e] w1].
  - now exists s, w1.
  - now eexists _, w1.
Qed.

Lemma dispatch_returns functionName args w :
  (functionName = lit "get_weather" ->
   exists location shown,
     prop (Some args) (lit "location") = Ok location
     /\ template location = Ok shown) ->
  exists result w', dispatch functionName args w = (Ok result, w').
Proof.
  intros Hargs. unfold dispatch.
  destruct (decide (functionName = lit "get_weather")) as [E|E].
  - destruct (Hargs E) as (location & shown & Hp & Hshown).
    destruct (getWeather_returns shown w) as (s & w' & Hs).
    exists s, w'.
    erewrite bind_of_Ok by (unfold pure; rewrite Hp; reflexivity).
    erewrite bind_of_Ok by (unfold pure; rewrite Hshown; reflexivity).
    exact Hs.
  - eexists _, w. reflexivity.
Qed.

(** X15. In the weather agent a failing weather lookup never ends the loop:
    when the arguments of every function call parse and, for [get_weather],
    hold a location that can be read and converted to a string, running the
    calls of a batch ends normally, whatever the network does - a failing
    lookup comes back as text. *)
Theorem weather_tools_never_abort (calls : list ToolCall) :
  Forall Props.readable calls ->
  forall acc w,
    exists acc' w',
      run_tool_calls JSON_stringify calls acc w = (Ok acc', w').
Proof.
  induction 1 as [|tc calls Htc _ IH]; intros acc w; cbn [run_tool_calls].
  - now eexists _, _.
  - assert (Hone : exists acc1 w1,
      run_tool_call JSON_stringify tc acc w = (Ok acc1, w1)).
    { destruct tc as [id functionName arguments | id nm input];
        unfold run_tool_call.
      - destruct Htc as (args & Hparse & Hargs).
        destruct (dispatch_returns functionName args w Hargs)
          as (result & w1 & Hd).
        eexists _, w1.
        erewrite bind_of_Ok by (unfold pure; rewrite Hparse; reflexivity).
        rewrite (bind_of_Ok _ _ _ _ _ Hd). reflexivity.
      - now eexists _, _. }
    destruct Hone as (acc1 & w1 & Hone).
    destruct (IH acc1 w1) as (acc' & w' & Hrest).
    exists acc', w'. now rewrite (bind_of_Ok _ _ _ _ _ Hone).
Qed.

(** X28. A [get_weather] call whose location cannot be converted to a
    string ends the batch with that exception, before anything is fetched:
    [getWeather] throws while it builds the geocoding URL, and its [catch]
    block throws again while it builds the apology. *)
Theorem weather_unprintable_location_aborts (id arguments : jstring)
    (args : json) (location : jsval) (e : Exn) (rest : list ToolCall)
    (acc : list Message * list ToolCallRecord) (w : World) :
  JSON_parse arguments = Ok args ->
  prop (Some args) (lit "location") = Ok location ->
  template location = Throw e ->
  e = TypeError
  /\ run_tool_calls JSON_stringify
       (FunctionToolCall id (lit "get_weather") arguments :: rest) acc w
     = (Throw TypeError, w).
Proof.
  intros Hparse Hp Hshown.
  assert (e = TypeError) as ->.
  { destruct location as [v|]; [|discriminate Hshown].
    eapply to_string_throws, Hshown. }
  split; [reflexivity|].
  cbn [run_tool_calls]. apply bind_of_Throw.
  unfold run_tool_call.
  erewrite bind_of_Ok by (unfold pure; rewrite Hparse; reflexivity).
  apply bind_of_Throw. unfold dispatch.
  rewrite decide_True by reflexivity.
  erewrite bind_of_Ok by (unfold pure; rewrite Hp; reflexivity).
  apply bind_of_Throw. unfold pure. now rewrite Hshown.
Qed.

Lemma weather_run_tool_call_shape tc acc w acc' w' :
  run_tool_call JSON_stringify tc acc w = (Ok acc', w') ->
  exists results records,
    fst acc' = fst acc ++ results
    /\ snd acc' = snd acc ++ records
    /\ Forall2 Spec.answers (List.filter is_function [tc]) results
    /\ Forall2 (fun m r => content m = Some (tc_output r)) results records
    /\ map tc_tool records = Props.function_names [tc].
Proof.
  destruct tc as [id functionName arguments | id nm input];
    unfold run_tool_call; intros H.
  - split_run H. split_run H. apply ret_inv in H as [-> _].
    eexists [_], [_]. cbn. repeat split; repeat constructor.
  - apply ret_inv in H as [-> _].
    exists [], []. cbn. rewrite !app_nil_r. repeat split; constructor.
Qed.

(** X16. In the weather agent every function call of a batch gets one tool
    message, carrying its id, and one record in [toolCalls], carrying its
    name, in the order of the calls; the content of the message is the
    output of the record. Calls that are not function calls get neither. *)
Theorem weather_tool_records (calls : list ToolCall) :
  forall acc w acc' w',
    run_tool_calls JSON_stringify calls acc w = (Ok acc', w') ->
    exists results records,
      fst acc' = fst acc ++ results
      /\ snd acc' = snd acc ++ records
      /\ Forall2 Spec.answers (List.filter is_function calls) results
      /\ Forall2 (fun m r => content m = Some (tc_output r)) results records
      /\ map tc_tool records = Props.function_names calls.
Proof.
  induction calls as [|tc calls IH]; intros acc w acc' w' H; cbn in H.
  - apply ret_inv in H as [-> _].
    exists [], []. cbn. rewrite !app_nil_r. repeat split; constructor.
  - split_run H.
    apply weather_run_tool_call_shape in Hrun
      as (res1 & rec1 & E1 & E2 & F1 & G1 & N1).
    apply IH in H as (res2 & rec2 & E3 & E4 & F2 & G2 & N2).
    exists (res1 ++ res2), (rec1 ++ rec2).
    change (tc :: calls) with ([tc] ++ calls).
    rewrite List.filter_app, function_names_app, map_app.
    repeat split.
    + rewrite E3, E1. now rewrite app_assoc.
    + rewrite E4, E2. now rewrite app_assoc.
    + now apply Forall2_app.
    + now apply Forall2_app.
    + now rewrite N1, N2.
Qed.

Lemma weather_while_loop_trace fuel : forall st w st' w',
  while_loop JSON_stringify fuel st w = Some (Ok st', w') ->
  let cs := Props.weather_loop_completions JSON_stringify fuel st w in
  st_totalTokens st' = st_totalTokens st + Props.total_tokens cs
  /\ st_assistantMessage st'
     = match last cs with
       | Some c => first_message c
       | None => st_assistantMessage st
       end.
Proof.
  induction fuel as [|fuel IH]; intros st w st' w' H;
    cbn [while_loop Props.weather_loop_completions] in H |- *;
    destruct (Network.pending_calls (st_assistantMessage st))
      as [[am calls]|].
  - discriminate.
  - apply lift_Ok_inv, ret_inv in H as [-> _].
    split; [symmetry; apply N.add_0_r|reflexivity].
  - apply bindL_Ok_inv in H as (st1 & w1 & Hbody & H).
    apply lift_Ok_inv in Hbody. unfold loop_body in Hbody.
    split_run Hbody. destruct a as [messages records].
    split_run Hbody. rename a into completion.
    apply ret_inv in Hbody as [-> ->].
    unfold Spec.assistant_message. rewrite Hrun, Hrun0.
    destruct (IH _ _ _ _ H) as [Ht Ha]. cbn [st_totalTokens] in Ht.
    cbn [st_assistantMessage] in Ha.
    split.
    + rewrite Ht. cbn [Props.total_tokens foldr].
      fold (Props.total_tokens). now rewrite N.add_assoc.
    + rewrite Ha.
      destruct (Props.weather_loop_completions _ _ _ _) as [|c cs];
        [reflexivity|].
      change (last (completion :: c :: cs)) with (last (c :: cs)).
      destruct (last (c :: cs)) as [c'|] eqn:El; [reflexivity|].
      apply last_None in El. discriminate El.
  - apply lift_Ok_inv, ret_inv in H as [-> _].
    split; [symmetry; apply N.add_0_r|reflexivity].
Qed.

(** X17. For every completed invocation of the weather agent, the tokens
    are the sum of the tokens of all the completions it received (0 for a
    completion without usage), and the response is the content of the last
    one - an empty content too - or ["Unable to process your request."]
    when that content is missing. *)
Theorem weather_agent_totals (fuel : nat) (message : jstring) (w : World)
    (out : AgentOutput) (w' : World) :
  handler JSON_stringify fuel message w = Some (Ok out, w') ->
  let cs := Props.weather_completions JSON_stringify fuel message w in
  cs <> []
  /\ tokens out = Props.total_tokens cs
  /\ response out
     = default (lit "Unable to process your request.")
         (Props.answer_of (last cs)).
Proof.
  unfold handler. intros H.
  apply bindL_Ok_inv in H as (completion & w1 & Hcreate & H).
  apply lift_Ok_inv in Hcreate.
  apply bindL_Ok_inv in H as (st & w2 & Hloop & H).
  apply lift_Ok_inv, ret_inv in H as [-> _].
  unfold Props.weather_completions. rewrite Hcreate. cbv zeta.
  apply weather_while_loop_trace in Hloop as [Ht Ha].
  cbn [st_totalTokens st_assistantMessage] in Ht, Ha.
  split; [discriminate|]. cbn [tokens response]. split.
  - rewrite Ht. cbn [Props.total_tokens foldr]. fold Props.total_tokens.
    reflexivity.
  - rewrite Ha.
    destruct (Props.weather_loop_completions _ _ _ _) as [|c cs] eqn:E.
    + reflexivity.
    + unfold Props.answer_of, first_content.
      change (last (completion :: c :: cs)) with (last (c :: cs)).
      destruct (last (c :: cs)) as [c'|] eqn:El; [reflexivity|].
      apply last_None in El. discriminate El.
Qed.

End WeatherAgentFacts.

(* ===================================================================== *)
(** ** The history routes and the next invocation *)
(* ===================================================================== *)

Section RoutesFacts.
Context {P : Platform}.
Import Network.

Lemma start_inv ctx input state w st0 w0 :
  Spec.start ctx input state w = (Ok st0, w0) ->
  exists completion w1,
    create
      (routing_request (default gpt_5_mini (in_model input))
         (mkMessage system (Some systemPrompt) None None
            :: map history_message
                 (default [] (state !! lit "conversation"))
            ++ [mkMessage user (Some (in_message input)) None None]))
      (Spec.tick (Spec.tick w)) = (Ok completion, w1)
    /\ st_messages st0
       = mkMessage system (Some systemPrompt) None None
           :: map history_message (default [] (state !! lit "conversation"))
           ++ [mkMessage user (Some (in_message input)) None None]
    /\ st_assistantMessage st0 = first_message completion.
Proof.
  unfold Spec.start. intros H.
  step_event_in H. step_event_in H. split_run H.
  step_event_in H. apply ret_inv in H as [-> _].
  now exists a, w1.
Qed.

(** X18. After the history was cleared, a completed invocation sends the
    model the system prompt and the user message and nothing else, and the
    history route then shows exactly two entries: the user message and the
    response. *)
Theorem cleared_history_starts_afresh (fuel : nat) (ctx : Ctx)
    (input : NetworkInput) (state : gmap jstring (list HistoryEntry))
    (w : World) (out : NetworkOutput)
    (state' : gmap jstring (list HistoryEntry)) (w' : World) :
  handler fuel ctx input (snd (Routes.delete_history ctx state)) w
  = Some (Ok (out, state'), w') ->
  Routes.conversation
    (Routes.get_history ctx (snd (Routes.delete_history ctx state))) = []
  /\ (exists completion w1,
        create
          (routing_request (default gpt_5_mini (in_model input))
             [mkMessage system (Some systemPrompt) None None;
              mkMessage user (Some (in_message input)) None None])
          (Spec.tick (Spec.tick w)) = (Ok completion, w1))
  /\ Routes.conversation (Routes.get_history ctx state')
     = [mkHistoryEntry user (in_message input);
        mkHistoryEntry assistant (response out)].
Proof.
  intros H.
  assert (Hgone :
    snd (Routes.delete_history ctx state) !! lit "conversation" = None).
  { cbn. unfold ThreadState.delete. apply lookup_delete_eq. }
  apply handler_inv in H
    as (st0 & w0 & st & w2 & Hstart & _ & Hr & _ & _ & ->).
  apply start_inv in Hstart as (completion & w1 & Hcreate & _ & _).
  rewrite Hgone in Hcreate. cbn [default from_option id map app] in Hcreate.
  split; [|split].
  - unfold Routes.get_history, ThreadState.get. cbn [Routes.conversation].
    now rewrite Hgone.
  - now exists completion, w1.
  - unfold Routes.get_history, ThreadState.get, ThreadState.set.
    cbn [Routes.conversation]. rewrite lookup_insert_eq, Hgone, <- Hr.
    reflexivity.
Qed.

(** X19. What a completed invocation stores is what the next one replays:
    the next invocation on the same thread sends the model the system
    prompt, then the entries that the history route shows, in order, as
    messages of their roles, then the new user message. *)
Theorem next_invocation_replays_history (fuel1 fuel2 : nat) (ctx : Ctx)
    (input1 input2 : NetworkInput)
    (state state1 state2 : gmap jstring (list HistoryEntry))
    (w w1 w2 w3 : World) (out1 out2 : NetworkOutput) :
  handler fuel1 ctx input1 state w = Some (Ok (out1, state1), w1) ->
  handler fuel2 ctx input2 state1 w2 = Some (Ok (out2, state2), w3) ->
  let shown := Routes.conversation (Routes.get_history ctx state1) in
  shown
  = slice_last 20
      (default [] (state !! lit "conversation")
         ++ [mkHistoryEntry user (in_message input1);
             mkHistoryEntry assistant (response out1)])
  /\ exists completion wc,
       create
         (routing_request (default gpt_5_mini (in_model input2))
            (mkMessage system (Some systemPrompt) None None
               :: map history_message shown
               ++ [mkMessage user (Some (in_message input2)) None None]))
         (Spec.tick (Spec.tick w2)) = (Ok completion, wc).
Proof.
  intros H1 H2 shown.
  apply handler_inv in H1
    as (st0 & w0 & st & wa & _ & _ & Hr & _ & _ & ->).
  apply handler_inv in H2
    as (st0' & w0' & st' & wb & Hstart & _).
  apply start_inv in Hstart as (completion & wc & Hcreate & _ & _).
  subst shown.
  unfold Routes.get_history, ThreadState.get, ThreadState.set in *.
  cbn [Routes.conversation].
  rewrite lookup_insert_eq in Hcreate |- *.
  cbn [default from_option id] in Hcreate |- *.
  rewrite <- Hr, <- app_assoc in Hcreate |- *. cbn [app] in Hcreate |- *.
  split; [reflexivity|]. now exists completion, wc.
Qed.

End RoutesFacts.

(* ===================================================================== *)
(** ** Memory agent: the prompt *)
(* ===================================================================== *)

Section MemoryPromptFacts.
Import MemoryPrompt.

Lemma fold_left_grows {A} (f : A -> jstring) (l : list A) : forall acc,
  (length acc <= length (fold_left (fun a m => a ++ f m) l acc))%nat.
Proof.
  induction l as [|x l IH]; intros acc; cbn; [lia|].
  etransitivity; [|apply IH]. rewrite length_app. lia.
Qed.

Lemma slice_last_min {A} (l : list A) (n : nat) :
  slice_last (Nat.min (length l) n) l = slice_last n l.
Proof. unfold slice_last. f_equal. lia. Qed.

(** X20. The system prompt of the memory agent depends on the stored
    messages only through their number and the last five of them: two
    histories of the same length that end with the same five messages give
    the same prompt. *)
Theorem prompt_depends_on_last_five
    (messages1 messages2 : list Memory.ChatMessage)
    (preferences : UserPreferences) :
  length messages1 = length messages2 ->
  slice_last 5 messages1 = slice_last 5 messages2 ->
  buildSystemPrompt messages1 preferences
  = buildSystemPrompt messages2 preferences.
Proof.
  intros Hlen Hlast. unfold buildSystemPrompt, contextSection.
  rewrite !slice_last_min, Hlen, Hlast. reflexivity.
Qed.

(** X21. The prompt is the fixed instructions alone exactly when nothing is
    known: no stored message, no name (or an empty one), no interest and no
    fact. In every other case a context section follows the instructions. *)
Theorem prompt_is_bare_iff_nothing_known
    (messages : list Memory.ChatMessage) (preferences : UserPreferences) :
  buildSystemPrompt messages preferences = instructions
  <-> messages = []
      /\ has_text (name preferences) = false
      /\ has_items (interests preferences) = false
      /\ has_items (facts preferences) = false.
Proof.
  unfold buildSystemPrompt.
  rewrite <- (app_nil_r instructions) at 2.
  split.
  - intros H. apply app_inv_head in H.
    assert (Hlen : length (contextSection messages preferences) = 0%nat)
      by now rewrite H.
    clear H. unfold contextSection in Hlen.
    destruct messages as [|m messages].
    + split; [reflexivity|]. cbn [length Nat.ltb Nat.leb] in Hlen.
      destruct (has_text (name preferences));
        destruct (has_items (interests preferences));
        destruct (has_items (facts preferences));
        cbn [orb] in Hlen; try (split; [|split]; reflexivity);
        rewrite ?length_app in Hlen; cbn in Hlen; lia.
    + exfalso. cbn [length Nat.ltb Nat.leb] in Hlen.
      match type of Hlen with
      | length (fold_left _ ?l ?acc) = _ =>
          pose proof (fold_left_grows recent_line l acc) as Hg
      end.
      rewrite Hlen in Hg. rewrite !length_app in Hg. cbn in Hg. lia.
  - intros (-> & Hn & Hi & Hf). f_equal. unfold contextSection.
    now rewrite Hn, Hi, Hf.
Qed.

Lemma fold_left_snoc_map {A B} (f : A -> B) (l : list A) : forall acc,
  fold_left (fun a m => a ++ [f m]) l acc = acc ++ map f l.
Proof.
  induction l as [|x l IH]; intros acc; cbn.
  - now rewrite app_nil_r.
  - rewrite IH, <- app_assoc. reflexivity.
Qed.

(** X22. The memory agent never sends the model more than twelve messages:
    the system prompt first, then the last ten stored messages at most, in
    their order and with their roles, then the current user message. *)
Theorem openaiMessages_bounded (existingMessages : list Memory.ChatMessage)
    (preferences : UserPreferences) (message : jstring) :
  openaiMessages existingMessages preferences message
  = mkMessage system
      (Some (buildSystemPrompt existingMessages preferences)) None None
      :: map (fun msg =>
                mkMessage (Memory.role msg) (Some (Memory.content msg))
                  None None)
           (slice_last 10 existingMessages)
      ++ [mkMessage user (Some message) None None]
  /\ length (openaiMessages existingMessages preferences message)
     = (2 + Nat.min 10 (length existingMessages))%nat
  /\ (length (openaiMessages existingMessages preferences message) <= 12)%nat.
Proof.
  assert (E : openaiMessages existingMessages preferences message
    = mkMessage system
        (Some (buildSystemPrompt existingMessages preferences)) None None
        :: map (fun msg =>
                  mkMessage (Memory.role msg) (Some (Memory.content msg))
                    None None)
             (slice_last 10 existingMessages)
        ++ [mkMessage user (Some message) None None]).
  { unfold openaiMessages. now rewrite fold_left_snoc_map. }
  split; [exact E|].
  rewrite E. cbn [length]. rewrite length_app, length_map.
  unfold slice_last. rewrite length_drop. cbn [length]. lia.
Qed.

End MemoryPromptFacts.

(* ===================================================================== *)
(** ** The tools that run a sub-agent, and the geocoder *)
(* ===================================================================== *)

Section SubAgentTools.
Context {P : Platform}.
Import Network.

(** X23. The [research_topic] tool, given a string topic, asks the Research
    agent's model once and returns ["Research on "<topic>":"] followed by
    one line ["• <insight>"] per parsed insight; with no insight the text
    ends after the line break. *)
Theorem research_topic_result (ctx : Ctx) (args : json) (topic : jstring)
    (events : list NetworkEvent) (w : World) (completion : Completion)
    (w1 : World) :
  prop (Some args) (lit "topic") = Ok (Some (JStr topic)) ->
  create
    (mkChatRequest (lit "gpt-5-mini") [user_message (Research.prompt topic)]
       None false) (Spec.tick (Spec.tick w)) = (Ok completion, w1) ->
  exists events',
    executeTool ctx (lit "research_topic") args events w
    = (Ok (lit "Research on " ++ dquote ++ topic ++ dquote ++ lit ":"
             ++ newline
             ++ join newline
                  (map (fun i => bullet ++ lit " " ++ i)
                     (Research.parse_insights
                        (default [] (first_content completion)))),
           events'),
       Spec.tick (Spec.tick w1)).
Proof.
  intros Htopic Hcreate. unfold executeTool. step_event.
  rewrite decide_False by discriminate. rewrite decide_True by reflexivity.
  assert (Hrun : Research.run ctx (Some (JStr topic)) (Spec.tick (Spec.tick w))
    = (Ok (Research.mkResearchOutput topic
             (Research.parse_insights (default [] (first_content completion)))
             (Runtime.sessionId ctx) (Runtime.threadId ctx)), w1)).
  { unfold Research.run, Research.handler.
    now rewrite (bind_of_Ok _ _ _ _ _ Hcreate). }
  eexists. erewrite bind_of_Ok; cycle 1.
  - step_event.
    erewrite bind_of_Ok by (unfold pure; rewrite Htopic; reflexivity).
    rewrite (bind_of_Ok _ _ _ _ _ Hrun). step_event. reflexivity.
  - cbv beta iota. step_event. reflexivity.
Qed.

(** X24. The [write_content] tool without a usable style - none, [null] or
    the empty string - writes a blog: the Writing agent's model is asked
    with the blog prompt built from the given topic and insights, and the
    tool returns the model's content, empty when it has none. *)
Theorem write_content_default_style (ctx : Ctx) (args : json)
    (topic : jstring) (items style : jsval) (insights : list jstring)
    (events : list NetworkEvent) (w : World) (completion : Completion)
    (w1 : World) :
  prop (Some args) (lit "topic") = Ok (Some (JStr topic)) ->
  prop (Some args) (lit "insights") = Ok items ->
  Writing.as_strings items = Some insights ->
  prop (Some args) (lit "style") = Ok style ->
  truthy style = false ->
  create (Spec.writing_request topic insights Writing.blog)
    (Spec.tick (Spec.tick w)) = (Ok completion, w1) ->
  exists events',
    executeTool ctx (lit "write_content") args events w
    = (Ok (default [] (first_content completion), events'),
       Spec.tick (Spec.tick w1)).
Proof.
  intros Htopic Hitems Hstrings Hstyle Hfalsy Hcreate.
  unfold executeTool. step_event.
  rewrite !decide_False by discriminate. rewrite decide_True by reflexivity.
  assert (Hrun :
    Writing.run ctx (Some (JStr topic)) items (Some (JStr (lit "blog")))
      (Spec.tick (Spec.tick w))
    = (Ok (Writing.mkWritingOutput topic
             (default [] (first_content completion))
             (Writing.count_words (default [] (first_content completion)))
             (Runtime.sessionId ctx) (Runtime.threadId ctx)), w1)).
  { unfold Writing.run. rewrite Hstrings.
    change (Writing.as_style (lit "blog")) with (Some Writing.blog).
    unfold Writing.handler. cbn [default from_option id].
    unfold Spec.writing_request in Hcreate.
    now rewrite (bind_of_Ok _ _ _ _ _ Hcreate). }
  eexists. erewrite bind_of_Ok; cycle 1.
  - step_event.
    erewrite bind_of_Ok by (unfold pure; rewrite Htopic; reflexivity).
    erewrite bind_of_Ok by (unfold pure; rewrite Hitems; reflexivity).
    erewrite bind_of_Ok by (unfold pure; rewrite Hstyle; reflexivity).
    rewrite Hfalsy.
    rewrite (bind_of_Ok _ _ _ _ _ Hrun). step_event. reflexivity.
  - cbv beta iota. step_event. reflexivity.
Qed.

(** X25. When the geocoder answers but its [results] are missing, empty or
    start with a falsy value, the weather tool of the using-tools example
    returns ["Could not find location: <location>"] and does not ask the
    weather service. *)
Theorem getWeather_no_results (location encoded : jstring) (w : World)
    (response : Response) (w1 : World) (body : jstring) (data : json)
    (results : jsval) :
  encodeURIComponent location = Ok encoded ->
  fetch (Spec.geocoding_url encoded) w = (Ok response, w1) ->
  ok response = true ->
  text response = Ok body ->
  JSON_parse body = Ok data ->
  prop (Some data) (lit "results") = Ok results ->
  truthy (first_opt results) = false ->
  UsingTools.getWeather location w
  = (Ok (lit "Could not find location: " ++ location), w1).
Proof.
  intros Henc Hfetch Hok Htext Hparse Hres Hfalsy.
  unfold UsingTools.getWeather, try_catch, UsingTools.getWeather_try.
  assert (Hgeo : UsingTools.getCoordinates location w = (Ok None, w1)).
  { unfold UsingTools.getCoordinates, bind, pure, do_fetch, json_of, ret.
    rewrite Henc. fold (Spec.geocoding_url encoded).
    rewrite Hfetch, Hok. cbn [negb].
    rewrite Htext, Hparse. unfold pure. cbv beta iota.
    rewrite Hres. cbv beta iota zeta.
    rewrite Hfalsy. reflexivity. }
  now rewrite (bind_of_Ok _ _ _ _ _ Hgeo).
Qed.

End SubAgentTools.

(* ===================================================================== *)
(** ** The further properties on examples *)
(* ===================================================================== *)

Import Scripted Scripts.

Lemma no_tools_answers_at_once_witness :
  exists out state',
    Network.handler (P := platform plain_script) 0 ctx0 weather_input
      long_state []
    = Some (Ok (out, state'),
            [Network.routing_request gpt_5_mini
               (mkMessage system (Some Network.systemPrompt) None None
                  :: map Network.history_message long_history
                  ++ [mkMessage user (Some (lit "Weather in Paris?"))
                        None None])])
    /\ Network.response out = lit "Hello there."
    /\ Network.executedPrimitives out = [].
Proof.
  destruct (no_tools_answers_at_once (P := platform plain_script) 0 ctx0
              weather_input long_state []
              (mkCompletion
                 [mkResponseMessage (Some (lit "Hello there.")) None]
                 (Some 7))
              [Network.routing_request gpt_5_mini
                 (mkMessage system (Some Network.systemPrompt) None None
                    :: map Network.history_message long_history
                    ++ [mkMessage user (Some (lit "Weather in Paris?"))
                          None None])]
              eq_refl eq_refl)
    as (out & state' & Hrun & Hresp & Hexec & _).
  exists out, state'. split; [exact Hrun|]. split; [exact Hresp|exact Hexec].
Defined.

Lemma executed_primitives_are_function_names_witness :
  exists out state' w',
    Network.handler (P := platform weather_script) 3 ctx0 weather_input
      long_state [] = Some (Ok (out, state'), w')
    /\ Network.executedPrimitives out = [lit "get_weather"; lit "translate"]
    /\ Network.executedPrimitives out
       = flat_map (fun am => Props.function_names (Props.requested am))
           (Spec.turns (P := platform weather_script) 3 ctx0 weather_input
              long_state []).
Proof.
  eexists _, _, _. split; [vm_compute; reflexivity|].
  split; [vm_compute; reflexivity|].
  eapply (executed_primitives_are_function_names
            (P := platform weather_script) 3 ctx0 weather_input long_state []).
  vm_compute. reflexivity.
Defined.

Lemma malformed_arguments_abort_the_pass_witness :
  Network.loop_body (P := platform weather_script) ctx0 gpt_5_mini
    broken_state broken_message broken_calls [] = (Throw SyntaxError, []).
Proof.
  eapply (malformed_arguments_abort_the_pass (P := platform weather_script)
            ctx0 gpt_5_mini broken_state broken_message
            [FunctionToolCall (lit "call_1") (lit "translate")
               (lit "{location}")]
            [FunctionToolCall (lit "call_3") (lit "get_weather")
               (lit "{location}")]
            (lit "call_2") (lit "translate") (lit "{location")).
  - vm_compute. reflexivity.
  - reflexivity.
Defined.

Lemma model_failure_ends_the_invocation_witness :
  Network.handler (P := platform (mkScript [] offline [])) 5 ctx0
    weather_input ∅ []
  = Some (Throw (Rejected (lit "script used up")),
          [Network.routing_request gpt_5_mini
             [mkMessage system (Some Network.systemPrompt) None None;
              mkMessage user (Some (lit "Weather in Paris?")) None None]]).
Proof.
  eapply (proj1 (model_failure_ends_the_invocation
                   (P := platform (mkScript [] offline [])) ctx0
                   weather_input ∅ [])).
  vm_compute. reflexivity.
Defined.

Lemma city_research_is_known : lit "city_research" ∈ Spec.known_tools.
Proof.
  unfold Spec.known_tools. rewrite !elem_of_cons. auto.
Defined.

Lemma null_arguments_throw_witness :
  exists w',
    Network.executeTool (P := platform null_args_script) ctx0
      (lit "city_research") JNull [] [] = (Throw TypeError, w').
Proof.
  exact (null_arguments_throw (P := platform null_args_script) ctx0
           (lit "city_research") [] [] city_research_is_known).
Defined.

Lemma events_of_an_invocation_witness :
  exists out state' w',
    Network.handler (P := platform weather_script) 3 ctx0 weather_input
      long_state [] = Some (Ok (out, state'), w')
    /\ map Network.type (Network.events out)
       = [Network.network_start; Network.routing_agent_start;
          Network.routing_agent_end]
           ++ flat_map Props.pass_events
                (Spec.turns (P := platform weather_script) 3 ctx0
                   weather_input long_state [])
           ++ [Network.network_complete]
    /\ length (Network.events out) = 11%nat.
Proof.
  eexists _, _, _. split; [vm_compute; reflexivity|]. split.
  - eapply (events_of_an_invocation (P := platform weather_script) 3 ctx0
              weather_input long_state []).
    vm_compute. reflexivity.
  - vm_compute. reflexivity.
Defined.

Lemma two_clean_insights :
  Forall Props.clean_insight [lit "founded long ago"; lit "has a tower"].
Proof.
  repeat constructor; try discriminate; vm_compute; reflexivity.
Defined.

Lemma parse_insights_of_insightsList_witness :
  Research.parse_insights
    (Writing.insightsList [lit "founded long ago"; lit "has a tower"])
  = [lit "founded long ago"; lit "has a tower"].
Proof.
  exact (parse_insights_of_insightsList _ two_clean_insights).
Defined.

Lemma research_without_content_witness :
  Research.handler (P := platform null_script) ctx0 (lit "Paris") None []
  = (Ok (Research.mkResearchOutput (lit "Paris") []
           (lit "sess_1") (lit "thrd_1")),
     [mkChatRequest (lit "gpt-5-mini")
        [user_message (Research.prompt (lit "Paris"))] None false]).
Proof.
  eapply (research_without_content (P := platform null_script) ctx0
            (lit "Paris") None []).
  - reflexivity.
  - constructor.
Defined.

Lemma truncate_bounds_witness :
  DayPlanner.truncate (lit "Plan a quiet Sunday") 6 = lit "Plan a...".
Proof.
  eapply (proj2 (proj2 (proj2
            (truncate_bounds (lit "Plan a quiet Sunday") 6)))).
  vm_compute. lia.
Defined.

Lemma day_planner_counts_activities_witness :
  exists out state' summary,
    DayPlanner.handler (P := platform plan_script) ctx0 planner_input ∅ []
    = (Ok (out, state'),
       Spec.tick (P := platform plan_script)
         [Spec.planner_request planner_input])
    /\ prop (Some two_blocks) (lit "summary") = Ok summary
    /\ DayPlanner.plan out = prop_value two_blocks
    /\ DayPlanner.summary out = summary
    /\ DayPlanner.totalActivities out = Some 3%nat.
Proof.
  assert (Hle : N.of_nat (list_sum [2; 1]%nat) <= DayPlanner.exact_limit)
    by (vm_compute; discriminate).
  destruct (day_planner_counts_activities (P := platform plan_script) ctx0
              planner_input ∅ [] _ _ two_blocks _ [2; 1]%nat
              eq_refl eq_refl eq_refl eq_refl Hle)
    as (out & state' & summary & Hrun & Hs & Hp & Hsum & Ht & _).
  exists out, state', summary. repeat split; assumption.
Defined.

Lemma day_planner_broken_block_witness :
  DayPlanner.handler (P := platform null_block_script) ctx0 planner_input ∅ []
  = (Throw TypeError, [Spec.planner_request planner_input]).
Proof.
  eapply (day_planner_broken_block (P := platform null_block_script) ctx0
            planner_input ∅ [] _ _ null_block
            [JObj [(lit "activities", JArr [])]; JNull] JNull).
  - vm_compute. reflexivity.
  - vm_compute. reflexivity.
  - reflexivity.
  - apply elem_of_cons. right. apply elem_of_cons. now left.
  - now left.
Defined.

Lemma day_planner_history_witness :
  exists out state' w' entry,
    DayPlanner.handler (P := platform plan_script) ctx0 planner_input ∅ []
    = (Ok (out, state'), w')
    /\ last (DayPlanner.history out) = Some entry
    /\ state' !! lit "history" = Some (DayPlanner.history out)
    /\ DayPlanner.h_prompt entry = lit "Plan a quiet Sunday"
    /\ DayPlanner.h_activityCount entry = DayPlanner.totalActivities out.
Proof.
  assert (Hrun : exists out state' w',
    DayPlanner.handler (P := platform plan_script) ctx0 planner_input ∅ []
    = (Ok (out, state'), w')).
  { eexists _, _, _. vm_compute. reflexivity. }
  destruct Hrun as (out & state' & w' & Hrun).
  destruct (day_planner_history (P := platform plan_script) ctx0
              planner_input ∅ [] out state' w' Hrun)
    as (entry & _ & Hs & _ & Hl & Hp & _ & Hc & _).
  exists out, state', w', entry.
  split; [exact Hrun|]. split; [exact Hl|]. split; [exact Hs|].
  split; [exact Hp|exact Hc].
Defined.

Lemma getWeather_success_witness :
  UsingTools.getWeather (P := platform sunny_script) (lit "Paris") []
  = (Ok (lit "Paris: Partly cloudy, 21.5" ++ degree
           ++ lit "C, Wind: 9 km/h"), []).
Proof.
  eapply (getWeather_success (P := platform sunny_script) (lit "Paris") []
            (UsingTools.mkCoordinates (Some (JNum (lit "48.85")))
               (Some (JNum (lit "2.35"))) (Some (JStr (lit "Paris"))))
            _ [] (mkResponse true (Ok (lit "{forecast}"))) []
            (lit "{forecast}") forecast_body
            (Some (JObj [(lit "temperature_2m", JNum (lit "21.5"));
                         (lit "weather_code", JNum (lit "2"));
                         (lit "wind_speed_10m", JNum (lit "9"))]))
            (Some (JNum (lit "2"))) (Some (JNum (lit "21.5")))
            (Some (JNum (lit "9")))
            (lit "2") (lit "Paris") (lit "21.5") (lit "9")).
  - vm_compute. reflexivity.
  - vm_compute. reflexivity.
  - vm_compute. reflexivity.
  - reflexivity.
  - reflexivity.
  - reflexivity.
  - reflexivity.
  - reflexivity.
  - reflexivity.
  - reflexivity.
  - reflexivity.
  - reflexivity.
  - reflexivity.
  - reflexivity.
Defined.

Lemma sunny_calls_readable :
  Forall (Props.readable (P := platform sunny_script)) sunny_calls.
Proof.
  repeat constructor; exists paris_args;
    (split; [reflexivity|]);
    intros _; exists (Some (JStr (lit "Paris"))), (lit "Paris");
    split; reflexivity.
Defined.

Lemma weather_tools_never_abort_witness :
  exists acc' w',
    WeatherAgent.run_tool_calls (P := platform sunny_script) stringify
      sunny_calls ([], []) [] = (Ok acc', w').
Proof.
  exact (weather_tools_never_abort (P := platform sunny_script) stringify
           sunny_calls sunny_calls_readable ([], []) []).
Defined.

Lemma weather_unprintable_location_aborts_witness :
  WeatherAgent.run_tool_calls (P := platform odd_location_script) stringify
    odd_location_calls ([], []) []
  = (Throw TypeError, []).
Proof.
  exact (proj2
           (weather_unprintable_location_aborts
              (P := platform odd_location_script) stringify
              (lit "call_1") (lit "{location}") odd_location_args
              (Some odd_location) TypeError
              [FunctionToolCall (lit "call_2") (lit "get_time")
                 (lit "{location}")]
              ([], []) [] eq_refl eq_refl eq_refl)).
Defined.

Lemma weather_tool_records_witness :
  exists acc' w',
    WeatherAgent.run_tool_calls (P := platform sunny_script) stringify
      sunny_calls ([], []) [] = (Ok acc', w')
    /\ map WeatherAgent.tc_output (snd acc')
       = [lit "Paris: Partly cloudy, 21.5" ++ degree ++ lit "C, Wind: 9 km/h";
          lit "Unknown tool: get_time"]
    /\ exists results records,
         fst acc' = [] ++ results
         /\ snd acc' = [] ++ records
         /\ Forall2 Spec.answers (List.filter is_function sunny_calls) results
         /\ Forall2 (fun m r => content m = Some (WeatherAgent.tc_output r))
              results records
         /\ map WeatherAgent.tc_tool records
            = Props.function_names sunny_calls.
Proof.
  eexists _, _. split; [vm_compute; reflexivity|].
  split; [vm_compute; reflexivity|].
  eapply (weather_tool_records (P := platform sunny_script) stringify
            sunny_calls ([], []) []).
  vm_compute. reflexivity.
Defined.

Lemma weather_agent_totals_witness :
  exists out w',
    WeatherAgent.handler (P := platform sunny_script) stringify 3
      (lit "Weather in Paris?") [] = Some (Ok out, w')
    /\ WeatherAgent.tokens out = 14
    /\ WeatherAgent.response out = lit "Partly cloudy in Paris."
    /\ WeatherAgent.tokens out
       = Props.total_tokens
           (Props.weather_completions (P := platform sunny_script) stringify
              3 (lit "Weather in Paris?") []).
Proof.
  eexists _, _. split; [vm_compute; reflexivity|].
  split; [vm_compute; reflexivity|].
  split; [vm_compute; reflexivity|].
  eapply (weather_agent_totals (P := platform sunny_script) stringify 3
            (lit "Weather in Paris?") []).
  vm_compute. reflexivity.
Defined.

Lemma cleared_history_starts_afresh_witness :
  exists out state' w',
    Network.handler (P := platform plain_script) 1 ctx0 weather_input
      (snd (Routes.delete_history ctx0 long_state)) []
    = Some (Ok (out, state'), w')
    /\ Routes.conversation (Routes.get_history ctx0 state')
       = [Network.mkHistoryEntry user (lit "Weather in Paris?");
          Network.mkHistoryEntry assistant (Network.response out)].
Proof.
  assert (Hrun : exists out state' w',
    Network.handler (P := platform plain_script) 1 ctx0 weather_input
      (snd (Routes.delete_history ctx0 long_state)) []
    = Some (Ok (out, state'), w')).
  { eexists _, _, _. vm_compute. reflexivity. }
  destruct Hrun as (out & state' & w' & Hrun).
  destruct (cleared_history_starts_afresh (P := platform plain_script) 1 ctx0
              weather_input long_state [] out state' w' Hrun)
    as (_ & _ & Hshown).
  exists out, state', w'. split; [exact Hrun|exact Hshown].
Defined.

Lemma next_invocation_replays_history_witness :
  exists out1 state1 w1 out2 state2 w3,
    Network.handler (P := platform plain_script) 1 ctx0 weather_input ∅ []
    = Some (Ok (out1, state1), w1)
    /\ Network.handler (P := platform plain_script) 1 ctx0 weather_input
         state1 [] = Some (Ok (out2, state2), w3)
    /\ Routes.conversation (Routes.get_history ctx0 state1)
       = slice_last 20
           (default [] ((∅ : gmap jstring (list Network.HistoryEntry))
                          !! lit "conversation")
              ++ [Network.mkHistoryEntry user (lit "Weather in Paris?");
                  Network.mkHistoryEntry assistant (Network.response out1)]).
Proof.
  assert (Hrun1 : exists out1 state1 w1,
    Network.handler (P := platform plain_script) 1 ctx0 weather_input ∅ []
    = Some (Ok (out1, state1), w1)
    /\ exists out2 state2 w3,
         Network.handler (P := platform plain_script) 1 ctx0 weather_input
           state1 [] = Some (Ok (out2, state2), w3)).
  { eexists _, _, _. split; [vm_compute; reflexivity|].
    eexists _, _, _. vm_compute. reflexivity. }
  destruct Hrun1 as (out1 & state1 & w1 & Hrun1 & out2 & state2 & w3 & Hrun2).
  destruct (next_invocation_replays_history (P := platform plain_script)
              1 1 ctx0 weather_input weather_input ∅ state1 state2
              [] w1 [] w3 out1 out2 Hrun1 Hrun2)
    as (Hshown & _).
  exists out1, state1, w1, out2, state2, w3.
  split; [exact Hrun1|]. split; [exact Hrun2|exact Hshown].
Defined.

Lemma prompt_depends_on_last_five_witness :
  MemoryPrompt.buildSystemPrompt earlier_messages alice
  = MemoryPrompt.buildSystemPrompt
      (replicate 7 (Memory.mkChatMessage assistant (lit "forgotten")
                      (lit "2024-12-31T00:00:00.000Z"))
         ++ slice_last 5 earlier_messages) alice.
Proof.
  eapply prompt_depends_on_last_five.
  - reflexivity.
  - vm_compute. reflexivity.
Defined.

Lemma three_words :
  Spec.is_word (lit "Paris")
  /\ Forall (fun gw => Spec.is_gap (fst gw) /\ Spec.is_word (snd gw))
       [(lit "  ", lit "is"); ([10; 9], lit "old.")].
Proof.
  repeat split; try discriminate; repeat constructor; discriminate.
Defined.

Lemma count_words_of_words_witness :
  Writing.count_words
    (lit "Paris"
       ++ Spec.gaps_and_words [(lit "  ", lit "is"); ([10; 9], lit "old.")])
  = 3%nat.
Proof.
  exact (count_words_of_words _ _ (proj1 three_words) (proj2 three_words)).
Defined.

Lemma research_topic_result_witness :
  exists events',
    Network.executeTool (P := platform research_script) ctx0
      (lit "research_topic") paris_topic [] []
    = (Ok (lit "Research on " ++ dquote ++ lit "Paris" ++ dquote ++ lit ":"
             ++ newline ++ bullet ++ lit " founded long ago" ++ newline
             ++ bullet ++ lit " has a tower",
           events'),
       [mkChatRequest (lit "gpt-5-mini")
          [user_message (Research.prompt (lit "Paris"))] None false]).
Proof.
  exact (research_topic_result (P := platform research_script) ctx0
           paris_topic (lit "Paris") [] []
           (mkCompletion
              [mkResponseMessage (Some (lit "- founded long ago
* has a tower
")) None] (Some 7))
           [mkChatRequest (lit "gpt-5-mini")
              [user_message (Research.prompt (lit "Paris"))] None false]
           eq_refl eq_refl).
Defined.

Lemma write_content_default_style_witness :
  exists events',
    Network.executeTool (P := platform plain_script) ctx0
      (lit "write_content") tower_args [] []
    = (Ok (lit "Hello there.", events'),
       [Spec.writing_request (lit "Paris") [lit "has a tower"] Writing.blog]).
Proof.
  exact (write_content_default_style (P := platform plain_script) ctx0
           tower_args (lit "Paris")
           (Some (JArr [JStr (lit "has a tower")])) (Some (JStr []))
           [lit "has a tower"] [] []
           (mkCompletion
              [mkResponseMessage (Some (lit "Hello there.")) None] (Some 7))
           [Spec.writing_request (lit "Paris") [lit "has a tower"]
              Writing.blog]
           eq_refl eq_refl eq_refl eq_refl eq_refl eq_refl).
Defined.

Lemma getWeather_no_results_witness :
  UsingTools.getWeather (P := platform empty_results_script) (lit "Atlantis")
    []
  = (Ok (lit "Could not find location: Atlantis"), []).
Proof.
  exact (getWeather_no_results (P := platform empty_results_script)
           (lit "Atlantis") (lit "Atlantis") []
           (mkResponse true (Ok (lit "{geo}"))) [] (lit "{geo}")
           (JObj [(lit "results", JArr [])]) (Some (JArr []))
           eq_refl eq_refl eq_refl eq_refl eq_refl eq_refl eq_refl).
Defined.
